(** * NLI-monitor: crowd monitor, collector and archive sync

    A shallow embedding of the Python sources

      - [monitor.py]                      (module [Monitor])
      - [functions/collector/main.py]     (module [Collector])
      - [local/database.py]               (module [Database])
      - [local/sync.py]                   (module [Sync])

    Python integers are [Z], Python [str] values are byte strings
    ([string], UTF-8 encoded), dictionaries are [gmap]s, SQL tables are
    lists of rows in insertion order.  What the program reads from the
    outside (the clock, HTTP responses, the secret store, the object
    store) is an explicit argument; what it changes (the id file, the
    bucket, the database) is an explicit state that every function
    returns.

    Failures are modelled where the sources handle them or let them
    through: a post that raises or gets an error status, an answer to
    [sendMessage] whose body is not JSON, is not a JSON object or lacks
    the message id, a secret that cannot be read, a storage client that
    cannot be had, a popularity lookup that raises, a storage call of the
    collector that raises, a text that is not JSON, a value that a
    dictionary lookup or an SQL statement refuses, a constraint of the
    schema.  [json.loads] and [json.dumps] are parameters.  A body that
    is not JSON makes [response.json()] raise an exception of the HTTP
    library ([requests.exceptions.JSONDecodeError], a
    [RequestException]).  [str.strip] strips the white space of Unicode,
    read off the UTF-8 encoding; where a stored content is stripped, the
    theorems that depend on the result say what they ask of the content.
    Outside the model: a fault of the local id file or of the SQLite file
    itself, a stored content that cannot be decoded, a failed download of
    a listed object, JSON numbers that are not integers and message ids
    that are not integers. *)

From Stdlib Require Import ZArith String Ascii List Bool Lia DecimalString.
From stdpp Require Import base option gmap strings list.

Local Open Scope string_scope.
Local Open Scope Z_scope.

(** ** Python string and integer helpers *)

Module Py.

(** [s.startswith(p)] *)
Fixpoint startswith (s p : string) : bool :=
  match p, s with
  | EmptyString, _ => true
  | String _ _, EmptyString => false
  | String a p', String b s' => if Ascii.eqb a b then startswith s' p' else false
  end.

(** [needle in hay] on strings *)
Fixpoint contains (needle hay : string) : bool :=
  if startswith hay needle then true
  else match hay with
       | EmptyString => false
       | String _ hay' => contains needle hay'
       end.

Fixpoint rev_acc (s acc : string) : string :=
  match s with
  | EmptyString => acc
  | String c s' => rev_acc s' (String c acc)
  end.

Definition rev (s : string) : string := rev_acc s EmptyString.

(** [s.endswith(p)] *)
Definition endswith (s p : string) : bool := startswith (rev s) (rev p).

(** The value of a byte. *)
Definition code (c : ascii) : Z := Z.of_nat (nat_of_ascii c).

(** The ASCII characters for which [str.isspace] holds: tab, line feed,
    vertical tab, form feed, carriage return, the four separators
    0x1c-0x1f and the space. *)
Definition isspace (c : ascii) : bool :=
  let n := Z.of_nat (nat_of_ascii c) in
  ((9 <=? n) && (n <=? 13)) || ((28 <=? n) && (n <=? 32)).

(** The other characters for which [str.isspace] holds, by their UTF-8
    encodings: U+0085 and U+00A0 (C2 85, C2 A0); U+1680 (E1 9A 80);
    U+2000 to U+200A, U+2028, U+2029 and U+202F (E2 80 80 to E2 80 8A,
    E2 80 A8, E2 80 A9, E2 80 AF); U+205F (E2 81 9F); U+3000 (E3 80 80). *)
Definition isspace2 (a b : ascii) : bool :=
  (code a =? 194) && ((code b =? 133) || (code b =? 160)).

Definition isspace3 (a b c : ascii) : bool :=
  ((code a =? 225) && (code b =? 154) && (code c =? 128))
  || ((code a =? 226) && (code b =? 128)
      && (((128 <=? code c) && (code c <=? 138))
          || (code c =? 168) || (code c =? 169) || (code c =? 175)))
  || ((code a =? 226) && (code b =? 129) && (code c =? 159))
  || ((code a =? 227) && (code b =? 128) && (code c =? 128)).

(** [s.lstrip()]: the white space characters at the start are dropped,
    one, two or three bytes at a time. *)
Fixpoint lstrip (s : string) : string :=
  match s with
  | EmptyString => EmptyString
  | String a s1 =>
      if isspace a then lstrip s1
      else
        match s1 with
        | EmptyString => s
        | String b s2 =>
            if isspace2 a b then lstrip s2
            else
              match s2 with
              | EmptyString => s
              | String c s3 => if isspace3 a b c then lstrip s3 else s
              end
        end
  end.

(** [lstrip] on the reversed string, where every character's bytes come
    last byte first. *)
Fixpoint lstrip_rev (s : string) : string :=
  match s with
  | EmptyString => EmptyString
  | String a s1 =>
      if isspace a then lstrip_rev s1
      else
        match s1 with
        | EmptyString => s
        | String b s2 =>
            if isspace2 b a then lstrip_rev s2
            else
              match s2 with
              | EmptyString => s
              | String c s3 => if isspace3 c b a then lstrip_rev s3 else s
              end
        end
  end.

(** [s.rstrip()] *)
Definition rstrip (s : string) : string := rev (lstrip_rev (rev s)).

(** A continuation byte of UTF-8. *)
Definition continues (c : ascii) : bool := (128 <=? code c) && (code c <=? 191).

(** The byte string is the UTF-8 encoding of a Python [str]: well-formed
    sequences only, no overlong form, no surrogate, nothing beyond
    U+10FFFF. *)
Fixpoint is_text (s : string) : bool :=
  match s with
  | EmptyString => true
  | String a s1 =>
      if code a <? 128 then is_text s1
      else
        match s1 with
        | EmptyString => false
        | String b s2 =>
            if (194 <=? code a) && (code a <=? 223) then continues b && is_text s2
            else
              match s2 with
              | EmptyString => false
              | String c s3 =>
                  if (224 <=? code a) && (code a <=? 239) then
                    continues b && continues c
                    && (if code a =? 224 then 160 <=? code b
                        else if code a =? 237 then code b <=? 159 else true)
                    && is_text s3
                  else
                    match s3 with
                    | EmptyString => false
                    | String d s4 =>
                        (240 <=? code a) && (code a <=? 244)
                        && continues b && continues c && continues d
                        && (if code a =? 240 then 144 <=? code b
                            else if code a =? 244 then code b <=? 143 else true)
                        && is_text s4
                    end
              end
        end
  end.

(** [s.strip()] *)
Definition strip (s : string) : string := rstrip (lstrip s).

(** [str(n)] for an integer [n] *)
Definition str (n : Z) : string := NilZero.string_of_int (Z.to_int n).

(** [bool(s)] for a string: only the empty string is false *)
Definition truthy (s : string) : bool :=
  match s with EmptyString => false | String _ _ => true end.

(** [bool(x)] for [x : str | None] *)
Definition truthy_opt (o : option string) : bool :=
  match o with None => false | Some s => truthy s end.

Fixpoint zeros (n : nat) : string :=
  match n with O => EmptyString | S n' => String "0" (zeros n') end.

(** [s.zfill(w)] for the rendering of a non-negative number *)
Definition zfill (w : nat) (s : string) : string :=
  zeros (w - String.length s) ++ s.

(** The line feed character, written [\n] in the sources. *)
Definition nl : string := String (ascii_of_nat 10) EmptyString.

End Py.

(** ** Exceptions and the state monad of the embedding

    A computation reads and changes a state [S] and either returns a value
    or raises; [try_except] is Python's [try: ... except ...:] for the
    exceptions selected by [catches]. *)

Inductive exn : Type :=
| SecretManagerError (* whatever the secret store raises *)
| JSONDecodeError
| AttributeError
| KeyError
| TypeError
| StorageClientError (* whatever [storage.Client()] raises *)
| OverflowError
| InterfaceError     (* sqlite3: a parameter of an unsupported type *)
| IntegrityError.    (* sqlite3: a constraint failed *)

Inductive result (A : Type) : Type :=
| Ok (a : A)
| Raise (e : exn).
Arguments Ok {A} a.
Arguments Raise {A} e.

Definition exec (S A : Type) : Type := S -> result A * S.

#[global] Instance exec_ret {S} : MRet (exec S) := fun A a s => (Ok a, s).

#[global] Instance exec_bind {S} : MBind (exec S) := fun A B f m s =>
  match m s with
  | (Ok a, s') => f a s'
  | (Raise e, s') => (Raise e, s')
  end.

Definition raise {S A} (e : exn) : exec S A := fun s => (Raise e, s).

Definition get_state {S} : exec S S := fun s => (Ok s, s).

Definition modify {S} (f : S -> S) : exec S unit := fun s => (Ok tt, f s).

Definition try_except {S A} (body : exec S A) (catches : exn -> bool)
    (handler : exn -> exec S A) : exec S A := fun s =>
  match body s with
  | (Ok a, s') => (Ok a, s')
  | (Raise e, s') => if catches e then handler e s' else (Raise e, s')
  end.

(** [except Exception] *)
Definition any_exception (e : exn) : bool := true.

(** ** The clock *)

(** A value of [datetime.datetime.now()] or [datetime.datetime.now(tz)].
    [weekday] is what [now.weekday()] returns (Monday is 0);
    [utcoffset] is in minutes and absent for a naive datetime. *)
Record datetime : Type := mk_datetime {
  year : Z; month : Z; day : Z;
  hour : Z; minute : Z; second : Z; microsecond : Z;
  utcoffset : option Z;
  weekday : Z;
}.

Definition fmt (w : nat) (n : Z) : string := Py.zfill w (Py.str n).

(** [now.strftime("%H:%M")] *)
Definition strftime_HM (now : datetime) : string :=
  fmt 2 (hour now) ++ ":" ++ fmt 2 (minute now).

(** [now.strftime(f"{prefix}%Y/%m/%d/%H-%M.json")] *)
Definition strftime_path (prefix : string) (now : datetime) : string :=
  prefix ++ fmt 4 (year now) ++ "/" ++ fmt 2 (month now) ++ "/" ++ fmt 2 (day now)
         ++ "/" ++ fmt 2 (hour now) ++ "-" ++ fmt 2 (minute now) ++ ".json".

(** [now.isoformat()] *)
Definition isoformat (now : datetime) : string :=
  fmt 4 (year now) ++ "-" ++ fmt 2 (month now) ++ "-" ++ fmt 2 (day now) ++ "T"
  ++ fmt 2 (hour now) ++ ":" ++ fmt 2 (minute now) ++ ":" ++ fmt 2 (second now)
  ++ (if microsecond now =? 0 then "" else "." ++ fmt 6 (microsecond now))
  ++ match utcoffset now with
     | None => ""
     | Some off =>
         (if off <? 0 then "-" else "+")
         ++ fmt 2 (Z.abs off / 60) ++ ":" ++ fmt 2 (Z.abs off mod 60)
     end.

(** ** The messaging provider, seen through [requests.post] *)

(** The JSON payload of a request to the Bot API. *)
Record request : Type := mk_request {
  url : string;
  chat_id : string;
  message_id : option string;
  text : string;
  parse_mode : string;
}.

(** What [data["result"]["message_id"]] finds in the answer's JSON
    object. *)
Inductive result_field : Type :=
| ResultMissing
    (* no key ["result"]: [KeyError] *)
| ResultOther
    (* ["result"] is not an object (a list, a string, a number, [true],
       [false], [null]): [TypeError] *)
| ResultDict (message_id : option Z).
    (* ["result"] is an object; without the key ["message_id"]:
       [KeyError]; the id is an integer, as the Bot API gives it *)

(** What [response.json()] does, as far as [send_telegram_message] looks
    at it. *)
Inductive json_answer : Type :=
| JsonInvalid
    (* the body is not JSON: [json()] raises
       [requests.exceptions.JSONDecodeError], which is a
       [RequestException] (requests 2.27 and later) *)
| JsonOther
    (* JSON, but not an object: [data.get] raises [AttributeError] *)
| JsonDict (ok : bool) (result : result_field).
    (* an object; [ok] is the truth value of [data.get("ok")] *)

(** An HTTP response: its status, its body as text ([response.text]) and
    what [response.json()] gives. *)
Record response : Type := mk_response {
  status_code : Z;
  body : string;
  json_data : json_answer;
}.

(** [requests.post] either raises a [requests.exceptions.RequestException]
    (no connection, timeout), which the callers catch on the spot, or
    returns a response. *)
Inductive post_result : Type :=
| PostRaises
| PostReturns (r : response).

(** [response.raise_for_status()] raises [HTTPError], a
    [RequestException], for the 4xx and 5xx statuses. *)
Definition raises_for_status (r : response) : bool :=
  (400 <=? status_code r) && (status_code r <? 600).

(** What a run does to the outside world, in order. *)
Inductive event : Type :=
| EvSecret (secret_id : string) (res : option string)
| EvFetch (api_key place_id : string) (res : option (option Z))
| EvStateRead (res : option string)
| EvStateWrite (message_id : string) (stored : bool)
| EvArchiveWrite (path : string) (stored : bool)
| EvPost (req : request) (res : post_result).

Definition sendMessage_url (token : string) : string :=
  "https://api.telegram.org/bot" ++ token ++ "/sendMessage".

Definition editMessageText_url (token : string) : string :=
  "https://api.telegram.org/bot" ++ token ++ "/editMessageText".

(** ** JSON documents and the object store *)

(** A JSON value as the programs use it: as a truth value, as a dictionary
    key and as an SQL parameter.  Of a list or an object only its
    emptiness matters; numbers are integers, as the collector writes
    them. *)
Inductive jval : Type :=
| JNull
| JBool (b : bool)
| JInt (z : Z)
| JStr (s : string)
| JCompound (nonempty : bool).

(** The root of a parsed document: a dictionary, or anything else. *)
Inductive json : Type :=
| JObject (fields : gmap string jval)
| JOther.

(** [bool(v)] *)
Definition jtruthy (v : jval) : bool :=
  match v with
  | JNull => false
  | JBool b => b
  | JInt z => negb (z =? 0)
  | JStr s => Py.truthy s
  | JCompound nonempty => nonempty
  end.

(** [data.get(key)] and [data.get(key, default)] *)
Definition dict_get (data : gmap string jval) (key : string) (default : jval) : jval :=
  match data !! key with
  | Some v => v
  | None => default
  end.

(** An object of the bucket: its name and its content as text. *)
Record blob : Type := mk_blob {
  name : string;
  content : string;
}.

(** [bucket.blob(path)] followed by [exists()] / [download_as_text()] *)
Definition find_blob (path : string) (bucket : list blob) : option blob :=
  List.find (fun b => String.eqb (name b) path) bucket.

(** [blob.upload_from_string(text)]: the object is created, or replaced
    when one of that name exists. *)
Fixpoint upload (path text : string) (bucket : list blob) : list blob :=
  match bucket with
  | [] => [mk_blob path text]
  | b :: rest =>
      if String.eqb (name b) path then mk_blob path text :: rest
      else b :: upload path text rest
  end.

(** [bucket.list_blobs(prefix=prefix)] *)
Definition list_blobs (prefix : string) (bucket : list blob) : list blob :=
  List.filter (fun b => Py.startswith (name b) prefix) bucket.

(** ** [monitor.py]: the long-running local monitor *)

Module Monitor.

(** The module-level configuration, read once from the process
    environment ([os.getenv]).  [MESSAGE_ID_FILE] names the one file of
    [world] below. *)
Record config : Type := mk_config {
  GOOGLE_API_KEY : string;
  PLACE_ID : string;
  TELEGRAM_BOT_TOKEN : string;
  TELEGRAM_CHAT_ID : string;
}.

(** What one call of [run_check] reads from outside the process. *)
Record environment : Type := mk_environment {
  now_check : datetime;  (* the clock, read by [is_library_open] *)
  now_stamp : datetime;  (* the clock, read for the message's timestamp *)
  populartimes : string -> string -> option (option Z);
    (* [get_populartimes_by_PlaceID]: absent when it raises, else the
       [current_popularity] entry of its result, if any *)
  requests_post : request -> post_result;
}.

(** The state [run_check] changes: the content of [MESSAGE_ID_FILE]
    (absent when the file does not exist) and the calls made so far. *)
Record world : Type := mk_world {
  id_file : option string;
  trace : list event;
}.

Definition log (e : event) : exec world unit :=
  modify (fun w => mk_world (id_file w) (trace w ++ [e])).

(** [OPERATING_HOURS]: Monday is 0 and Sunday is 6; Saturday (5) has no
    entry. *)
Definition OPERATING_HOURS : gmap Z (Z * Z) :=
  <[0 := (9, 20)]> (<[1 := (9, 20)]> (<[2 := (9, 20)]> (<[3 := (9, 20)]>
  (<[4 := (9, 13)]> (<[6 := (9, 20)]> ∅))))).

(** [is_library_open], given the value [now] it reads from the clock:
<<
    if weekday in OPERATING_HOURS:
        open_hour, close_hour = OPERATING_HOURS[weekday]
        return open_hour <= current_hour < close_hour
    return False
>> *)
Definition is_library_open (now : datetime) : bool :=
  let weekday := weekday now in
  let current_hour := hour now in
  match OPERATING_HOURS !! weekday with
  | Some (open_hour, close_hour) =>
      (open_hour <=? current_hour) && (current_hour <? close_hour)
  | None => false
  end.

(** [classify_load] *)
Definition classify_load (popularity : option Z) : string * string :=
  match popularity with
  | None => ("לא ידוע", "⚪️")
  | Some popularity =>
      if popularity <? 30 then ("נמוך", "🟢")
      else if (30 <=? popularity) && (popularity <? 60) then ("בינוני", "🟡")
      else ("גבוה", "🔴")
  end.

Section Run.

Variable cfg : config.
Variable env : environment.

(** [get_crowd_data]: any exception of the provider's library is
    swallowed and becomes [None]. *)
Definition get_crowd_data : exec world (option Z) :=
  let res := populartimes env (GOOGLE_API_KEY cfg) (PLACE_ID cfg) in
  log (EvFetch (GOOGLE_API_KEY cfg) (PLACE_ID cfg) res);;
  match res with
  | Some current_popularity => mret current_popularity
  | None => mret None
  end.

(** [get_last_message_id]: the stripped content of the file, [None] on
    [FileNotFoundError].  The content is taken as it is written, which
    is what the read in text mode gives for a content that is text and
    has no carriage return. *)
Definition get_last_message_id : exec world (option string) :=
  w ← get_state;
  let res := Py.strip <$> id_file w in
  log (EvStateRead res);;
  mret res.

(** [save_last_message_id]: the file is overwritten with
    [str(message_id)]. *)
Definition save_last_message_id (message_id : Z) : exec world unit :=
  modify (fun w => mk_world (Some (Py.str message_id)) (trace w));;
  log (EvStateWrite (Py.str message_id) true).

(** [send_telegram_message]: posts a new message and, when the provider
    answers with [ok], saves its id.  Only a [RequestException] is caught:
    what reading the answer's JSON raises leaves the function.
<<
    try:
        response = requests.post(url, json=payload)
        response.raise_for_status()
        data = response.json()
        if data.get("ok"):
            message_id = data["result"]["message_id"]
            save_last_message_id(message_id)
    except requests.exceptions.RequestException as e:
        print(...)
>> *)
Definition send_telegram_message (text : string) : exec world unit :=
  let payload :=
    mk_request (sendMessage_url (TELEGRAM_BOT_TOKEN cfg)) (TELEGRAM_CHAT_ID cfg)
               None text "Markdown" in
  let res := requests_post env payload in
  log (EvPost payload res);;
  match res with
  | PostRaises => mret tt
  | PostReturns response =>
      if raises_for_status response then mret tt
      else
        match json_data response with
        | JsonInvalid => mret tt
        | JsonOther => raise AttributeError
        | JsonDict false _ => mret tt
        | JsonDict true ResultMissing => raise KeyError
        | JsonDict true ResultOther => raise TypeError
        | JsonDict true (ResultDict None) => raise KeyError
        | JsonDict true (ResultDict (Some message_id)) => save_last_message_id message_id
        end
  end.

(** [edit_telegram_message]
<<
    try:
        response = requests.post(url, json=payload)
        if response.status_code == 400 and 'message is not modified' in response.text:
            return True
        response.raise_for_status()
        return True
    except requests.exceptions.RequestException as e:
        return False
>> *)
Definition edit_telegram_message (message_id text : string) : exec world bool :=
  let payload :=
    mk_request (editMessageText_url (TELEGRAM_BOT_TOKEN cfg)) (TELEGRAM_CHAT_ID cfg)
               (Some message_id) text "Markdown" in
  let res := requests_post env payload in
  log (EvPost payload res);;
  match res with
  | PostRaises => mret false
  | PostReturns response =>
      if (status_code response =? 400)
         && Py.contains "message is not modified" (body response)
      then mret true
      else if raises_for_status response then mret false
      else mret true
  end.

Definition closed_message : string := "הספרייה הלאומית סגורה כעת.".

(** The status text [run_check] builds when the library is open. *)
Definition status_message (emoji load_level : string) (popularity : option Z)
    (timestamp : string) : string :=
  match popularity with
  | Some popularity =>
      emoji ++ " *עדכון עומס בספרייה הלאומית*" ++ Py.nl ++ Py.nl
      ++ "רמת העומס כעת: *" ++ load_level ++ "* (" ++ Py.str popularity ++ "%)"
      ++ Py.nl ++ Py.nl
      ++ "_עודכן לאחרונה: " ++ timestamp ++ "_"
  | None =>
      emoji ++ " *עדכון עומס בספרייה הלאומית*" ++ Py.nl ++ Py.nl
      ++ "לא ניתן היה לקבל את רמת העומס כעת." ++ Py.nl ++ Py.nl
      ++ "_נסיון אחרון: " ++ timestamp ++ "_"
  end.

(** [run_check], the scheduled job.
<<
    if not is_library_open():
        last_message_id = get_last_message_id()
        closed_message = "..."
        if last_message_id:
            edit_telegram_message(last_message_id, closed_message)
        else:
            send_telegram_message(closed_message)
        return
    popularity = get_crowd_data()
    load_level, emoji = classify_load(popularity)
    timestamp = datetime.datetime.now().strftime("%H:%M")
    ...
    last_message_id = get_last_message_id()
    if last_message_id:
        if not edit_telegram_message(last_message_id, message):
            send_telegram_message(message)
    else:
        send_telegram_message(message)
>> *)
Definition run_check : exec world unit :=
  if negb (is_library_open (now_check env)) then
    last_message_id ← get_last_message_id;
    if Py.truthy_opt last_message_id then
      edit_telegram_message (default "" last_message_id) closed_message;;
      mret tt
    else send_telegram_message closed_message
  else
    popularity ← get_crowd_data;
    let '(load_level, emoji) := classify_load popularity in
    let timestamp := strftime_HM (now_stamp env) in
    let message := status_message emoji load_level popularity timestamp in
    last_message_id ← get_last_message_id;
    if Py.truthy_opt last_message_id then
      edited ← edit_telegram_message (default "" last_message_id) message;
      if negb edited then send_telegram_message message else mret tt
    else send_telegram_message message.

End Run.

End Monitor.

(** ** [functions/collector/main.py]: the serverless collector *)

Module Collector.

Definition STATE_BLOB : string := "state/telegram_message_id.txt".
Definition READINGS_PREFIX : string := "readings/".

(** What one invocation of [monitor_crowds] reads from outside. *)
Record environment : Type := mk_environment {
  now : datetime;        (* the clock, read on entry *)
  now_check : datetime;  (* the clock, read by [is_library_open] *)
  now_save : datetime;   (* the clock, read by [save_reading] *)
  secrets : string -> option string;
    (* the secret store: absent when [access_secret_version] raises *)
  populartimes : string -> string -> option (option Z);
  requests_post : request -> post_result;
  state_read_raises : bool;     (* the storage call of [get_last_message_id] fails *)
  state_write_raises : bool;    (* the storage call of [save_last_message_id] fails *)
  archive_write_raises : bool;  (* the storage call of [save_reading] fails *)
}.

(** The state an invocation changes: the bucket and the calls made. *)
Record world : Type := mk_world {
  bucket : list blob;
  trace : list event;
}.

Definition log (e : event) : exec world unit :=
  modify (fun w => mk_world (bucket w) (trace w ++ [e])).

Definition OPERATING_HOURS : gmap Z (Z * Z) :=
  <[0 := (9, 20)]> (<[1 := (9, 20)]> (<[2 := (9, 20)]> (<[3 := (9, 20)]>
  (<[4 := (9, 13)]> (<[6 := (9, 20)]> ∅))))).

(** [is_library_open], given the value [now] it reads from the clock in
    the [Asia/Jerusalem] zone. *)
Definition is_library_open (now : datetime) : bool :=
  let weekday := weekday now in
  let current_hour := hour now in
  match OPERATING_HOURS !! weekday with
  | Some (open_hour, close_hour) =>
      (open_hour <=? current_hour) && (current_hour <? close_hour)
  | None => false
  end.

(** [classify_load] *)
Definition classify_load (popularity : option Z) : string * string :=
  match popularity with
  | None => ("לא ידוע", "⚪️")
  | Some popularity =>
      if popularity <? 30 then ("נמוך", "🟢")
      else if (30 <=? popularity) && (popularity <? 60) then ("בינוני", "🟡")
      else ("גבוה", "🔴")
  end.

Section Run.

Variable json_dumps : json -> string.
Variable env : environment.

(** [get_secret]: raises whatever the secret store raises. *)
Definition get_secret (secret_id : string) : exec world string :=
  let res := secrets env secret_id in
  log (EvSecret secret_id res);;
  match res with
  | Some payload => mret payload
  | None => raise SecretManagerError
  end.

(** [get_crowd_data] *)
Definition get_crowd_data (api_key place_id : string) : exec world (option Z) :=
  let res := populartimes env api_key place_id in
  log (EvFetch api_key place_id res);;
  match res with
  | Some current_popularity => mret current_popularity
  | None => mret None
  end.

(** [get_last_message_id]
<<
    try:
        blob = bucket.blob(STATE_BLOB)
        if blob.exists():
            return blob.download_as_text().strip()
    except Exception as e:
        print(...)
    return None
>> *)
Definition get_last_message_id : exec world (option string) :=
  w ← get_state;
  let res :=
    if state_read_raises env then None
    else match find_blob STATE_BLOB (bucket w) with
         | Some blob => Some (Py.strip (content blob))
         | None => None
         end in
  log (EvStateRead res);;
  mret res.

(** [save_last_message_id]: a failure of the upload is printed and
    swallowed. *)
Definition save_last_message_id (message_id : string) : exec world unit :=
  if state_write_raises env then log (EvStateWrite message_id false)
  else
    modify (fun w => mk_world (upload STATE_BLOB message_id (bucket w)) (trace w));;
    log (EvStateWrite message_id true).

(** [save_reading]: the reading is uploaded as
    [readings/YYYY/MM/DD/HH-MM.json]; a failure is printed and
    swallowed. *)
Definition save_reading (reading : gmap string jval) : exec world unit :=
  let path := strftime_path READINGS_PREFIX (now_save env) in
  if archive_write_raises env then log (EvArchiveWrite path false)
  else
    modify (fun w => mk_world (upload path (json_dumps (JObject reading)) (bucket w)) (trace w));;
    log (EvArchiveWrite path true).

(** [send_telegram_message]: returns the new message's id as a string,
    [None] when the post raises, the status is an error, the body is not
    JSON or the answer is not [ok].  Only a [RequestException] is caught:
    what reading the answer's JSON raises leaves the function.
<<
    try:
        response = requests.post(url, json=payload)
        response.raise_for_status()
        data = response.json()
        if data.get("ok"):
            message_id = str(data["result"]["message_id"])
            return message_id
    except requests.exceptions.RequestException as e:
        print(...)
    return None
>> *)
Definition send_telegram_message (token chat_id text : string) : exec world (option string) :=
  let payload := mk_request (sendMessage_url token) chat_id None text "Markdown" in
  let res := requests_post env payload in
  log (EvPost payload res);;
  match res with
  | PostRaises => mret None
  | PostReturns response =>
      if raises_for_status response then mret None
      else
        match json_data response with
        | JsonInvalid => mret None
        | JsonOther => raise AttributeError
        | JsonDict false _ => mret None
        | JsonDict true ResultMissing => raise KeyError
        | JsonDict true ResultOther => raise TypeError
        | JsonDict true (ResultDict None) => raise KeyError
        | JsonDict true (ResultDict (Some message_id)) => mret (Some (Py.str message_id))
        end
  end.

(** [edit_telegram_message] *)
Definition edit_telegram_message (token chat_id message_id text : string) : exec world bool :=
  let payload := mk_request (editMessageText_url token) chat_id (Some message_id) text "Markdown" in
  let res := requests_post env payload in
  log (EvPost payload res);;
  match res with
  | PostRaises => mret false
  | PostReturns response =>
      if (status_code response =? 400)
         && Py.contains "message is not modified" (body response)
      then mret true
      else if raises_for_status response then mret false
      else mret true
  end.

Definition closed_message : string := "הספרייה הלאומית סגורה כעת.".

Definition status_message (emoji load_level : string) (popularity : option Z)
    (timestamp : string) : string :=
  match popularity with
  | Some popularity =>
      emoji ++ " *עדכון עומס בספרייה הלאומית*" ++ Py.nl ++ Py.nl
      ++ "רמת העומס כעת: *" ++ load_level ++ "* (" ++ Py.str popularity ++ "%)"
      ++ Py.nl ++ Py.nl
      ++ "_עודכן לאחרונה: " ++ timestamp ++ "_"
  | None =>
      emoji ++ " *עדכון עומס בספרייה הלאומית*" ++ Py.nl ++ Py.nl
      ++ "לא ניתן היה לקבל את רמת העומס כעת." ++ Py.nl ++ Py.nl
      ++ "_נסיון אחרון: " ++ timestamp ++ "_"
  end.

(** The send-or-edit block, which [monitor_crowds] writes out twice with
    the same text, once for [closed_message] and once for the status
    message:
<<
    last_message_id = get_last_message_id(storage_client)
    if last_message_id:
        if not edit_telegram_message(token, chat_id, last_message_id, message):
            new_id = send_telegram_message(token, chat_id, message)
            if new_id:
                save_last_message_id(storage_client, new_id)
    else:
        new_id = send_telegram_message(token, chat_id, message)
        if new_id:
            save_last_message_id(storage_client, new_id)
>> *)
Definition send_or_edit (telegram_token telegram_chat_id message : string) : exec world unit :=
  last_message_id ← get_last_message_id;
  if Py.truthy_opt last_message_id then
    edited ← edit_telegram_message telegram_token telegram_chat_id
               (default "" last_message_id) message;
    if negb edited then
      new_id ← send_telegram_message telegram_token telegram_chat_id message;
      if Py.truthy_opt new_id then save_last_message_id (default "" new_id) else mret tt
    else mret tt
  else
    new_id ← send_telegram_message telegram_token telegram_chat_id message;
    if Py.truthy_opt new_id then save_last_message_id (default "" new_id) else mret tt.

(** [f"{popularity}"] for [popularity : int | None] *)
Definition str_opt (popularity : option Z) : string :=
  match popularity with Some n => Py.str n | None => "None" end.

(** [get_storage_client]: [storage.Client()] returns a client or
    raises. *)
Definition get_storage_client (storage_client_raises : bool) : exec world unit :=
  if storage_client_raises then raise StorageClientError else mret tt.

(** [monitor_crowds], the HTTP entry point, as the platform calls it; it
    returns the response's text and status, or ends with an exception: the
    call of [get_storage_client] and the two branches after it are in no
    [try]. *)
Definition entry_point (storage_client_raises : bool) : exec world (string * Z) :=
  resolved ← try_except
    (google_api_key ← get_secret "GOOGLE_API_KEY";
     telegram_token ← get_secret "TELEGRAM_BOT_TOKEN";
     telegram_chat_id ← get_secret "TELEGRAM_CHAT_ID";
     place_id ← get_secret "PLACE_ID";
     mret (Some (google_api_key, telegram_token, telegram_chat_id, place_id)))
    any_exception
    (fun _ => mret None);
  match resolved with
  | None => mret ("Error getting secrets", 500)
  | Some (google_api_key, telegram_token, telegram_chat_id, place_id) =>
      get_storage_client storage_client_raises;;
      if negb (is_library_open (now_check env)) then
        send_or_edit telegram_token telegram_chat_id closed_message;;
        mret ("Library closed", 200)
      else
        popularity ← get_crowd_data google_api_key place_id;
        let '(load_level, emoji) := classify_load popularity in
        let timestamp := strftime_HM (now env) in
        let reading : gmap string jval :=
          <["timestamp" := JStr (isoformat (now env))]>
          (<["place_id" := JStr place_id]>
          (<["popularity" := match popularity with Some n => JInt n | None => JNull end]>
          (<["day_of_week" := JInt (weekday (now env))]>
          (<["hour" := JInt (hour (now env))]>
          (<["is_open" := JBool true]> ∅))))) in
        save_reading reading;;
        let message := status_message emoji load_level popularity timestamp in
        send_or_edit telegram_token telegram_chat_id message;;
        mret ("Success: popularity=" ++ str_opt popularity, 200)
  end.

(** [monitor_crowds] where [get_storage_client] returns a client. *)
Definition monitor_crowds : exec world (string * Z) := entry_point false.

End Run.

End Collector.

(** ** [local/database.py]: the SQLite store *)

Module Database.

(** A value as SQLite stores it. *)
Inductive sqlval : Type :=
| SNull
| SInt (z : Z)
| SText (s : string).

(** Binding a Python value to a [?] of a statement: [None] is NULL,
    [bool] and [int] are INTEGER (an [int] outside 64 bits raises
    [OverflowError]), [str] is TEXT, a list or a dictionary is refused. *)
Definition bind_param (v : jval) : result sqlval :=
  match v with
  | JNull => Ok SNull
  | JBool b => Ok (SInt (if b then 1 else 0))
  | JInt z =>
      if (- 2 ^ 63 <=? z) && (z <? 2 ^ 63) then Ok (SInt z)
      else Raise OverflowError
  | JStr s => Ok (SText s)
  | JCompound _ => Raise InterfaceError
  end.

(** The TEXT affinity of a column ([place_id], [timestamp]): an integer
    is stored, and compared, as its decimal text; NULL stays NULL. *)
Definition text_affinity (v : sqlval) : option string :=
  match v with
  | SNull => None
  | SInt z => Some (Py.str z)
  | SText s => Some s
  end.

(** A row of [locations].  The column [created_at], filled by SQLite's
    clock and never read, is left out. *)
Record location : Type := mk_location {
  loc_id : Z;
  loc_name : string;
  loc_name_he : option string;
  loc_place_id : string;
  loc_address : option string;
  loc_operating_hours : option string;
  loc_is_active : Z;
}.

(** A row of [readings]; [UNIQUE(location_id, timestamp)]. *)
Record reading : Type := mk_reading {
  r_id : Z;
  r_location_id : Z;
  r_popularity : sqlval;
  r_timestamp : string;
  r_day_of_week : sqlval;
  r_hour : sqlval;
  r_is_open : Z;
  r_synced_from : option string;
}.

(** A row of [sync_log]; [blob_path] is UNIQUE.  The column [synced_at]
    is left out as [created_at] above. *)
Record sync_entry : Type := mk_sync_entry {
  s_id : Z;
  s_blob_path : string;
}.

(** The database file: the three tables in insertion order, each with the
    last id its AUTOINCREMENT key has given out. *)
Record database : Type := mk_database {
  locations : list location;
  locations_seq : Z;
  readings : list reading;
  readings_seq : Z;
  sync_log : list sync_entry;
  sync_log_seq : Z;
}.

(** The database right after [init_db] on a new file. *)
Definition empty_database : database := mk_database [] 0 [] 0 [] 0.

(** [init_db]: every statement is CREATE ... IF NOT EXISTS, so the tables
    of an existing file are kept as they are. *)
Definition init_db : exec database unit := mret tt.

(** [get_or_create_location], called with [operating_hours] at its
    default [None].
<<
    cursor.execute("SELECT id FROM locations WHERE place_id = ?", (place_id,))
    row = cursor.fetchone()
    if row:
        location_id = row["id"]
    else:
        cursor.execute("INSERT INTO locations (...) VALUES (?, ?, ?, ?, ?)",
                       (name or "Unknown", name_he, place_id, address, None))
        location_id = cursor.lastrowid
    conn.commit()
    return location_id
>> *)
Definition get_or_create_location (place_id : jval) (name name_he address : option string)
    : exec database Z := fun db =>
  match bind_param place_id with
  | Raise e => (Raise e, db)
  | Ok param =>
      let row :=
        key ← text_affinity param;
        List.find (fun l => String.eqb (loc_place_id l) key) (locations db) in
      match row with
      | Some row => (Ok (loc_id row), db)
      | None =>
          match text_affinity param with
          | None => (Raise IntegrityError, db)  (* place_id is NOT NULL *)
          | Some key =>
              let location_id := locations_seq db + 1 in
              let new_row :=
                mk_location location_id
                  (if Py.truthy_opt name then default "" name else "Unknown")
                  name_he key address None 1 in
              (Ok location_id,
               mk_database (locations db ++ [new_row]) location_id
                           (readings db) (readings_seq db)
                           (sync_log db) (sync_log_seq db))
          end
      end
  end.

(** Is there a row of [readings] with this key? *)
Definition has_reading (location_id : Z) (timestamp : string) (db : database) : bool :=
  existsb (fun r => (r_location_id r =? location_id) && String.eqb (r_timestamp r) timestamp)
          (readings db).

(** [insert_reading]: returns [True] if inserted, [False] on
    [sqlite3.IntegrityError]; any other exception of [execute] is not
    caught here.
<<
    try:
        cursor.execute("INSERT INTO readings (...) VALUES (?, ?, ?, ?, ?, ?, ?)",
                       (location_id, popularity, timestamp, day_of_week, hour,
                        1 if is_open else 0, synced_from))
        conn.commit()
        return True
    except sqlite3.IntegrityError:
        return False
>> *)
Definition insert_reading (location_id : Z) (popularity timestamp day_of_week hour is_open : jval)
    (synced_from : string) : exec database bool :=
  try_except
    (fun db =>
       match bind_param popularity, bind_param timestamp,
             bind_param day_of_week, bind_param hour with
       | Raise e, _, _, _ => (Raise e, db)
       | Ok _, Raise e, _, _ => (Raise e, db)
       | Ok _, Ok _, Raise e, _ => (Raise e, db)
       | Ok _, Ok _, Ok _, Raise e => (Raise e, db)
       | Ok popularity, Ok timestamp, Ok day_of_week, Ok hour =>
           match text_affinity timestamp with
           | None => (Raise IntegrityError, db)  (* timestamp is NOT NULL *)
           | Some timestamp =>
               if has_reading location_id timestamp db
               then (Raise IntegrityError, db)   (* UNIQUE(location_id, timestamp) *)
               else
                 let id := readings_seq db + 1 in
                 let row :=
                   mk_reading id location_id popularity timestamp day_of_week hour
                              (if jtruthy is_open then 1 else 0) (Some synced_from) in
                 (Ok true,
                  mk_database (locations db) (locations_seq db)
                              (readings db ++ [row]) id
                              (sync_log db) (sync_log_seq db))
           end
       end)
    (fun e => match e with IntegrityError => true | _ => false end)
    (fun _ => mret false).

(** [is_blob_synced] *)
Definition is_blob_synced (blob_path : string) : exec database bool := fun db =>
  (Ok (existsb (fun s => String.eqb (s_blob_path s) blob_path) (sync_log db)), db).

(** [mark_blob_synced]: the [IntegrityError] of a path already in the log
    is passed over. *)
Definition mark_blob_synced (blob_path : string) : exec database unit :=
  try_except
    (fun db =>
       if existsb (fun s => String.eqb (s_blob_path s) blob_path) (sync_log db)
       then (Raise IntegrityError, db)  (* blob_path is UNIQUE *)
       else
         let id := sync_log_seq db + 1 in
         (Ok tt,
          mk_database (locations db) (locations_seq db)
                      (readings db) (readings_seq db)
                      (sync_log db ++ [mk_sync_entry id blob_path]) id))
    (fun e => match e with IntegrityError => true | _ => false end)
    (fun _ => mret tt).

(** [get_readings_count] *)
Definition get_readings_count : exec database Z := fun db =>
  (Ok (Z.of_nat (length (readings db))), db).

End Database.

(** ** [local/sync.py]: the archive importer *)

Module Sync.

Import Database.

Definition READINGS_PREFIX : string := "readings/".

(** The metadata of a known place. *)
Record location_info : Type := mk_location_info {
  info_name : string;
  info_name_he : string;
  info_address : string;
}.

(** [LOCATIONS]: place_id -> metadata *)
Definition LOCATIONS : gmap string location_info :=
  {[ "ChIJy8LxJaZGHRURzNVZXycuQnw" :=
       mk_location_info "National Library of Israel" "הספרייה הלאומית"
                        "Edmond J. Safra Campus, Givat Ram, Jerusalem" ]}.

(** [LOCATIONS.get(place_id, {})]: a list or a dictionary is not hashable
    and raises [TypeError]; a key that is not one of the table's strings
    gives the empty dictionary, whose every [get] is [None]. *)
Definition LOCATIONS_get (place_id : jval) : result (option location_info) :=
  match place_id with
  | JCompound _ => Raise TypeError
  | JStr s => Ok (LOCATIONS !! s)
  | JNull | JBool _ | JInt _ => Ok None
  end.

(** The state of a run of [sync_readings]: the database and the three
    local counters. *)
Record run : Type := mk_run {
  db : database;
  new_count : Z;
  skip_count : Z;
  error_count : Z;
}.

Definition lift_db {A} (m : exec database A) : exec run A := fun r =>
  let '(res, db') := m (db r) in
  (res, mk_run db' (new_count r) (skip_count r) (error_count r)).

Definition incr_new : exec run unit :=
  modify (fun r => mk_run (db r) (new_count r + 1) (skip_count r) (error_count r)).

Definition incr_skip : exec run unit :=
  modify (fun r => mk_run (db r) (new_count r) (skip_count r + 1) (error_count r)).

Definition incr_error : exec run unit :=
  modify (fun r => mk_run (db r) (new_count r) (skip_count r) (error_count r + 1)).

(** What [sync_readings] prints when it completes. *)
Record summary : Type := mk_summary {
  sum_new : Z;
  sum_skipped : Z;
  sum_errors : Z;
  sum_total : Z;
}.

Section Run.

(** [json.loads]: absent when the text is not JSON. *)
Variable json_loads : string -> option json.

(** The body of the loop of [sync_readings] for one object.
<<
    if is_blob_synced(blob.name):
        skip_count += 1
        continue
    try:
        content = blob.download_as_text()
        data = json.loads(content)
        place_id = data.get("place_id")
        if not place_id:
            error_count += 1
            continue
        location_info = LOCATIONS.get(place_id, {})
        location_id = get_or_create_location(place_id=place_id, ...)
        inserted = insert_reading(location_id=location_id, ..., synced_from=blob.name)
        if inserted:
            new_count += 1
        else:
            skip_count += 1
        mark_blob_synced(blob.name)
    except Exception as e:
        error_count += 1
>> *)
Definition sync_blob (blob : blob) : exec run unit :=
  synced ← lift_db (is_blob_synced (name blob));
  if synced : bool then incr_skip
  else
    try_except
      (match json_loads (content blob) with
       | None => raise JSONDecodeError
       | Some JOther => raise AttributeError
       | Some (JObject data) =>
           let place_id := dict_get data "place_id" JNull in
           if negb (jtruthy place_id) then incr_error
           else
             location_info ← match LOCATIONS_get place_id with
                             | Ok info => mret info
                             | Raise e => raise e
                             end;
             location_id ← lift_db (get_or_create_location place_id
                                      (info_name <$> location_info)
                                      (info_name_he <$> location_info)
                                      (info_address <$> location_info));
             inserted ← lift_db (insert_reading location_id
                                   (dict_get data "popularity" JNull)
                                   (dict_get data "timestamp" JNull)
                                   (dict_get data "day_of_week" JNull)
                                   (dict_get data "hour" JNull)
                                   (dict_get data "is_open" (JBool true))
                                   (name blob));
             (if inserted : bool then incr_new else incr_skip);;
             lift_db (mark_blob_synced (name blob))
       end)
      any_exception
      (fun _ => incr_error).

(** [for blob in json_blobs: ...] *)
Fixpoint sync_loop (json_blobs : list blob) : exec run unit :=
  match json_blobs with
  | [] => mret tt
  | blob :: rest => sync_blob blob;; sync_loop rest
  end.

(** [json_blobs = [b for b in blobs if b.name.endswith(".json")]] over
    [bucket.list_blobs(prefix=READINGS_PREFIX)] *)
Definition json_blobs (bucket : list blob) : list blob :=
  List.filter (fun b => Py.endswith (name b) ".json") (list_blobs READINGS_PREFIX bucket).

(** [sync_readings].  [storage] is the bucket the storage client gives
    access to, absent when connecting raises, in which case the function
    returns after [init_db] without a summary. *)
Definition sync_readings (storage : option (list blob)) : exec database (option summary) :=
  fun db0 =>
  let body : exec run (option summary) :=
    lift_db init_db;;
    match storage with
    | None => mret None
    | Some bucket =>
        sync_loop (json_blobs bucket);;
        r ← get_state;
        total ← lift_db get_readings_count;
        mret (Some (mk_summary (new_count r) (skip_count r) (error_count r) total))
    end in
  let '(res, r) := body (mk_run db0 0 0 0) in
  (res, db r).

End Run.

(** What [show_status] prints: the number of readings, and, when the
    bucket can be reached, the number of listed [.json] objects and the
    number of those whose path is not in the sync ledger. *)
Record status : Type := mk_status {
  st_total : Z;
  st_files : option Z;
  st_pending : option Z;
}.

(** [sum(1 for b in json_blobs if not is_blob_synced(b.name))] *)
Fixpoint count_unsynced (json_blobs : list blob) : exec database Z :=
  match json_blobs with
  | [] => mret 0
  | b :: rest =>
      synced ← is_blob_synced (name b);
      unsynced ← count_unsynced rest;
      mret (if synced : bool then unsynced else 1 + unsynced)
  end.

(** [show_status]
<<
    init_db()
    print(f"Total readings: {get_readings_count()}")
    try:
        client = get_storage_client()
        bucket = client.bucket(BUCKET_NAME)
        blobs = list(bucket.list_blobs(prefix=READINGS_PREFIX))
        json_blobs = [b for b in blobs if b.name.endswith(".json")]
        print(f"Files in Cloud Storage: {len(json_blobs)}")
        unsynced = sum(1 for b in json_blobs if not is_blob_synced(b.name))
        print(f"Pending sync: {unsynced}")
    except Exception as e:
        print(f"Could not connect to Cloud Storage: {e}")
>> *)
Definition show_status (storage : option (list blob)) : exec database status :=
  init_db;;
  total ← get_readings_count;
  match storage with
  | None => mret (mk_status total None None)
  | Some bucket =>
      let json_blobs := json_blobs bucket in
      unsynced ← count_unsynced json_blobs;
      mret (mk_status total (Some (Z.of_nat (length json_blobs))) (Some unsynced))
  end.

End Sync.

(** ** Vocabulary for the properties

    Names for what the statements below observe: the labels of the four
    load tiers, how the provider answered a post, and which posts of a
    trace create a message. *)

Module Tier.

Definition unknown : string * string := ("לא ידוע", "⚪️").  (* "unknown", white circle *)
Definition low : string * string := ("נמוך", "🟢").          (* "low", green circle *)
Definition medium : string * string := ("בינוני", "🟡").     (* "medium", yellow circle *)
Definition high : string * string := ("גבוה", "🔴").         (* "high", red circle *)

End Tier.

(** The answer is the provider's "message is not modified" error. *)
Definition not_modified (res : post_result) : bool :=
  match res with
  | PostRaises => false
  | PostReturns r =>
      (status_code r =? 400) && Py.contains "message is not modified" (body r)
  end.

(** The post went through: no exception and no 4xx or 5xx status. *)
Definition delivered (res : post_result) : bool :=
  match res with
  | PostRaises => false
  | PostReturns r => negb (raises_for_status r)
  end.

(** The id of the message a [sendMessage] post created, if it created
    one. *)
Definition created (res : post_result) : option Z :=
  match res with
  | PostRaises => None
  | PostReturns r =>
      if raises_for_status r then None
      else match json_data r with
           | JsonDict true (ResultDict (Some message_id)) => Some message_id
           | _ => None
           end
  end.

(** The exception that reading the answer to a [sendMessage] post raises
    past the [except] of [send_telegram_message], if it raises one: the
    status is no error and the JSON is not an object, or is [ok] without
    an id under [result]. *)
Definition malformed (res : post_result) : option exn :=
  match res with
  | PostRaises => None
  | PostReturns r =>
      if raises_for_status r then None
      else match json_data r with
           | JsonOther => Some AttributeError
           | JsonDict true ResultMissing => Some KeyError
           | JsonDict true ResultOther => Some TypeError
           | JsonDict true (ResultDict None) => Some KeyError
           | _ => None
           end
  end.

(** How [send_telegram_message] ends on this answer: it returns, or the
    exception of reading the answer leaves it. *)
Definition send_result (res : post_result) : result unit :=
  match malformed res with Some e => Raise e | None => Ok tt end.

(** A [sendMessage] post carries no [message_id], an [editMessageText]
    post carries the id of the message to edit. *)
Definition is_send (e : event) : bool :=
  match e with
  | EvPost req _ => bool_decide (message_id req = None)
  | _ => false
  end.

Definition is_edit (e : event) : bool :=
  match e with
  | EvPost req _ => bool_decide (message_id req <> None)
  | _ => false
  end.

Definition is_secret_access (e : event) : bool :=
  match e with
  | EvSecret _ _ => true
  | _ => false
  end.

(** The collector's view of the stored message id at the start of the
    send-or-edit block. *)
Definition collector_last_id (env : Collector.environment) (w : Collector.world)
    : option string :=
  if Collector.state_read_raises env then None
  else match find_blob Collector.STATE_BLOB (Collector.bucket w) with
       | Some blob => Some (Py.strip (content blob))
       | None => None
       end.

(** The stored message id itself: the content of the state object. *)
Definition collector_stored_id (w : Collector.world) : option string :=
  content <$> find_blob Collector.STATE_BLOB (Collector.bucket w).

(** The world after the collector has posted a new message from [w] and
    tried to save its id. *)
Definition collector_after_send (env : Collector.environment) (token chat message : string)
    (w : Collector.world) : Collector.world :=
  let sreq := mk_request (sendMessage_url token) chat None message "Markdown" in
  let sans := Collector.requests_post env sreq in
  match created sans with
  | Some n =>
      if Collector.state_write_raises env then
        Collector.mk_world (Collector.bucket w)
          (Collector.trace w ++ [EvPost sreq sans; EvStateWrite (Py.str n) false])
      else
        Collector.mk_world (upload Collector.STATE_BLOB (Py.str n) (Collector.bucket w))
          (Collector.trace w ++ [EvPost sreq sans; EvStateWrite (Py.str n) true])
  | None => Collector.mk_world (Collector.bucket w) (Collector.trace w ++ [EvPost sreq sans])
  end.

(** The four credentials, when all of them resolve. *)
Definition collector_resolved (env : Collector.environment)
    : option (string * string * string * string) :=
  google_api_key ← Collector.secrets env "GOOGLE_API_KEY";
  telegram_token ← Collector.secrets env "TELEGRAM_BOT_TOKEN";
  telegram_chat_id ← Collector.secrets env "TELEGRAM_CHAT_ID";
  place_id ← Collector.secrets env "PLACE_ID";
  Some (google_api_key, telegram_token, telegram_chat_id, place_id).

(** The accesses to the secret store, up to the first that fails. *)
Definition collector_secret_events (env : Collector.environment) : list event :=
  let ev id := EvSecret id (Collector.secrets env id) in
  match Collector.secrets env "GOOGLE_API_KEY" with
  | None => [ev "GOOGLE_API_KEY"]
  | Some _ =>
    match Collector.secrets env "TELEGRAM_BOT_TOKEN" with
    | None => [ev "GOOGLE_API_KEY"; ev "TELEGRAM_BOT_TOKEN"]
    | Some _ =>
      match Collector.secrets env "TELEGRAM_CHAT_ID" with
      | None => [ev "GOOGLE_API_KEY"; ev "TELEGRAM_BOT_TOKEN"; ev "TELEGRAM_CHAT_ID"]
      | Some _ =>
          [ev "GOOGLE_API_KEY"; ev "TELEGRAM_BOT_TOKEN"; ev "TELEGRAM_CHAT_ID"; ev "PLACE_ID"]
      end
    end
  end.

(** *** The importer *)

(** The value can be bound to a [?] of a statement. *)
Definition bindable (v : jval) : bool :=
  match Database.bind_param v with Ok _ => true | Raise _ => false end.

(** The value can be a key of the [LOCATIONS.get] lookup. *)
Definition hashable (v : jval) : bool :=
  match Sync.LOCATIONS_get v with Ok _ => true | Raise _ => false end.

(** The path is recorded in the sync ledger. *)
Definition in_ledger (path : string) (d : Database.database) : bool :=
  existsb (fun s => String.eqb (Database.s_blob_path s) path) (Database.sync_log d).

(** The paths of the sync ledger. *)
Definition ledger (d : Database.database) : list string :=
  map Database.s_blob_path (Database.sync_log d).

(** The id of the location with this place id, if there is one. *)
Definition location_of (place_id : string) (d : Database.database) : option Z :=
  Database.loc_id <$>
    List.find (fun l => String.eqb (Database.loc_place_id l) place_id) (Database.locations d).

(** The rows of [readings] with this timestamp. *)
Definition readings_at (timestamp : string) (d : Database.database) : list Database.reading :=
  List.filter (fun r => String.eqb (Database.r_timestamp r) timestamp) (Database.readings d).

(** The rows of [readings] imported from this path. *)
Definition readings_from (path : string) (d : Database.database) : list Database.reading :=
  List.filter (fun r => bool_decide (Database.r_synced_from r = Some path))
              (Database.readings d).

(** The database with one more row of [readings]. *)
Definition add_reading (row : Database.reading) (d : Database.database) : Database.database :=
  Database.mk_database (Database.locations d) (Database.locations_seq d)
    (Database.readings d ++ [row]) (Database.readings_seq d + 1)
    (Database.sync_log d) (Database.sync_log_seq d).

(** The database with one more entry of the sync ledger. *)
Definition add_ledger (path : string) (d : Database.database) : Database.database :=
  Database.mk_database (Database.locations d) (Database.locations_seq d)
    (Database.readings d) (Database.readings_seq d)
    (Database.sync_log d ++ [Database.mk_sync_entry (Database.sync_log_seq d + 1) path])
    (Database.sync_log_seq d + 1).

(** The content of the object makes the importer fail on it: it is not
    JSON, it is not a dictionary, its [place_id] is missing or false, or
    one of its values cannot be used as a dictionary key or bound to a
    statement. *)
Definition fails_processing (json_loads : string -> option json) (b : blob) : bool :=
  match json_loads (content b) with
  | None => true
  | Some JOther => true
  | Some (JObject data) =>
      let place_id := dict_get data "place_id" JNull in
      negb (jtruthy place_id) || negb (hashable place_id) || negb (bindable place_id)
      || negb (bindable (dict_get data "popularity" JNull))
      || negb (bindable (dict_get data "timestamp" JNull))
      || negb (bindable (dict_get data "day_of_week" JNull))
      || negb (bindable (dict_get data "hour" JNull))
  end.

(** [d'] differs from [d] in the table of locations at most. *)
Definition same_archive_tables (d d' : Database.database) : Prop :=
  Database.readings d' = Database.readings d
  /\ Database.readings_seq d' = Database.readings_seq d
  /\ Database.sync_log d' = Database.sync_log d
  /\ Database.sync_log_seq d' = Database.sync_log_seq d.

(** One turn of the loop of [sync_readings], by the four ways it can go:
    the path is in the ledger; the processing fails; the reading is
    refused as a duplicate; the reading is inserted. *)
Inductive turn (json_loads : string -> option json) (b : blob) (r r' : Sync.run) : Prop :=
| turn_known :
    in_ledger (name b) (Sync.db r) = true ->
    r' = Sync.mk_run (Sync.db r) (Sync.new_count r) (Sync.skip_count r + 1)
           (Sync.error_count r) ->
    turn json_loads b r r'
| turn_error d' :
    in_ledger (name b) (Sync.db r) = false ->
    fails_processing json_loads b = true ->
    same_archive_tables (Sync.db r) d' ->
    r' = Sync.mk_run d' (Sync.new_count r) (Sync.skip_count r) (Sync.error_count r + 1) ->
    turn json_loads b r r'
| turn_duplicate d1 :
    in_ledger (name b) (Sync.db r) = false ->
    fails_processing json_loads b = false ->
    same_archive_tables (Sync.db r) d1 ->
    r' = Sync.mk_run (add_ledger (name b) d1) (Sync.new_count r) (Sync.skip_count r + 1)
           (Sync.error_count r) ->
    turn json_loads b r r'
| turn_inserted d1 row :
    in_ledger (name b) (Sync.db r) = false ->
    fails_processing json_loads b = false ->
    same_archive_tables (Sync.db r) d1 ->
    Database.r_synced_from row = Some (name b) ->
    r' = Sync.mk_run (add_ledger (name b) (add_reading row d1)) (Sync.new_count r + 1)
           (Sync.skip_count r) (Sync.error_count r) ->
    turn json_loads b r r'.

(** The importer can read the object as a reading of the place [p] at
    the timestamp [t]. *)
Definition readable_as (json_loads : string -> option json) (b : blob) (p t : string) : Prop :=
  exists data,
    json_loads (content b) = Some (JObject data)
    /\ dict_get data "place_id" JNull = JStr p
    /\ Py.truthy p = true
    /\ dict_get data "timestamp" JNull = JStr t
    /\ bindable (dict_get data "popularity" JNull) = true
    /\ bindable (dict_get data "day_of_week" JNull) = true
    /\ bindable (dict_get data "hour" JNull) = true.

(** [k] runs of [sync_readings] over the same bucket. *)
Fixpoint sync_runs (json_loads : string -> option json) (bucket : list blob) (k : nat)
    (d : Database.database) : Database.database :=
  match k with
  | O => d
  | S k' => sync_runs json_loads bucket k' (snd (Sync.sync_readings json_loads (Some bucket) d))
  end.

(** *** Payloads and example inputs *)

(** The payloads of the two Bot API calls. *)
Definition send_payload (token chat text : string) : request :=
  mk_request (sendMessage_url token) chat None text "Markdown".

Definition edit_payload (token chat id text : string) : request :=
  mk_request (editMessageText_url token) chat (Some id) text "Markdown".

(** Example inputs: a configuration, clock values for a Saturday and a
    Monday morning, and answers of the provider. *)
Module Sample.

Definition cfg : Monitor.config := Monitor.mk_config "key" "place" "TOKEN" "@channel".

Definition saturday_10 : datetime := mk_datetime 2024 1 27 10 5 0 0 None 5.
Definition monday_10 : datetime := mk_datetime 2024 1 29 10 5 0 0 None 0.

Definition answer_sent : response :=
  mk_response 200 "{ok: true, result: {message_id: 77}}"
    (JsonDict true (ResultDict (Some 77))).
Definition answer_gone : response :=
  mk_response 400 "Bad Request: message to edit not found" (JsonDict false ResultMissing).
Definition answer_same : response :=
  mk_response 400 "Bad Request: message is not modified" (JsonDict false ResultMissing).
Definition answer_down : response := mk_response 502 "Bad Gateway" JsonInvalid.

(** The stored message was deleted: edits are refused, sends succeed. *)
Definition provider_gone (req : request) : post_result :=
  match message_id req with
  | Some _ => PostReturns answer_gone
  | None => PostReturns answer_sent
  end.

(** The text has not changed since the last edit. *)
Definition provider_same (req : request) : post_result :=
  match message_id req with
  | Some _ => PostReturns answer_same
  | None => PostReturns answer_sent
  end.

(** The provider is down for every call. *)
Definition provider_down (req : request) : post_result := PostReturns answer_down.

Definition popularity_42 (api_key place_id : string) : option (option Z) := Some (Some 42).

Definition monitor_env (now : datetime) (provider : request -> post_result)
    : Monitor.environment :=
  Monitor.mk_environment now now popularity_42 provider.

Definition all_secrets (id : string) : option string := Some ("value of " ++ id).


Definition collector_env (now : datetime) (secrets : string -> option string)
    (provider : request -> post_result) : Collector.environment :=
  Collector.mk_environment now now now secrets popularity_42 provider false false false.

Definition json_dumps (v : json) : string := "{...}".


Definition state_42 : list blob := [mk_blob Collector.STATE_BLOB "42"].

(** An archive: a reading of 14:30, the same reading stored again under
    another path, an object that is not JSON and an empty dictionary, next
    to the state object. *)
Definition nli : string := "ChIJy8LxJaZGHRURzNVZXycuQnw".

Definition reading_1430 : gmap string jval :=
  <["timestamp" := JStr "2024-01-28T14:30:00+02:00"]>
  (<["place_id" := JStr nli]>
  (<["popularity" := JInt 40]>
  (<["day_of_week" := JInt 6]>
  (<["hour" := JInt 14]>
  (<["is_open" := JBool true]> ∅))))).

Definition json_loads (text : string) : option json :=
  if String.eqb text "reading of 14:30" then Some (JObject reading_1430)
  else if String.eqb text "{}" then Some (JObject ∅)
  else if String.eqb text "[]" then Some JOther
  else None.

Definition blob_1430 : blob := mk_blob "readings/2024/01/28/14-30.json" "reading of 14:30".
Definition blob_1431 : blob := mk_blob "readings/2024/01/28/14-31.json" "reading of 14:30".
Definition blob_garbage : blob := mk_blob "readings/2024/01/28/15-00.json" "not json".
Definition blob_empty : blob := mk_blob "readings/2024/01/28/15-30.json" "{}".

Definition archive : list blob :=
  [blob_1430; blob_garbage; blob_empty; mk_blob Collector.STATE_BLOB "42"].

Definition archive_twice : list blob := [blob_1430; blob_1431].

End Sample.

Arguments Monitor.edit_telegram_message : simpl never.
Arguments Monitor.send_telegram_message : simpl never.
Arguments Monitor.status_message : simpl never.
Arguments Monitor.classify_load : simpl never.
Arguments Monitor.is_library_open : simpl never.
Arguments Collector.edit_telegram_message : simpl never.
Arguments Collector.send_telegram_message : simpl never.
Arguments Collector.status_message : simpl never.
Arguments Collector.classify_load : simpl never.
Arguments Collector.is_library_open : simpl never.
Arguments Collector.send_or_edit : simpl never.
Arguments Py.strip : simpl never.
Arguments Py.str : simpl never.
Arguments strftime_HM : simpl never.
Arguments strftime_path : simpl never.
Arguments isoformat : simpl never.
Arguments sendMessage_url : simpl never.
Arguments editMessageText_url : simpl never.
Arguments upload : simpl never.
Arguments find_blob : simpl never.

(** ** Vocabulary for the further properties *)

(** The dictionary [monitor_crowds] archives for a reading taken at [now]. *)
Definition archived_reading (now : datetime) (place_id : string) (popularity : option Z)
    : gmap string jval :=
  <["timestamp" := JStr (isoformat now)]>
  (<["place_id" := JStr place_id]>
  (<["popularity" := match popularity with Some n => JInt n | None => JNull end]>
  (<["day_of_week" := JInt (weekday now)]>
  (<["hour" := JInt (hour now)]>
  (<["is_open" := JBool true]> ∅))))).

(** The integer fits SQLite's INTEGER. *)
Definition int64 (z : Z) : Prop := - 2 ^ 63 <= z < 2 ^ 63.

Definition is_post (e : event) : bool :=
  match e with EvPost _ _ => true | _ => false end.

Definition is_fetch (e : event) : bool :=
  match e with EvFetch _ _ _ => true | _ => false end.

Definition is_archive_write (e : event) : bool :=
  match e with EvArchiveWrite _ _ => true | _ => false end.

(** The posts of a trace, in their order. *)
Definition posts (t : list event) : list event := List.filter is_post t.

(** What [get_crowd_data] makes of the provider's answer. *)
Definition popularity_of (res : option (option Z)) : option Z :=
  match res with Some current_popularity => current_popularity | None => None end.

(** The world of an open cycle of the collector from [w] when it reaches
    the send-or-edit block: the four secrets were read, the popularity
    was fetched and the reading was offered to the archive. *)
Definition collector_archived (json_dumps : json -> string) (env : Collector.environment)
    (google_api_key place_id : string) (w : Collector.world) : Collector.world :=
  let res := Collector.populartimes env google_api_key place_id in
  let path := strftime_path Collector.READINGS_PREFIX (Collector.now_save env) in
  let reading := archived_reading (Collector.now env) place_id (popularity_of res) in
  Collector.mk_world
    (if Collector.archive_write_raises env then Collector.bucket w
     else upload path (json_dumps (JObject reading)) (Collector.bucket w))
    (Collector.trace w ++ collector_secret_events env
     ++ [EvFetch google_api_key place_id res;
         EvArchiveWrite path (negb (Collector.archive_write_raises env))]).

(** The status text of a cycle that found this popularity at [now]. *)
Definition collector_status (popularity : option Z) (now : datetime) : string :=
  Collector.status_message (snd (Collector.classify_load popularity))
    (fst (Collector.classify_load popularity)) popularity (strftime_HM now).

(** How [monitor_crowds] ends after its send-or-edit block: with its
    answer, or with the exception that left the block. *)
Definition ends_with (answer : string * Z) (r : result unit) : result (string * Z) :=
  match r with Ok _ => Ok answer | Raise e => Raise e end.

(** Two clock values in the same minute. *)
Definition same_minute (a b : datetime) : Prop :=
  year a = year b /\ month a = month b /\ day a = day b
  /\ hour a = hour b /\ minute a = minute b.

(** What [f.read()] gives for a file of this content, opened in text
    mode, is the content itself: the content is text, and it has no
    carriage return for the text mode to turn into a line feed. *)
Definition read_as_written (s : string) : Prop :=
  Py.is_text s = true /\ Py.contains (String (ascii_of_nat 13) EmptyString) s = false.

(** Every character of the string is an ASCII character that is not
    white space. *)
Fixpoint no_space (s : string) : bool :=
  match s with
  | EmptyString => true
  | String c s' => (Py.code c <? 128) && negb (Py.isspace c) && no_space s'
  end.

(** The constraints of the schema of [init_db], table by table: the
    UNIQUE column or pair has no value twice, the primary key has no
    value twice and no id is beyond the last one given out. *)
Definition locations_wf (d : Database.database) : Prop :=
  NoDup (map Database.loc_place_id (Database.locations d))
  /\ NoDup (map Database.loc_id (Database.locations d))
  /\ Forall (fun l => Database.loc_id l <= Database.locations_seq d) (Database.locations d).

Definition readings_wf (d : Database.database) : Prop :=
  NoDup (map (fun r => (Database.r_location_id r, Database.r_timestamp r))
             (Database.readings d))
  /\ NoDup (map Database.r_id (Database.readings d))
  /\ Forall (fun r => Database.r_id r <= Database.readings_seq d) (Database.readings d).

Definition ledger_wf (d : Database.database) : Prop :=
  NoDup (ledger d)
  /\ NoDup (map Database.s_id (Database.sync_log d))
  /\ Forall (fun s => Database.s_id s <= Database.sync_log_seq d) (Database.sync_log d).

Definition schema_wf (d : Database.database) : Prop :=
  locations_wf d /\ readings_wf d /\ ledger_wf d.

(** [readings.location_id REFERENCES locations(id)], which SQLite does
    not enforce unless asked to. *)
Definition references_wf (d : Database.database) : Prop :=
  Forall (fun r => In (Database.r_location_id r)
                      (map Database.loc_id (Database.locations d)))
         (Database.readings d).

(** No path has given two readings, and only paths of the ledger have
    given one. *)
Definition imported_once (d : Database.database) : Prop :=
  forall path,
    (length (readings_from path d) <= 1)%nat
    /\ (in_ledger path d = false -> readings_from path d = []).

(** The row [get_or_create_location] creates for a place id that is a
    string. *)
Definition new_location (place_id : string) (d : Database.database) : Database.location :=
  let info := Sync.LOCATIONS !! place_id in
  Database.mk_location (Database.locations_seq d + 1)
    (match info with
     | Some i => if Py.truthy (Sync.info_name i) then Sync.info_name i else "Unknown"
     | None => "Unknown"
     end)
    (Sync.info_name_he <$> info) place_id (Sync.info_address <$> info) None 1.

(** What one turn of the loop of [sync_readings] does to the database, by
    the calls of [database.py] it makes: none that writes; the location
    is looked up or created and the turn ends there; or the reading is
    offered to [insert_reading] as well and the path is marked. *)
Inductive turn_db (json_loads : string -> option json) (b : blob)
    (d d' : Database.database) : Prop :=
| turn_db_same :
    d' = d ->
    turn_db json_loads b d d'
| turn_db_location data info loc :
    in_ledger (name b) d = false ->
    json_loads (content b) = Some (JObject data) ->
    Sync.LOCATIONS_get (dict_get data "place_id" JNull) = Ok info ->
    Database.get_or_create_location (dict_get data "place_id" JNull)
      (Sync.info_name <$> info) (Sync.info_name_he <$> info) (Sync.info_address <$> info) d
    = (Ok loc, d') ->
    turn_db json_loads b d d'
| turn_db_marked data info loc d1 inserted d2 :
    in_ledger (name b) d = false ->
    json_loads (content b) = Some (JObject data) ->
    jtruthy (dict_get data "place_id" JNull) = true ->
    Sync.LOCATIONS_get (dict_get data "place_id" JNull) = Ok info ->
    Database.get_or_create_location (dict_get data "place_id" JNull)
      (Sync.info_name <$> info) (Sync.info_name_he <$> info) (Sync.info_address <$> info) d
    = (Ok loc, d1) ->
    Database.insert_reading loc
      (dict_get data "popularity" JNull) (dict_get data "timestamp" JNull)
      (dict_get data "day_of_week" JNull) (dict_get data "hour" JNull)
      (dict_get data "is_open" (JBool true)) (name b) d1
    = (Ok inserted, d2) ->
    d' = add_ledger (name b) d2 ->
    turn_db json_loads b d d'.

(** More example inputs. *)
Module Sample2.

Definition sunday_1430 : datetime := mk_datetime 2024 1 28 14 30 0 0 (Some 120) 6.
Definition sunday_1430_later : datetime := mk_datetime 2024 1 28 14 30 45 0 (Some 120) 6.

Definition nli_secrets (id : string) : option string :=
  if String.eqb id "PLACE_ID" then Some Sample.nli else Some ("value of " ++ id).

Definition dumps_1430 (v : json) : string := "reading of 14:30".

Definition answer_edited : response :=
  mk_response 200 "{ok: true}" (JsonDict true (ResultDict (Some 42))).

(** A success status with a JSON body that is not an object. *)
Definition answer_garbled : response := mk_response 200 "[]" JsonOther.

(** Every post gets that answer. *)
Definition provider_garbled (req : request) : post_result := PostReturns answer_garbled.

(** Every post is accepted; a send gets the id 77. *)
Definition provider_up (req : request) : post_result :=
  match message_id req with
  | Some _ => PostReturns answer_edited
  | None => PostReturns Sample.answer_sent
  end.

Definition popularity_40 (api_key place_id : string) : option (option Z) := Some (Some 40).

(** Every call succeeds; the place is the National Library. *)
Definition collector_env (now : datetime) : Collector.environment :=
  Collector.mk_environment now now now nli_secrets popularity_40 provider_up false false false.

(** An object without a timestamp. *)
Definition reading_undated : gmap string jval :=
  <["place_id" := JStr "somewhere"]> (<["popularity" := JInt 12]> ∅).

Definition json_loads (text : string) : option json :=
  if String.eqb text "undated" then Some (JObject reading_undated)
  else Sample.json_loads text.

Definition blob_undated : blob := mk_blob "readings/2024/01/28/16-00.json" "undated".

End Sample2.

(* ================================================================== *)
(** * Properties *)

Ltac exec_unfold :=
  unfold mbind, exec_bind, mret, exec_ret, modify, get_state, raise, try_except in *.

(** Membership of an event in a trace that is written out. *)
Ltac in_trace H :=
  simpl in H;
  repeat (destruct H as [H | H]; [try discriminate H; try (injection H as <- <-) |]);
  try contradiction.

Lemma str_truthy (n : Z) : Py.truthy (Py.str n) = true.
Proof.
  unfold Py.str. destruct (Z.to_int n) as [d | d]; simpl.
  - destruct d; reflexivity.
  - reflexivity.
Qed.

(** ** The load classifier *)

Lemma tiers_distinct :
  NoDup [Tier.unknown; Tier.low; Tier.medium; Tier.high].
Proof.
  repeat constructor; rewrite ?elem_of_cons, ?elem_of_nil;
    unfold Tier.unknown, Tier.low, Tier.medium, Tier.high; intuition congruence.
Qed.

Ltac classify_cases x :=
  destruct (Z.ltb_spec x 30); [left; split; [lia | reflexivity] |];
  destruct (Z.leb_spec 30 x); [| lia];
  destruct (Z.ltb_spec x 60); simpl;
  [right; left; split; [lia | reflexivity] | right; right; split; [lia | reflexivity]].

Lemma monitor_classify_some (x : Z) :
  (x < 30 /\ Monitor.classify_load (Some x) = Tier.low)
  \/ (30 <= x < 60 /\ Monitor.classify_load (Some x) = Tier.medium)
  \/ (60 <= x /\ Monitor.classify_load (Some x) = Tier.high).
Proof. unfold Monitor.classify_load. classify_cases x. Qed.

Lemma collector_classify_some (x : Z) :
  (x < 30 /\ Collector.classify_load (Some x) = Tier.low)
  \/ (30 <= x < 60 /\ Collector.classify_load (Some x) = Tier.medium)
  \/ (60 <= x /\ Collector.classify_load (Some x) = Tier.high).
Proof. unfold Collector.classify_load. classify_cases x. Qed.

(** C3.  Both copies of [classify_load] return, for every input, exactly
    one of four pairs: the unknown label with the white circle for an
    absent popularity; the low label with the green circle for an integer
    strictly below 30; the medium label with the yellow circle for
    30 <= x < 60; the high label with the red circle for 60 and above.
    The three integer ranges exclude each other and the four pairs are
    pairwise different. *)
Theorem classify_load_four_buckets :
  Monitor.classify_load None = Tier.unknown
  /\ Collector.classify_load None = Tier.unknown
  /\ (forall x : Z,
        (x < 30 /\ Monitor.classify_load (Some x) = Tier.low)
        \/ (30 <= x < 60 /\ Monitor.classify_load (Some x) = Tier.medium)
        \/ (60 <= x /\ Monitor.classify_load (Some x) = Tier.high))
  /\ (forall x : Z,
        (x < 30 /\ Collector.classify_load (Some x) = Tier.low)
        \/ (30 <= x < 60 /\ Collector.classify_load (Some x) = Tier.medium)
        \/ (60 <= x /\ Collector.classify_load (Some x) = Tier.high))
  /\ NoDup [Tier.unknown; Tier.low; Tier.medium; Tier.high].
Proof.
  split; [reflexivity |]. split; [reflexivity |].
  split; [exact monitor_classify_some |].
  split; [exact collector_classify_some | exact tiers_distinct].
Qed.

(** The boundary values of the spec's test list. *)
Lemma classify_load_boundaries :
  Monitor.classify_load (Some 29) = Tier.low
  /\ Monitor.classify_load (Some 30) = Tier.medium
  /\ Monitor.classify_load (Some 59) = Tier.medium
  /\ Monitor.classify_load (Some 60) = Tier.high
  /\ Collector.classify_load (Some 29) = Tier.low
  /\ Collector.classify_load (Some 30) = Tier.medium
  /\ Collector.classify_load (Some 59) = Tier.medium
  /\ Collector.classify_load (Some 60) = Tier.high.
Proof. repeat split; reflexivity. Qed.

(** ** The schedule evaluator *)

(** The table has an entry for every weekday but Saturday. *)
Lemma operating_hours_table (d : Z) :
  Monitor.OPERATING_HOURS !! d =
    (if bool_decide (d = 0 \/ d = 1 \/ d = 2 \/ d = 3 \/ d = 6) then Some (9, 20)
     else if bool_decide (d = 4) then Some (9, 13) else None)
  /\ Collector.OPERATING_HOURS !! d = Monitor.OPERATING_HOURS !! d.
Proof.
  split; [| reflexivity].
  unfold Monitor.OPERATING_HOURS.
  repeat (rewrite lookup_insert; case_decide; subst;
          [repeat case_bool_decide; try reflexivity; lia |]).
  rewrite lookup_empty.
  repeat case_bool_decide; try reflexivity; lia.
Qed.

Lemma monitor_open_iff (now : datetime) :
  Monitor.is_library_open now = true <->
  exists open_hour close_hour,
    Monitor.OPERATING_HOURS !! weekday now = Some (open_hour, close_hour)
    /\ open_hour <= hour now < close_hour.
Proof.
  unfold Monitor.is_library_open.
  destruct (Monitor.OPERATING_HOURS !! weekday now) as [[o c] |].
  - rewrite andb_true_iff, Z.leb_le, Z.ltb_lt. split.
    + intros H. exists o, c. auto.
    + intros (o' & c' & Heq & H). congruence.
  - split; [discriminate | intros (? & ? & ? & _); discriminate].
Qed.

Lemma collector_open_iff (now : datetime) :
  Collector.is_library_open now = true <->
  exists open_hour close_hour,
    Collector.OPERATING_HOURS !! weekday now = Some (open_hour, close_hour)
    /\ open_hour <= hour now < close_hour.
Proof.
  unfold Collector.is_library_open.
  destruct (Collector.OPERATING_HOURS !! weekday now) as [[o c] |].
  - rewrite andb_true_iff, Z.leb_le, Z.ltb_lt. split.
    + intros H. exists o, c. auto.
    + intros (o' & c' & Heq & H). congruence.
  - split; [discriminate | intros (? & ? & ? & _); discriminate].
Qed.

(** A weekday without an entry is closed at every hour; Saturday is the
    one such day of the week. *)
Lemma closed_when_absent (now : datetime) :
  (Monitor.OPERATING_HOURS !! weekday now = None -> Monitor.is_library_open now = false)
  /\ (Collector.OPERATING_HOURS !! weekday now = None -> Collector.is_library_open now = false)
  /\ (weekday now = 5 -> Monitor.is_library_open now = false
                         /\ Collector.is_library_open now = false).
Proof.
  unfold Monitor.is_library_open, Collector.is_library_open.
  split; [intros ->; reflexivity |]. split; [intros ->; reflexivity |].
  intros ->. split; reflexivity.
Qed.

(** C4.  For every weekday and hour, both copies of [is_library_open]
    return false when the weekday has no entry in [OPERATING_HOURS], and
    otherwise return true exactly when open_hour <= current_hour <
    close_hour.  Monday (weekday 0) has the entry (9, 20): at hour 9 the
    library is open, at hours 8 and 20 it is closed, whatever the date,
    the minute and the rest of the clock's value. *)
Theorem is_library_open_half_open_interval :
  (forall now : datetime,
     Monitor.is_library_open now = true <->
     exists open_hour close_hour,
       Monitor.OPERATING_HOURS !! weekday now = Some (open_hour, close_hour)
       /\ open_hour <= hour now < close_hour)
  /\ (forall now : datetime,
     Collector.is_library_open now = true <->
     exists open_hour close_hour,
       Collector.OPERATING_HOURS !! weekday now = Some (open_hour, close_hour)
       /\ open_hour <= hour now < close_hour)
  /\ (forall now : datetime,
        Monitor.OPERATING_HOURS !! weekday now = None ->
        Monitor.is_library_open now = false)
  /\ (forall now : datetime,
        Collector.OPERATING_HOURS !! weekday now = None ->
        Collector.is_library_open now = false)
  /\ Monitor.OPERATING_HOURS !! 0 = Some (9, 20)
  /\ Collector.OPERATING_HOURS !! 0 = Some (9, 20)
  /\ (forall y mo d mi s us off,
        Monitor.is_library_open (mk_datetime y mo d 9 mi s us off 0) = true
        /\ Monitor.is_library_open (mk_datetime y mo d 8 mi s us off 0) = false
        /\ Monitor.is_library_open (mk_datetime y mo d 20 mi s us off 0) = false
        /\ Collector.is_library_open (mk_datetime y mo d 9 mi s us off 0) = true
        /\ Collector.is_library_open (mk_datetime y mo d 8 mi s us off 0) = false
        /\ Collector.is_library_open (mk_datetime y mo d 20 mi s us off 0) = false).
Proof.
  split; [exact monitor_open_iff |].
  split; [exact collector_open_iff |].
  split; [intros now; apply closed_when_absent |].
  split; [intros now; apply closed_when_absent |].
  repeat split; reflexivity.
Qed.


(** ** The object store *)

Lemma find_blob_upload_same (path text : string) (bucket : list blob) :
  find_blob path (upload path text bucket) = Some (mk_blob path text).
Proof.
  unfold find_blob. induction bucket as [| b rest IH]; unfold upload; fold upload; simpl.
  - rewrite String.eqb_refl. reflexivity.
  - destruct (String.eqb (name b) path) eqn:Hb; simpl.
    + rewrite String.eqb_refl. reflexivity.
    + rewrite Hb. exact IH.
Qed.

Lemma find_blob_upload_other (path other text : string) (bucket : list blob) :
  path <> other ->
  find_blob other (upload path text bucket) = find_blob other bucket.
Proof.
  intros Hne. unfold find_blob.
  induction bucket as [| b rest IH]; unfold upload; fold upload; simpl.
  - apply String.eqb_neq in Hne. rewrite Hne. reflexivity.
  - destruct (String.eqb (name b) path) eqn:Hb; simpl.
    + apply String.eqb_eq in Hb. rewrite Hb.
      apply String.eqb_neq in Hne. rewrite Hne. reflexivity.
    + destruct (String.eqb (name b) other); [reflexivity | exact IH].
Qed.

(** No reading is archived under the name of the state object. *)
Lemma archive_path_is_not_state (now : datetime) :
  strftime_path Collector.READINGS_PREFIX now <> Collector.STATE_BLOB.
Proof. unfold strftime_path. simpl. discriminate. Qed.

(** ** The publisher of [monitor.py] *)

Lemma monitor_edit_eq cfg env id text w :
  Monitor.edit_telegram_message cfg env id text w =
  let payload := mk_request (editMessageText_url (Monitor.TELEGRAM_BOT_TOKEN cfg))
                            (Monitor.TELEGRAM_CHAT_ID cfg) (Some id) text "Markdown" in
  let ans := Monitor.requests_post env payload in
  (Ok (not_modified ans || delivered ans),
   Monitor.mk_world (Monitor.id_file w) (Monitor.trace w ++ [EvPost payload ans])).
Proof.
  unfold Monitor.edit_telegram_message, Monitor.log. exec_unfold. simpl.
  destruct (Monitor.requests_post env _) as [| r]; simpl; [reflexivity |].
  destruct (_ && _); simpl; [reflexivity |].
  destruct (raises_for_status r); reflexivity.
Qed.

Lemma monitor_send_eq cfg env text w :
  Monitor.send_telegram_message cfg env text w =
  let payload := mk_request (sendMessage_url (Monitor.TELEGRAM_BOT_TOKEN cfg))
                            (Monitor.TELEGRAM_CHAT_ID cfg) None text "Markdown" in
  let ans := Monitor.requests_post env payload in
  (send_result ans,
   match created ans with
   | Some id =>
       Monitor.mk_world (Some (Py.str id))
         (Monitor.trace w ++ [EvPost payload ans; EvStateWrite (Py.str id) true])
   | None => Monitor.mk_world (Monitor.id_file w) (Monitor.trace w ++ [EvPost payload ans])
   end).
Proof.
  unfold Monitor.send_telegram_message, Monitor.save_last_message_id, Monitor.log,
    send_result, malformed, created.
  exec_unfold. simpl.
  destruct (Monitor.requests_post env _) as [| r]; simpl; [reflexivity |].
  destruct (raises_for_status r); simpl; [reflexivity |].
  destruct (json_data r) as [| | [|] [| | [n |]]]; simpl; try reflexivity.
  rewrite <- app_assoc. reflexivity.
Qed.

(** [run_check] with its binds carried out.  In the closed branch the
    result of the edit is dropped; in the open branch a refused edit is
    followed by a send. *)
Lemma monitor_run_check_eq cfg env w :
  Monitor.run_check cfg env w =
  let last := Py.strip <$> Monitor.id_file w in
  if negb (Monitor.is_library_open (Monitor.now_check env)) then
    let w1 := Monitor.mk_world (Monitor.id_file w) (Monitor.trace w ++ [EvStateRead last]) in
    if Py.truthy_opt last then
      (Ok tt, snd (Monitor.edit_telegram_message cfg env (default "" last)
                     Monitor.closed_message w1))
    else Monitor.send_telegram_message cfg env Monitor.closed_message w1
  else
    let res := Monitor.populartimes env (Monitor.GOOGLE_API_KEY cfg) (Monitor.PLACE_ID cfg) in
    let popularity := match res with Some p => p | None => None end in
    let message :=
      Monitor.status_message (snd (Monitor.classify_load popularity))
        (fst (Monitor.classify_load popularity)) popularity
        (strftime_HM (Monitor.now_stamp env)) in
    let w1 := Monitor.mk_world (Monitor.id_file w)
                (Monitor.trace w
                 ++ [EvFetch (Monitor.GOOGLE_API_KEY cfg) (Monitor.PLACE_ID cfg) res;
                     EvStateRead last]) in
    if Py.truthy_opt last then
      let '(edited, w2) := Monitor.edit_telegram_message cfg env (default "" last) message w1 in
      match edited with
      | Ok true => (Ok tt, w2)
      | Ok false => Monitor.send_telegram_message cfg env message w2
      | Raise e => (Raise e, w2)
      end
    else Monitor.send_telegram_message cfg env message w1.
Proof.
  unfold Monitor.run_check, Monitor.get_crowd_data, Monitor.get_last_message_id, Monitor.log.
  exec_unfold.
  destruct (negb _); simpl.
  - destruct (Py.truthy_opt _); [| reflexivity].
    rewrite monitor_edit_eq. reflexivity.
  - destruct (Monitor.populartimes env _ _) as [p |]; simpl.
    + destruct (Monitor.classify_load p) as [l e]; simpl.
      rewrite <- !app_assoc. simpl.
      destruct (Py.truthy_opt _); [| reflexivity].
      rewrite monitor_edit_eq. simpl. destruct (_ || _); reflexivity.
    + destruct (Monitor.classify_load None) as [l e]; simpl.
      rewrite <- !app_assoc. simpl.
      destruct (Py.truthy_opt _); [| reflexivity].
      rewrite monitor_edit_eq. simpl. destruct (_ || _); reflexivity.
Qed.

(** ** The publisher of the collector *)

Lemma collector_edit_eq env token chat id text w :
  Collector.edit_telegram_message env token chat id text w =
  let payload := mk_request (editMessageText_url token) chat (Some id) text "Markdown" in
  let ans := Collector.requests_post env payload in
  (Ok (not_modified ans || delivered ans),
   Collector.mk_world (Collector.bucket w) (Collector.trace w ++ [EvPost payload ans])).
Proof.
  unfold Collector.edit_telegram_message, Collector.log. exec_unfold. simpl.
  destruct (Collector.requests_post env _) as [| r]; simpl; [reflexivity |].
  destruct (_ && _); simpl; [reflexivity |].
  destruct (raises_for_status r); reflexivity.
Qed.

Lemma collector_send_eq env token chat text w :
  Collector.send_telegram_message env token chat text w =
  let payload := mk_request (sendMessage_url token) chat None text "Markdown" in
  let ans := Collector.requests_post env payload in
  (match malformed ans with
   | Some e => Raise e
   | None => Ok (Py.str <$> created ans)
   end,
   Collector.mk_world (Collector.bucket w) (Collector.trace w ++ [EvPost payload ans])).
Proof.
  unfold Collector.send_telegram_message, Collector.log, malformed, created.
  exec_unfold. simpl.
  destruct (Collector.requests_post env _) as [| r]; simpl; [reflexivity |].
  destruct (raises_for_status r); simpl; [reflexivity |].
  destruct (json_data r) as [| | [|] [| | [n |]]]; reflexivity.
Qed.

(** An answer that makes the send raise has given no id. *)
Lemma malformed_not_created ans e : malformed ans = Some e -> created ans = None.
Proof.
  unfold malformed, created. destruct ans as [| r]; [discriminate |].
  destruct (raises_for_status r); [discriminate |].
  destruct (json_data r) as [| | [|] [| | [n |]]]; try discriminate; reflexivity.
Qed.

(** The send-or-edit block with its binds carried out. *)
Lemma collector_send_or_edit_eq env token chat message w :
  Collector.send_or_edit env token chat message w =
  let last := collector_last_id env w in
  let w1 := Collector.mk_world (Collector.bucket w) (Collector.trace w ++ [EvStateRead last]) in
  let ereq := mk_request (editMessageText_url token) chat (Some (default "" last))
                         message "Markdown" in
  let eans := Collector.requests_post env ereq in
  let w2 := Collector.mk_world (Collector.bucket w)
              (Collector.trace w ++ [EvStateRead last; EvPost ereq eans]) in
  let sans := Collector.requests_post env
                (mk_request (sendMessage_url token) chat None message "Markdown") in
  (if Py.truthy_opt last && (not_modified eans || delivered eans) then Ok tt
   else send_result sans,
   if Py.truthy_opt last then
     if not_modified eans || delivered eans then w2
     else collector_after_send env token chat message w2
   else collector_after_send env token chat message w1).
Proof.
  unfold Collector.send_or_edit, Collector.get_last_message_id,
    Collector.save_last_message_id, Collector.log, collector_after_send, send_result.
  exec_unfold. simpl. fold (collector_last_id env w).
  destruct (Py.truthy_opt (collector_last_id env w)); simpl.
  - rewrite collector_edit_eq. simpl. rewrite <- !app_assoc. simpl.
    destruct (_ || _); simpl; [reflexivity |].
    rewrite collector_send_eq. simpl.
    destruct (malformed _) as [e |] eqn:Hm;
      [rewrite (malformed_not_created _ _ Hm), <- ?app_assoc; reflexivity |].
    destruct (created _) as [n |]; simpl; [| rewrite <- !app_assoc; reflexivity].
    rewrite str_truthy.
    destruct (Collector.state_write_raises env); simpl; rewrite <- !app_assoc; reflexivity.
  - rewrite collector_send_eq. simpl.
    destruct (malformed _) as [e |] eqn:Hm;
      [rewrite (malformed_not_created _ _ Hm), <- ?app_assoc; reflexivity |].
    destruct (created _) as [n |]; simpl; [| rewrite <- !app_assoc; reflexivity].
    rewrite str_truthy.
    destruct (Collector.state_write_raises env); simpl; rewrite <- !app_assoc; reflexivity.
Qed.

Lemma secret_events_are_accesses env :
  Forall (fun e => is_secret_access e = true) (collector_secret_events env).
Proof.
  unfold collector_secret_events.
  repeat (destruct (Collector.secrets env _)); repeat constructor.
Qed.


(** The entry point by cases: a credential is missing and the function
    returns at once; or the storage client cannot be had and the function
    raises at once; or it reaches one send-or-edit block, before which it
    has posted nothing and has left the state object alone, and ends as
    that block ends. *)
Lemma collector_entry_point_cases json_dumps env client w :
  (collector_resolved env = None
   /\ Collector.entry_point json_dumps env client w =
      (Ok ("Error getting secrets", 500),
       Collector.mk_world (Collector.bucket w)
         (Collector.trace w ++ collector_secret_events env)))
  \/ (collector_resolved env <> None /\ client = true
      /\ Collector.entry_point json_dumps env client w =
         (Raise StorageClientError,
          Collector.mk_world (Collector.bucket w)
            (Collector.trace w ++ collector_secret_events env)))
  \/ (exists token chat message body w6 pre,
        collector_resolved env <> None /\ client = false
        /\ Collector.trace w6 = (Collector.trace w ++ collector_secret_events env ++ pre)%list
        /\ Forall (fun e => is_send e = false /\ is_edit e = false) pre
        /\ find_blob Collector.STATE_BLOB (Collector.bucket w6)
           = find_blob Collector.STATE_BLOB (Collector.bucket w)
        /\ Collector.entry_point json_dumps env client w =
           (match fst (Collector.send_or_edit env token chat message w6) with
            | Ok _ => Ok (body, 200)
            | Raise e => Raise e
            end,
            snd (Collector.send_or_edit env token chat message w6))).
Proof.
  unfold Collector.entry_point, Collector.get_storage_client, Collector.get_secret,
    Collector.log, collector_resolved, collector_secret_events.
  exec_unfold. simpl.
  destruct (Collector.secrets env "GOOGLE_API_KEY") as [k |]; simpl;
    [| left; split; reflexivity].
  destruct (Collector.secrets env "TELEGRAM_BOT_TOKEN") as [t |]; simpl;
    [| left; split; [reflexivity | rewrite <- !app_assoc; reflexivity]].
  destruct (Collector.secrets env "TELEGRAM_CHAT_ID") as [c |]; simpl;
    [| left; split; [reflexivity | rewrite <- !app_assoc; reflexivity]].
  destruct (Collector.secrets env "PLACE_ID") as [p |]; simpl;
    [| left; split; [reflexivity | rewrite <- !app_assoc; reflexivity]].
  right. rewrite <- !app_assoc. simpl.
  destruct client; simpl; [left; split; [discriminate | split; reflexivity] |].
  right.
  destruct (negb _); simpl.
  - exists t, c, Collector.closed_message, "Library closed",
      (Collector.mk_world (Collector.bucket w)
         (Collector.trace w ++ [EvSecret "GOOGLE_API_KEY" (Some k);
            EvSecret "TELEGRAM_BOT_TOKEN" (Some t);
            EvSecret "TELEGRAM_CHAT_ID" (Some c);
            EvSecret "PLACE_ID" (Some p)])), [].
    split; [discriminate |]. split; [reflexivity |].
    split; [simpl; reflexivity |]. split; [constructor |]. split; [reflexivity |].
    destruct (Collector.send_or_edit _ _ _ _ _) as [[[] | e] w']; reflexivity.
  - unfold Collector.get_crowd_data, Collector.save_reading, Collector.log.
    exec_unfold. simpl.
    destruct (Collector.populartimes env k p) as [popularity |]; simpl;
      try match goal with
          | |- context [Collector.classify_load ?a] =>
              destruct (Collector.classify_load a) as [load_level emoji]
          end;
      destruct (Collector.archive_write_raises env); simpl;
      match goal with
      | |- context [Collector.send_or_edit env t c ?m ?w0] =>
          eexists t, c, m, _, w0, _
      end;
      (split; [discriminate |]); (split; [reflexivity |]);
      (split; [simpl; rewrite <- !app_assoc; simpl; reflexivity |]);
      (split; [repeat constructor |]);
      (split; [simpl; try reflexivity;
               apply find_blob_upload_other, archive_path_is_not_state |]);
      match goal with
      | |- context [Collector.send_or_edit env t c ?m ?w0] =>
          destruct (Collector.send_or_edit env t c m w0) as [[[] | e] w']
      end; reflexivity.
Qed.

(** [monitor_crowds] by cases: either a credential is missing and the
    function returns at once, or it reaches one send-or-edit block, before
    which it has posted nothing and has left the state object alone. *)
Lemma collector_monitor_crowds_cases json_dumps env w :
  (collector_resolved env = None
   /\ Collector.monitor_crowds json_dumps env w =
      (Ok ("Error getting secrets", 500),
       Collector.mk_world (Collector.bucket w)
         (Collector.trace w ++ collector_secret_events env)))
  \/ (exists token chat message body w6 pre,
        collector_resolved env <> None
        /\ Collector.trace w6 = (Collector.trace w ++ collector_secret_events env ++ pre)%list
        /\ Forall (fun e => is_send e = false /\ is_edit e = false) pre
        /\ find_blob Collector.STATE_BLOB (Collector.bucket w6)
           = find_blob Collector.STATE_BLOB (Collector.bucket w)
        /\ Collector.monitor_crowds json_dumps env w =
           (match fst (Collector.send_or_edit env token chat message w6) with
            | Ok _ => Ok (body, 200)
            | Raise e => Raise e
            end,
            snd (Collector.send_or_edit env token chat message w6))).
Proof.
  unfold Collector.monitor_crowds.
  destruct (collector_entry_point_cases json_dumps env false w)
    as [H | [(_ & [=] & _) | (t & c & m & body & w6 & pre & H1 & _ & H)]];
    [left; exact H | right; eauto 10].
Qed.

(** With the four secrets, the entry point either ends at once with the
    exception of [storage.Client()], or is [monitor_crowds]. *)
Lemma collector_entry_point_client json_dumps env client w :
  collector_resolved env <> None ->
  Collector.entry_point json_dumps env client w =
  if client then
    (Raise StorageClientError,
     Collector.mk_world (Collector.bucket w)
       (Collector.trace w ++ collector_secret_events env))
  else Collector.monitor_crowds json_dumps env w.
Proof.
  intros Hsome. destruct client; [| reflexivity].
  destruct (collector_entry_point_cases json_dumps env true w)
    as [(Hnone & _) | [(_ & _ & H) | (t & c & m & body & w6 & pre & _ & [=] & _)]];
    [contradiction | exact H].
Qed.

Lemma collector_entry_point_unresolved json_dumps env client w :
  collector_resolved env = None ->
  Collector.entry_point json_dumps env client w = Collector.monitor_crowds json_dumps env w.
Proof.
  intros Hnone. unfold Collector.monitor_crowds.
  destruct (collector_entry_point_cases json_dumps env client w)
    as [(_ & ->) | [(Hsome & _) | (t & c & m & body & w6 & pre & Hsome & _)]];
    try contradiction.
  destruct (collector_entry_point_cases json_dumps env false w)
    as [(_ & ->) | [(Hsome & _) | (t & c & m & body & w6 & pre & Hsome & _)]];
    try contradiction.
  reflexivity.
Qed.

(** The theorem at work: Saturday has no entry and is closed at 10;
    Monday at 10 is inside its interval. *)
Lemma is_library_open_half_open_interval_witness :
  Monitor.is_library_open Sample.saturday_10 = false
  /\ Collector.is_library_open Sample.saturday_10 = false
  /\ Monitor.is_library_open Sample.monday_10 = true.
Proof.
  split; [| split].
  - apply (proj1 (proj2 (proj2 is_library_open_half_open_interval)) Sample.saturday_10).
    reflexivity.
  - apply (proj1 (proj2 (proj2 (proj2 is_library_open_half_open_interval)))
             Sample.saturday_10).
    reflexivity.
  - apply (proj1 is_library_open_half_open_interval Sample.monday_10).
    exists 9, 20. split; [reflexivity | simpl; lia].
Defined.

(** ** Traces *)

Lemma post_is_send_or_edit req ans :
  is_send (EvPost req ans) = false /\ is_edit (EvPost req ans) = false -> False.
Proof.
  simpl. intros [H1 H2].
  apply bool_decide_eq_false in H1. apply bool_decide_eq_false in H2. tauto.
Qed.

Lemma filter_none {A} (f : A -> bool) (l : list A) :
  Forall (fun x => f x = false) l -> List.filter f l = [].
Proof.
  induction 1 as [| x l Hx _ IH]; simpl; [reflexivity |]. rewrite Hx. exact IH.
Qed.

Lemma no_send_in_prelude secret_events pre :
  Forall (fun e => is_secret_access e = true) secret_events ->
  Forall (fun e => is_send e = false /\ is_edit e = false) pre ->
  List.filter is_send (secret_events ++ pre) = [].
Proof.
  intros Hs Hp. apply filter_none, Forall_app. split.
  - eapply Forall_impl; [exact Hs |]. intros [] He; simpl in *; congruence.
  - eapply Forall_impl; [exact Hp |]. intros e [He _]. exact He.
Qed.

Lemma no_post_among_secrets env req ans :
  In (EvPost req ans) (collector_secret_events env) -> False.
Proof.
  intros Hin. pose proof (secret_events_are_accesses env) as Hs.
  rewrite Forall_forall in Hs. apply list_elem_of_In, Hs in Hin. discriminate.
Qed.

Lemma no_post_in_prelude pre req ans :
  Forall (fun e => is_send e = false /\ is_edit e = false) pre ->
  In (EvPost req ans) pre -> False.
Proof.
  intros Hp Hin. rewrite Forall_forall in Hp. apply list_elem_of_In, Hp in Hin.
  exact (post_is_send_or_edit _ _ Hin).
Qed.

(** Case analysis on what the send of the goal created. *)
Ltac the_created Hc :=
  match goal with
  | |- context [match created ?x with _ => _ end] => destruct (created x) eqn:Hc
  end.

(** The posts of a collector's trace, one by one. *)
Ltac post_cases Hin Hpre :=
  rewrite ?in_app_iff in Hin;
  repeat (destruct Hin as [Hin | Hin]);
  try (exfalso; exact (no_post_among_secrets _ _ _ Hin));
  try (exfalso; exact (no_post_in_prelude _ _ _ Hpre Hin));
  try discriminate Hin; try (injection Hin as <- <-); try contradiction.

(** ** C6: "message is not modified" *)

Lemma monitor_edit_not_modified cfg env id text w :
  not_modified (Monitor.requests_post env
                  (edit_payload (Monitor.TELEGRAM_BOT_TOKEN cfg) (Monitor.TELEGRAM_CHAT_ID cfg)
                     id text)) = true ->
  fst (Monitor.edit_telegram_message cfg env id text w) = Ok true.
Proof.
  intros H. rewrite monitor_edit_eq. simpl. unfold edit_payload in H. rewrite H. reflexivity.
Qed.

Lemma collector_edit_not_modified env token chat id text w :
  not_modified (Collector.requests_post env (edit_payload token chat id text)) = true ->
  fst (Collector.edit_telegram_message env token chat id text w) = Ok true.
Proof.
  intros H. rewrite collector_edit_eq. simpl. unfold edit_payload in H. rewrite H. reflexivity.
Qed.

Lemma monitor_cycle_not_modified cfg env file req ans :
  let run := Monitor.run_check cfg env (Monitor.mk_world file []) in
  In (EvPost req ans) (Monitor.trace (snd run)) ->
  message_id req <> None ->
  not_modified ans = true ->
  fst run = Ok tt
  /\ Monitor.id_file (snd run) = file
  /\ Forall (fun e => is_send e = false) (Monitor.trace (snd run)).
Proof.
  simpl. rewrite monitor_run_check_eq. simpl.
  intros Hin Hreq Hans.
  destruct (negb _).
  - destruct (Py.truthy_opt _).
    + rewrite monitor_edit_eq in *. simpl in *. repeat split. repeat constructor.
    + rewrite monitor_send_eq in *. simpl in *.
      destruct (created _); in_trace Hin; simpl in Hreq; congruence.
  - destruct (Py.truthy_opt _).
    + rewrite monitor_edit_eq in *. simpl in *.
      destruct (not_modified _) eqn:Hnm; simpl in *.
      * repeat split. repeat constructor.
      * destruct (delivered _) eqn:Hd; simpl in *.
        -- repeat split. repeat constructor.
        -- rewrite monitor_send_eq in *. simpl in *.
           destruct (created _); in_trace Hin; simpl in Hreq; congruence.
    + rewrite monitor_send_eq in *. simpl in *.
      destruct (created _); in_trace Hin; simpl in Hreq; congruence.
Qed.

Lemma collector_cycle_not_modified json_dumps env bucket req ans :
  let run := Collector.monitor_crowds json_dumps env (Collector.mk_world bucket []) in
  In (EvPost req ans) (Collector.trace (snd run)) ->
  message_id req <> None ->
  not_modified ans = true ->
  (exists body, fst run = Ok (body, 200))
  /\ collector_stored_id (snd run) = content <$> find_blob Collector.STATE_BLOB bucket
  /\ Forall (fun e => is_send e = false) (Collector.trace (snd run)).
Proof.
  simpl.
  destruct (collector_monitor_crowds_cases json_dumps env (Collector.mk_world bucket []))
    as [(_ & ->) | (token & chat & message & body & w6 & pre & _ & Htr & Hpre & Hst & ->)];
    simpl.
  - intros Hin. exfalso.
    pose proof (secret_events_are_accesses env) as Hs.
    rewrite Forall_forall in Hs. apply list_elem_of_In, Hs in Hin. discriminate.
  - simpl in Htr. unfold collector_stored_id.
    pose proof (secret_events_are_accesses env) as Hs.
    assert (Hquiet : Forall (fun e => is_send e = false) (Collector.trace w6)).
    { rewrite Htr. apply Forall_app. split.
      - eapply Forall_impl; [exact Hs |]. intros [] He; simpl in *; congruence.
      - eapply Forall_impl; [exact Hpre |]. intros e [He _]. exact He. }
    rewrite collector_send_or_edit_eq. simpl. unfold collector_after_send.
    intros Hin Hreq Hans.
    destruct (Py.truthy_opt _).
    + destruct (not_modified _) eqn:Hnm; simpl in *.
      * split; [eauto |]. split; [rewrite Hst; reflexivity |].
        apply Forall_app. split; [exact Hquiet | repeat constructor].
      * destruct (delivered _) eqn:Hd; simpl in *.
        -- split; [eauto |]. split; [rewrite Hst; reflexivity |].
           apply Forall_app. split; [exact Hquiet | repeat constructor].
        -- exfalso.
           destruct (created _); [destruct (Collector.state_write_raises env) |];
             simpl in Hin; rewrite Htr in Hin; post_cases Hin Hpre;
             simpl in Hreq; congruence.
    + exfalso.
      destruct (created _); [destruct (Collector.state_write_raises env) |];
        simpl in Hin; rewrite Htr in Hin; post_cases Hin Hpre;
        simpl in Hreq; congruence.
Qed.

(** C6.  When the provider answers an edit with its "message is not
    modified" error (status 400 with that text), [edit_telegram_message]
    returns [True], in [monitor.py] and in the collector; and a cycle in
    which an edit got that answer completes, leaves the stored message id
    as it was and posts no new message. *)
Theorem edit_not_modified_is_success :
  (forall cfg env id text w,
     not_modified (Monitor.requests_post env
                     (edit_payload (Monitor.TELEGRAM_BOT_TOKEN cfg)
                        (Monitor.TELEGRAM_CHAT_ID cfg) id text)) = true ->
     fst (Monitor.edit_telegram_message cfg env id text w) = Ok true)
  /\ (forall env token chat id text w,
     not_modified (Collector.requests_post env (edit_payload token chat id text)) = true ->
     fst (Collector.edit_telegram_message env token chat id text w) = Ok true)
  /\ (forall cfg env file req ans,
     let run := Monitor.run_check cfg env (Monitor.mk_world file []) in
     In (EvPost req ans) (Monitor.trace (snd run)) ->
     message_id req <> None ->
     not_modified ans = true ->
     fst run = Ok tt
     /\ Monitor.id_file (snd run) = file
     /\ Forall (fun e => is_send e = false) (Monitor.trace (snd run)))
  /\ (forall json_dumps env bucket req ans,
     let run := Collector.monitor_crowds json_dumps env (Collector.mk_world bucket []) in
     In (EvPost req ans) (Collector.trace (snd run)) ->
     message_id req <> None ->
     not_modified ans = true ->
     (exists body, fst run = Ok (body, 200))
     /\ collector_stored_id (snd run) = content <$> find_blob Collector.STATE_BLOB bucket
     /\ Forall (fun e => is_send e = false) (Collector.trace (snd run))).
Proof.
  split; [exact monitor_edit_not_modified |].
  split; [exact collector_edit_not_modified |].
  split; [exact monitor_cycle_not_modified | exact collector_cycle_not_modified].
Qed.

(** The theorem at work: the id 42 is stored, the text is unchanged; on a
    Monday morning the local monitor, and on a Saturday the collector,
    keep 42 and send nothing. *)
Lemma edit_not_modified_is_success_witness :
  (let run := Monitor.run_check Sample.cfg (Sample.monitor_env Sample.monday_10 Sample.provider_same)
                (Monitor.mk_world (Some "42") []) in
   fst run = Ok tt
   /\ Monitor.id_file (snd run) = Some "42"
   /\ Forall (fun e => is_send e = false) (Monitor.trace (snd run)))
  /\ (let run := Collector.monitor_crowds Sample.json_dumps
                   (Sample.collector_env Sample.saturday_10 Sample.all_secrets
                      Sample.provider_same)
                   (Collector.mk_world Sample.state_42 []) in
      (exists body, fst run = Ok (body, 200))
      /\ collector_stored_id (snd run) = Some "42"
      /\ Forall (fun e => is_send e = false) (Collector.trace (snd run))).
Proof.
  split.
  - apply (proj1 (proj2 (proj2 edit_not_modified_is_success))
             Sample.cfg (Sample.monitor_env Sample.monday_10 Sample.provider_same)
             (Some "42")
             (edit_payload "TOKEN" "@channel" "42"
                (Monitor.status_message "🟡" "בינוני" (Some 42) "10:05"))
             (PostReturns Sample.answer_same)).
    + vm_compute. auto.
    + discriminate.
    + reflexivity.
  - apply (proj2 (proj2 (proj2 edit_not_modified_is_success))
             Sample.json_dumps
             (Sample.collector_env Sample.saturday_10 Sample.all_secrets Sample.provider_same)
             Sample.state_42
             (edit_payload "value of TELEGRAM_BOT_TOKEN" "value of TELEGRAM_CHAT_ID" "42"
                Collector.closed_message)
             (PostReturns Sample.answer_same)).
    + vm_compute. auto 10.
    + discriminate.
    + reflexivity.
Defined.

(** ** C7: a failed creation *)

(** How a cycle ends, from how its one send ends; and a cycle without a
    send returns. *)
Ltac send_ends :=
  unfold send_result; split;
  [ let H := fresh "H" in
    intros H; erewrite H; [reflexivity | simpl; auto 10 | reflexivity]
  | let Hin := fresh "Hin" in
    let Hreq := fresh "Hreq" in
    let Hm := fresh "Hm" in
    intros ? ? ? Hin Hreq Hm; in_trace Hin; try (simpl in Hreq; discriminate Hreq);
    rewrite Hm; reflexivity ].

Ltac no_send_ends :=
  split;
  [ reflexivity
  | let Hin := fresh "Hin" in
    let Hreq := fresh "Hreq" in
    intros ? ? ? Hin Hreq ?; in_trace Hin; simpl in Hreq; discriminate Hreq ].

Lemma monitor_cycle_create_fails cfg env file :
  let run := Monitor.run_check cfg env (Monitor.mk_world file []) in
  (forall req ans,
     In (EvPost req ans) (Monitor.trace (snd run)) ->
     message_id req = None -> created ans = None) ->
  Monitor.id_file (snd run) = file
  /\ (length (List.filter is_send (Monitor.trace (snd run))) <= 1)%nat
  /\ ((forall req ans,
         In (EvPost req ans) (Monitor.trace (snd run)) ->
         message_id req = None -> malformed ans = None) ->
      fst run = Ok tt)
  /\ (forall req ans e,
        In (EvPost req ans) (Monitor.trace (snd run)) ->
        message_id req = None -> malformed ans = Some e ->
        fst run = Raise e).
Proof.
  simpl. rewrite monitor_run_check_eq. simpl.
  assert (Hsend : forall text w,
            (forall req ans,
               In (EvPost req ans)
                  (Monitor.trace (snd (Monitor.send_telegram_message cfg env text w))) ->
               message_id req = None -> created ans = None) ->
            Monitor.send_telegram_message cfg env text w
            = (send_result (Monitor.requests_post env
                              (send_payload (Monitor.TELEGRAM_BOT_TOKEN cfg)
                                 (Monitor.TELEGRAM_CHAT_ID cfg) text)),
               Monitor.mk_world (Monitor.id_file w)
                 (Monitor.trace w ++ [EvPost (send_payload (Monitor.TELEGRAM_BOT_TOKEN cfg)
                                                (Monitor.TELEGRAM_CHAT_ID cfg) text)
                                        (Monitor.requests_post env
                                           (send_payload (Monitor.TELEGRAM_BOT_TOKEN cfg)
                                              (Monitor.TELEGRAM_CHAT_ID cfg) text))]))).
  { intros text w H. rewrite monitor_send_eq in *. simpl in *.
    destruct (created _) as [n |] eqn:Hc; [| reflexivity].
    specialize (H _ _ ltac:(apply in_or_app; right; left; reflexivity) eq_refl).
    unfold send_payload in *. congruence. }
  destruct (negb _).
  - destruct (Py.truthy_opt _).
    + intros _. rewrite monitor_edit_eq. simpl.
      split; [reflexivity |]. split; [lia |]. no_send_ends.
    + intros H. rewrite (Hsend _ _ H). simpl.
      split; [reflexivity |]. split; [lia |]. send_ends.
  - destruct (Py.truthy_opt _).
    + rewrite monitor_edit_eq. simpl.
      destruct (_ || _); simpl.
      * intros _. split; [reflexivity |]. split; [lia |]. no_send_ends.
      * intros H. rewrite (Hsend _ _ H). simpl.
        split; [reflexivity |]. split; [lia |]. send_ends.
    + intros H. rewrite (Hsend _ _ H). simpl.
      split; [reflexivity |]. split; [lia |]. send_ends.
Qed.

Lemma collector_cycle_create_fails json_dumps env client bucket :
  let run := Collector.entry_point json_dumps env client (Collector.mk_world bucket []) in
  (forall req ans,
     In (EvPost req ans) (Collector.trace (snd run)) ->
     message_id req = None -> created ans = None) ->
  collector_stored_id (snd run) = content <$> find_blob Collector.STATE_BLOB bucket
  /\ (length (List.filter is_send (Collector.trace (snd run))) <= 1)%nat
  /\ (client = false ->
      (forall req ans,
         In (EvPost req ans) (Collector.trace (snd run)) ->
         message_id req = None -> malformed ans = None) ->
      exists body status, fst run = Ok (body, status))
  /\ (forall req ans e,
        In (EvPost req ans) (Collector.trace (snd run)) ->
        message_id req = None -> malformed ans = Some e ->
        fst run = Raise e).
Proof.
  simpl.
  destruct (collector_entry_point_cases json_dumps env client (Collector.mk_world bucket []))
    as [(_ & ->)
       | [(_ & -> & ->)
         | (token & chat & message & body & w6 & pre & _ & -> & Htr & Hpre & Hst & ->)]];
    simpl.
  - intros _. split; [reflexivity |]. split; [| split; [eauto |]].
    + rewrite filter_none; [simpl; lia |].
      eapply Forall_impl; [apply secret_events_are_accesses |].
      intros [] He; simpl in *; congruence.
    + intros req ans e Hin. destruct (no_post_among_secrets _ _ _ Hin).
  - intros _. split; [reflexivity |]. split; [| split; [discriminate |]].
    + rewrite filter_none; [simpl; lia |].
      eapply Forall_impl; [apply secret_events_are_accesses |].
      intros [] He; simpl in *; congruence.
    + intros req ans e Hin. destruct (no_post_among_secrets _ _ _ Hin).
  - simpl in Htr. unfold collector_stored_id.
    pose proof (no_send_in_prelude _ _ (secret_events_are_accesses env) Hpre) as Hquiet.
    rewrite collector_send_or_edit_eq. simpl. unfold collector_after_send, send_result.
    intros H.
    destruct (Py.truthy_opt _); [destruct (_ || _) |]; simpl in *;
      try (destruct (created (Collector.requests_post env ?[r])) as [n |] eqn:Hc;
           [exfalso;
            destruct (Collector.state_write_raises env); simpl in H;
            match type of Hc with
            | created (Collector.requests_post env ?r) = _ =>
                specialize (H r (Collector.requests_post env r))
            end;
            rewrite Hc in H;
            (assert (Hn : Some n = None)
               by (apply H; [rewrite !in_app_iff; simpl; auto 10 | reflexivity]));
            discriminate
           |]);
      simpl; (split; [rewrite Hst; reflexivity |]);
      (split; [rewrite <- ?app_assoc, Htr, List.filter_app, Hquiet; simpl; lia |]);
      rewrite Htr; split.
    + eauto.
    + intros req ans e Hin Hreq. post_cases Hin Hpre. simpl in Hreq. discriminate.
    + intros _ Hm.
      erewrite Hm; [eauto | rewrite !in_app_iff; simpl; auto 10 | reflexivity].
    + intros req ans e Hin Hreq Hm. post_cases Hin Hpre;
        try (simpl in Hreq; discriminate Hreq). rewrite Hm. reflexivity.
    + intros _ Hm.
      erewrite Hm; [eauto | rewrite !in_app_iff; simpl; auto 10 | reflexivity].
    + intros req ans e Hin Hreq Hm. post_cases Hin Hpre;
        try (simpl in Hreq; discriminate Hreq). rewrite Hm. reflexivity.
Qed.

(** C7, as the claim has it, fails: on a Monday morning, with nothing
    stored, the provider answers the [sendMessage] post with status 200
    and the JSON body [[]].  No message id is had, the stored state is
    unchanged, one send was posted, and the cycle ends with the
    [AttributeError] of [data.get], in [monitor.py] and in the collector. *)
Lemma create_failure_can_end_the_cycle :
  (let run := Monitor.run_check Sample.cfg
                (Sample.monitor_env Sample.monday_10 Sample2.provider_garbled)
                (Monitor.mk_world None []) in
   (forall req ans,
      In (EvPost req ans) (Monitor.trace (snd run)) ->
      message_id req = None -> created ans = None)
   /\ fst run = Raise AttributeError
   /\ Monitor.id_file (snd run) = None)
  /\ (let run := Collector.entry_point Sample.json_dumps
                   (Sample.collector_env Sample.monday_10 Sample.all_secrets
                      Sample2.provider_garbled)
                   false (Collector.mk_world [] []) in
      (forall req ans,
         In (EvPost req ans) (Collector.trace (snd run)) ->
         message_id req = None -> created ans = None)
      /\ fst run = Raise AttributeError
      /\ collector_stored_id (snd run) = None).
Proof.
  split; vm_compute; (split; [| split; reflexivity]); intros req ans Hin _;
    repeat (destruct Hin as [Hin | Hin]; [try discriminate Hin; injection Hin as <- <- |]);
    try contradiction; reflexivity.
Qed.

(** C7, amended.  When creating a new message fails (no [sendMessage]
    post of the cycle gives a message id), the stored message id is left
    as it was: absent if it was absent, the old id if there was one and
    the edit had been refused; and the cycle posts at most one
    [sendMessage]: there is no retry.  The cycle completes when the failure
    is one the program catches or passes over (the post raised, got an
    error status, a body that is not JSON or an answer that is not [ok]).
    When the answer has a success status and JSON that is not an object,
    or is [ok] without an id under [result], the exception of reading it
    ends the cycle. *)
Theorem create_failure_keeps_state :
  (forall cfg env file,
     let run := Monitor.run_check cfg env (Monitor.mk_world file []) in
     (forall req ans,
        In (EvPost req ans) (Monitor.trace (snd run)) ->
        message_id req = None -> created ans = None) ->
     Monitor.id_file (snd run) = file
     /\ (length (List.filter is_send (Monitor.trace (snd run))) <= 1)%nat
     /\ ((forall req ans,
            In (EvPost req ans) (Monitor.trace (snd run)) ->
            message_id req = None -> malformed ans = None) ->
         fst run = Ok tt)
     /\ (forall req ans e,
           In (EvPost req ans) (Monitor.trace (snd run)) ->
           message_id req = None -> malformed ans = Some e ->
           fst run = Raise e))
  /\ (forall json_dumps env storage_client_raises bucket,
     let run := Collector.entry_point json_dumps env storage_client_raises
                  (Collector.mk_world bucket []) in
     (forall req ans,
        In (EvPost req ans) (Collector.trace (snd run)) ->
        message_id req = None -> created ans = None) ->
     collector_stored_id (snd run) = content <$> find_blob Collector.STATE_BLOB bucket
     /\ (length (List.filter is_send (Collector.trace (snd run))) <= 1)%nat
     /\ (storage_client_raises = false ->
         (forall req ans,
            In (EvPost req ans) (Collector.trace (snd run)) ->
            message_id req = None -> malformed ans = None) ->
         exists body status, fst run = Ok (body, status))
     /\ (forall req ans e,
           In (EvPost req ans) (Collector.trace (snd run)) ->
           message_id req = None -> malformed ans = Some e ->
           fst run = Raise e)).
Proof.
  split; [exact monitor_cycle_create_fails | exact collector_cycle_create_fails].
Qed.

(** The theorem at work, with the provider down: the local monitor starts
    without an id file and ends without one; the collector has 42 stored,
    its edit is refused, its send fails, and 42 stays; both cycles
    complete. *)
Lemma create_failure_keeps_state_witness :
  (let run := Monitor.run_check Sample.cfg
                (Sample.monitor_env Sample.monday_10 Sample.provider_down)
                (Monitor.mk_world None []) in
   Monitor.id_file (snd run) = None
   /\ (length (List.filter is_send (Monitor.trace (snd run))) <= 1)%nat
   /\ fst run = Ok tt)
  /\ (let run := Collector.entry_point Sample.json_dumps
                   (Sample.collector_env Sample.monday_10 Sample.all_secrets
                      Sample.provider_down)
                   false (Collector.mk_world Sample.state_42 []) in
      collector_stored_id (snd run) = Some "42"
      /\ (length (List.filter is_send (Collector.trace (snd run))) <= 1)%nat
      /\ exists body status, fst run = Ok (body, status)).
Proof.
  split.
  - destruct (proj1 create_failure_keeps_state Sample.cfg
                (Sample.monitor_env Sample.monday_10 Sample.provider_down) None)
      as (H1 & H2 & H3 & _).
    + vm_compute. intros req ans Hin _.
      repeat (destruct Hin as [Hin | Hin]; [try discriminate Hin; injection Hin as <- <- |]);
        try contradiction; reflexivity.
    + split; [exact H1 |]. split; [exact H2 |]. apply H3.
      vm_compute. intros req ans Hin _.
      repeat (destruct Hin as [Hin | Hin]; [try discriminate Hin; injection Hin as <- <- |]);
        try contradiction; reflexivity.
  - destruct (proj2 create_failure_keeps_state Sample.json_dumps
                (Sample.collector_env Sample.monday_10 Sample.all_secrets Sample.provider_down)
                false Sample.state_42)
      as (H1 & H2 & H3 & _).
    + vm_compute. intros req ans Hin _.
      repeat (destruct Hin as [Hin | Hin]; [try discriminate Hin; injection Hin as <- <- |]);
        try contradiction; reflexivity.
    + split; [exact H1 |]. split; [exact H2 |]. apply H3; [reflexivity |].
      vm_compute. intros req ans Hin _.
      repeat (destruct Hin as [Hin | Hin]; [try discriminate Hin; injection Hin as <- <- |]);
        try contradiction; reflexivity.
Defined.

(** ** C1: the fallback after a refused edit *)

(** In the collector a refused edit is followed by a send of the same
    text, in the closed branch and in the open branch alike; the id of a
    created message replaces the stored one whenever the upload of the
    state object goes through. *)
Lemma collector_refused_edit_falls_back json_dumps env bucket req ans :
  let run := Collector.monitor_crowds json_dumps env (Collector.mk_world bucket []) in
  In (EvPost req ans) (Collector.trace (snd run)) ->
  message_id req <> None ->
  not_modified ans || delivered ans = false ->
  exists sreq sans,
    In (EvPost sreq sans) (Collector.trace (snd run))
    /\ message_id sreq = None
    /\ text sreq = text req
    /\ forall n, created sans = Some n ->
                 Collector.state_write_raises env = false ->
                 collector_stored_id (snd run) = Some (Py.str n).
Proof.
  simpl.
  destruct (collector_monitor_crowds_cases json_dumps env (Collector.mk_world bucket []))
    as [(_ & ->) | (token & chat & message & body & w6 & pre & _ & Htr & Hpre & Hst & ->)];
    simpl.
  - intros Hin. destruct (no_post_among_secrets _ _ _ Hin).
  - simpl in Htr. unfold collector_stored_id.
    rewrite collector_send_or_edit_eq. simpl. unfold collector_after_send.
    intros Hin Hreq Hans.
    destruct (Py.truthy_opt _).
    + destruct (_ || _) eqn:Hacc; simpl in *.
      * exfalso. rewrite Htr in Hin. post_cases Hin Hpre. congruence.
      * eexists _, _. split; [| split; [| split]].
        -- destruct (created _); [destruct (Collector.state_write_raises env) |]; simpl;
             apply in_or_app; right; left; reflexivity.
        -- reflexivity.
        -- destruct (created _); [destruct (Collector.state_write_raises env) |];
             simpl in Hin; rewrite Htr in Hin; post_cases Hin Hpre;
             try reflexivity; simpl in Hreq; congruence.
        -- intros n Hn Hw. rewrite Hn, Hw. simpl.
           rewrite find_blob_upload_same. reflexivity.
    + exfalso.
      destruct (created _); [destruct (Collector.state_write_raises env) |];
        simpl in Hin; rewrite Htr in Hin; post_cases Hin Hpre;
        simpl in Hreq; congruence.
Qed.

(** So does [run_check] of [monitor.py] while the library is open. *)
Lemma monitor_open_refused_edit_falls_back cfg env file req ans :
  let run := Monitor.run_check cfg env (Monitor.mk_world file []) in
  Monitor.is_library_open (Monitor.now_check env) = true ->
  In (EvPost req ans) (Monitor.trace (snd run)) ->
  message_id req <> None ->
  not_modified ans || delivered ans = false ->
  exists sreq sans,
    In (EvPost sreq sans) (Monitor.trace (snd run))
    /\ message_id sreq = None
    /\ text sreq = text req
    /\ forall n, created sans = Some n -> Monitor.id_file (snd run) = Some (Py.str n).
Proof.
  simpl. rewrite monitor_run_check_eq. simpl. intros -> Hin Hreq Hans. simpl in *.
  destruct (Py.truthy_opt _).
  - rewrite monitor_edit_eq in *. simpl in *.
    destruct (_ || _) eqn:Hacc; simpl in *.
    + exfalso. in_trace Hin. congruence.
    + rewrite monitor_send_eq in *. simpl in *.
      eexists _, _. split; [| split; [| split]].
      * destruct (created _); simpl; do 3 right; left; reflexivity.
      * reflexivity.
      * destruct (created _); in_trace Hin; try reflexivity; simpl in Hreq; congruence.
      * intros n ->. reflexivity.
  - exfalso. rewrite monitor_send_eq in *. simpl in *.
    destruct (created _); in_trace Hin; simpl in Hreq; congruence.
Qed.

(** While the library is closed, [run_check] of [monitor.py] drops the
    result of the edit: whatever the provider answers, nothing is sent and
    the id file keeps its content. *)
Lemma monitor_closed_never_falls_back cfg env file :
  let run := Monitor.run_check cfg env (Monitor.mk_world file []) in
  Monitor.is_library_open (Monitor.now_check env) = false ->
  Py.truthy_opt (Py.strip <$> file) = true ->
  Monitor.id_file (snd run) = file
  /\ Forall (fun e => is_send e = false) (Monitor.trace (snd run)).
Proof.
  simpl. rewrite monitor_run_check_eq. simpl. intros -> ->. simpl.
  rewrite monitor_edit_eq. simpl. split; [reflexivity | repeat constructor].
Qed.

(** C1 fails in [monitor.py].  On a Saturday, with the id 42 stored and
    the message 42 deleted, the provider refuses the edit of the
    closed-status text with "message to edit not found"; [run_check] posts
    nothing else and keeps 42, although the provider would have accepted a
    new message and given it the id 77. *)
Theorem monitor_closed_refused_edit_is_not_recovered :
  let env := Sample.monitor_env Sample.saturday_10 Sample.provider_gone in
  let run := Monitor.run_check Sample.cfg env (Monitor.mk_world (Some "42") []) in
  let edit := edit_payload "TOKEN" "@channel" "42" Monitor.closed_message in
  Monitor.is_library_open (Monitor.now_check env) = false
  /\ Monitor.trace (snd run)
     = [EvStateRead (Some "42"); EvPost edit (PostReturns Sample.answer_gone)]
  /\ not_modified (PostReturns Sample.answer_gone)
     || delivered (PostReturns Sample.answer_gone) = false
  /\ Forall (fun e => is_send e = false) (Monitor.trace (snd run))
  /\ Monitor.id_file (snd run) = Some "42"
  /\ created (Monitor.requests_post env
                (send_payload "TOKEN" "@channel" Monitor.closed_message)) = Some 77.
Proof.
  vm_compute. repeat split. repeat constructor.
Qed.

(** ** C8: the credentials *)




(** ** The database *)

Import Database.

Lemma bind_param_raise v e :
  bind_param v = Raise e -> e = OverflowError \/ e = InterfaceError.
Proof.
  destruct v as [| b | z | s | c]; simpl; try discriminate.
  - destruct (_ && _); [discriminate | intros [= <-]; auto].
  - intros [= <-]; auto.
Qed.

Lemma bindable_ok v : bindable v = true -> exists p, bind_param v = Ok p.
Proof. unfold bindable. destruct (bind_param v); [eauto | discriminate]. Qed.

Lemma get_or_create_location_tables p n nh a d :
  same_archive_tables d (snd (get_or_create_location p n nh a d)).
Proof.
  unfold get_or_create_location, same_archive_tables.
  destruct (bind_param p) as [param | e]; simpl; [| tauto].
  destruct (text_affinity param) as [key |]; simpl; [| tauto].
  destruct (List.find _ _); simpl; tauto.
Qed.

Lemma get_or_create_location_ok p n nh a d :
  jtruthy p = true -> bindable p = true ->
  exists id, fst (get_or_create_location p n nh a d) = Ok id.
Proof.
  unfold get_or_create_location, bindable.
  intros Ht Hb. destruct p as [| b | z | s | c]; simpl in *; try discriminate.
  - destruct (List.find _ _); simpl; eauto.
  - destruct (_ && _); [| discriminate]. simpl.
    destruct (List.find _ _); simpl; eauto.
  - destruct (List.find _ _); simpl; eauto.
Qed.

Lemma get_or_create_location_unbindable p n nh a d :
  bindable p = false ->
  exists e, get_or_create_location p n nh a d = (Raise e, d).
Proof.
  unfold get_or_create_location, bindable.
  destruct (bind_param p) as [param | e]; [discriminate | eauto].
Qed.

Lemma find_app_none {A} (f : A -> bool) (l : list A) (x : A) :
  List.find f l = None -> List.find f (l ++ [x]) = if f x then Some x else None.
Proof.
  induction l as [| y l IH]; simpl; [reflexivity |].
  destruct (f y); [discriminate | exact IH].
Qed.

(** A place id that is a string: its location is found, or created with
    the next id; afterwards it is there. *)
Lemma get_or_create_location_str p n nh a d :
  exists loc d1,
    get_or_create_location (JStr p) n nh a d = (Ok loc, d1)
    /\ same_archive_tables d d1
    /\ location_of p d1 = Some loc.
Proof.
  pose proof (get_or_create_location_tables (JStr p) n nh a d) as Htab.
  unfold get_or_create_location, location_of in *. simpl in *.
  destruct (List.find _ (locations d)) as [row |] eqn:Hfind; simpl in *.
  - exists (loc_id row), d. rewrite Hfind. auto.
  - eexists _, _. split; [reflexivity |]. split; [exact Htab |]. simpl.
    rewrite (find_app_none _ _ _ Hfind). simpl. rewrite String.eqb_refl. reflexivity.
Qed.

Lemma get_or_create_location_known p n nh a d loc :
  location_of p d = Some loc ->
  get_or_create_location (JStr p) n nh a d = (Ok loc, d).
Proof.
  unfold get_or_create_location, location_of. simpl.
  destruct (List.find _ (locations d)) as [row |]; simpl; [| discriminate].
  intros [= <-]. reflexivity.
Qed.

(** [insert_reading] by cases: a parameter cannot be bound and the call
    raises; the key is taken, or the timestamp is NULL, and the call
    returns [False]; the row is added and the call returns [True]. *)
Lemma insert_reading_cases loc pop ts dow hr io from d :
  let res := insert_reading loc pop ts dow hr io from d in
  (bindable pop && bindable ts && bindable dow && bindable hr = false
   /\ (exists e, fst res = Raise e) /\ snd res = d)
  \/ (bindable pop && bindable ts && bindable dow && bindable hr = true
      /\ fst res = Ok false /\ snd res = d
      /\ (forall p t, bind_param ts = Ok p -> text_affinity p = Some t ->
                      has_reading loc t d = true))
  \/ (bindable pop && bindable ts && bindable dow && bindable hr = true
      /\ fst res = Ok true
      /\ exists row t p,
           bind_param ts = Ok p /\ text_affinity p = Some t /\ has_reading loc t d = false
           /\ r_location_id row = loc /\ r_timestamp row = t /\ r_synced_from row = Some from
           /\ snd res = add_reading row d).
Proof.
  unfold insert_reading, bindable, add_reading. exec_unfold.
  destruct (bind_param pop) as [p1 | e1] eqn:H1; simpl;
    [| left; destruct (bind_param_raise _ _ H1) as [-> | ->]; simpl; eauto].
  destruct (bind_param ts) as [p2 | e2] eqn:H2; simpl;
    [| left; destruct (bind_param_raise _ _ H2) as [-> | ->]; simpl; eauto].
  destruct (bind_param dow) as [p3 | e3] eqn:H3; simpl;
    [| left; destruct (bind_param_raise _ _ H3) as [-> | ->]; simpl; eauto].
  destruct (bind_param hr) as [p4 | e4] eqn:H4; simpl;
    [| left; destruct (bind_param_raise _ _ H4) as [-> | ->]; simpl; eauto].
  destruct (text_affinity p2) as [t |] eqn:Ht; simpl.
  - destruct (has_reading loc t d) eqn:Hh; simpl.
    + right; left. repeat split. intros p t' [= <-] Ht'. congruence.
    + right; right. repeat split. eexists _, t, p2. repeat split; eauto.
  - right; left. repeat split. intros p t' [= <-] Ht'. congruence.
Qed.

(** A duplicate key is absorbed: [insert_reading] returns [False] and the
    database is as it was. *)
Lemma insert_reading_duplicate loc pop t dow hr io from d :
  bindable pop = true -> bindable dow = true -> bindable hr = true ->
  has_reading loc t d = true ->
  insert_reading loc pop (JStr t) dow hr io from d = (Ok false, d).
Proof.
  intros H1 H3 H4 Hh.
  destruct (insert_reading_cases loc pop (JStr t) dow hr io from d)
    as [(Hb & _) | [(_ & Hr & Hd & _) | (_ & _ & row & t' & p & Hp & Ht & Hfree & _)]].
  - rewrite H1, H3, H4 in Hb. discriminate.
  - destruct (insert_reading _ _ _ _ _ _ _ _); simpl in *. congruence.
  - simpl in Hp. injection Hp as <-. simpl in Ht. injection Ht as <-. congruence.
Qed.

Lemma insert_reading_fresh loc pop t dow hr io from d :
  bindable pop = true -> bindable dow = true -> bindable hr = true ->
  has_reading loc t d = false ->
  exists row,
    insert_reading loc pop (JStr t) dow hr io from d = (Ok true, add_reading row d)
    /\ r_location_id row = loc /\ r_timestamp row = t /\ r_synced_from row = Some from.
Proof.
  intros H1 H3 H4 Hh.
  destruct (insert_reading_cases loc pop (JStr t) dow hr io from d)
    as [(Hb & _) | [(_ & _ & _ & Hdup) | (_ & Hr & row & t' & p & Hp & Ht & _ & Hl & Hts & Hf & Hd)]].
  - rewrite H1, H3, H4 in Hb. discriminate.
  - specialize (Hdup (SText t) t eq_refl eq_refl). congruence.
  - simpl in Hp. injection Hp as <-. simpl in Ht. injection Ht as <-.
    exists row. destruct (insert_reading _ _ _ _ _ _ _ _); simpl in *. subst. auto.
Qed.

Lemma mark_blob_synced_new path d :
  in_ledger path d = false -> mark_blob_synced path d = (Ok tt, add_ledger path d).
Proof.
  unfold mark_blob_synced, in_ledger, add_ledger. exec_unfold. intros ->. reflexivity.
Qed.

Lemma in_ledger_same_log path d d' :
  sync_log d' = sync_log d -> in_ledger path d' = in_ledger path d.
Proof. unfold in_ledger. intros ->. reflexivity. Qed.

Lemma in_ledger_add path other d :
  in_ledger path (add_ledger other d) = in_ledger path d || String.eqb other path.
Proof.
  unfold in_ledger, add_ledger. simpl. rewrite existsb_app. simpl.
  rewrite orb_false_r. reflexivity.
Qed.

Lemma in_ledger_iff path d : in_ledger path d = true <-> In path (ledger d).
Proof.
  unfold in_ledger, ledger. rewrite existsb_exists, in_map_iff. split.
  - intros (s & Hs & Heq). apply String.eqb_eq in Heq. eauto.
  - intros (s & Heq & Hs). exists s. split; [exact Hs | apply String.eqb_eq; exact Heq].
Qed.

(** ** One turn of the importer's loop *)

Lemma fails_processing_object json_loads b data :
  json_loads (content b) = Some (JObject data) ->
  fails_processing json_loads b =
  negb (jtruthy (dict_get data "place_id" JNull))
  || negb (hashable (dict_get data "place_id" JNull))
  || negb (bindable (dict_get data "place_id" JNull))
  || negb (bindable (dict_get data "popularity" JNull))
  || negb (bindable (dict_get data "timestamp" JNull))
  || negb (bindable (dict_get data "day_of_week" JNull))
  || negb (bindable (dict_get data "hour" JNull)).
Proof. unfold fails_processing. intros ->. reflexivity. Qed.

(** Every turn returns, and goes one of the four ways of [turn]. *)
Lemma sync_blob_turn json_loads b r :
  exists r', Sync.sync_blob json_loads b r = (Ok tt, r') /\ turn json_loads b r r'.
Proof.
  unfold Sync.sync_blob, Sync.lift_db, is_blob_synced, Sync.incr_skip, Sync.incr_error,
    Sync.incr_new.
  exec_unfold. simpl. fold (in_ledger (name b) (Sync.db r)).
  destruct (in_ledger (name b) (Sync.db r)) eqn:Hl.
  { eexists; split; [reflexivity |]. apply turn_known; auto. }
  assert (Hsame : same_archive_tables (Sync.db r) (Sync.db r)) by (repeat split).
  destruct (json_loads (content b)) as [[data |] |] eqn:Hload; simpl;
    try (eexists; split; [reflexivity |];
         apply (turn_error _ _ _ _ (Sync.db r));
         [assumption | unfold fails_processing; rewrite Hload; reflexivity
         | assumption | reflexivity]).
  pose proof (fails_processing_object _ _ _ Hload) as Hfails.
  set (p := dict_get data "place_id" JNull) in *.
  destruct (jtruthy p) eqn:Htruthy; simpl;
    [| eexists; split; [reflexivity |];
       apply (turn_error _ _ _ _ (Sync.db r));
       [assumption | exact Hfails | assumption | reflexivity]].
  assert (Hhash : hashable p = match Sync.LOCATIONS_get p with Ok _ => true | Raise _ => false end)
    by reflexivity.
  destruct (Sync.LOCATIONS_get p) as [info | e]; simpl;
    [| eexists; split; [reflexivity |];
       apply (turn_error _ _ _ _ (Sync.db r));
       [assumption | rewrite Hfails, Hhash; reflexivity | assumption | reflexivity]].
  pose proof (get_or_create_location_tables p (Sync.info_name <$> info)
                (Sync.info_name_he <$> info) (Sync.info_address <$> info) (Sync.db r)) as Htab.
  destruct (bindable p) eqn:Hbp.
  2:{ destruct (get_or_create_location_unbindable p (Sync.info_name <$> info)
                (Sync.info_name_he <$> info) (Sync.info_address <$> info) (Sync.db r) Hbp)
        as [e ->].
      simpl. eexists; split; [reflexivity |].
      apply (turn_error _ _ _ _ (Sync.db r));
        [assumption | rewrite Hfails, Hhash; reflexivity | assumption | reflexivity]. }
  destruct (get_or_create_location_ok p (Sync.info_name <$> info)
              (Sync.info_name_he <$> info) (Sync.info_address <$> info) (Sync.db r)
              Htruthy Hbp) as [id Hid].
  destruct (get_or_create_location _ _ _ _ _) as [res1 d1]; simpl in *. subst res1.
  pose proof (insert_reading_cases id (dict_get data "popularity" JNull)
                (dict_get data "timestamp" JNull) (dict_get data "day_of_week" JNull)
                (dict_get data "hour" JNull) (dict_get data "is_open" (JBool true))
                (name b) d1) as Hins.
  simpl in Hins.
  assert (Hl1 : in_ledger (name b) d1 = false)
    by (rewrite (in_ledger_same_log _ _ _ (proj1 (proj2 (proj2 Htab)))); exact Hl).
  destruct (insert_reading _ _ _ _ _ _ _ _) as [res2 d2]; simpl in *.
  destruct Hins as [(Hb & (e & ->) & ->)
                   | [(Hb & -> & -> & _)
                     | (Hb & -> & row & t & pp & _ & _ & _ & _ & _ & Hfrom & ->)]].
  - eexists; split; [reflexivity |].
    apply (turn_error _ _ _ _ d1); [assumption | | assumption | reflexivity].
    rewrite Hfails, Hhash. simpl.
    repeat rewrite andb_false_iff in Hb.
    destruct Hb as [[[-> | ->] | ->] | ->]; simpl; rewrite ?orb_true_r; reflexivity.
  - simpl. rewrite (mark_blob_synced_new _ _ Hl1).
    eexists; split; [reflexivity |].
    repeat rewrite andb_true_iff in Hb. destruct Hb as (((H1 & H2) & H3) & H4).
    apply (turn_duplicate _ _ _ _ d1); [assumption | | assumption | reflexivity].
    rewrite Hfails, Hhash, H1, H2, H3, H4. reflexivity.
  - simpl.
    rewrite mark_blob_synced_new
      by (rewrite (in_ledger_same_log _ d1); [exact Hl1 | reflexivity]).
    eexists; split; [reflexivity |].
    repeat rewrite andb_true_iff in Hb. destruct Hb as (((H1 & H2) & H3) & H4).
    apply (turn_inserted _ _ _ _ d1 row); [assumption | | assumption | exact Hfrom | reflexivity].
    rewrite Hfails, Hhash, H1, H2, H3, H4. reflexivity.
Qed.

(** A readable object that is not in the ledger: its location is looked
    up or created; if a reading with its location and timestamp exists it
    is counted as skipped, else it is inserted and counted as new; either
    way its path enters the ledger. *)
Lemma sync_blob_readable json_loads b r data p t :
  in_ledger (name b) (Sync.db r) = false ->
  json_loads (content b) = Some (JObject data) ->
  dict_get data "place_id" JNull = JStr p ->
  Py.truthy p = true ->
  dict_get data "timestamp" JNull = JStr t ->
  bindable (dict_get data "popularity" JNull) = true ->
  bindable (dict_get data "day_of_week" JNull) = true ->
  bindable (dict_get data "hour" JNull) = true ->
  exists loc d1,
    location_of p d1 = Some loc
    /\ same_archive_tables (Sync.db r) d1
    /\ (forall loc0, location_of p (Sync.db r) = Some loc0 -> d1 = Sync.db r /\ loc = loc0)
    /\ ((has_reading loc t d1 = true
         /\ Sync.sync_blob json_loads b r =
            (Ok tt, Sync.mk_run (add_ledger (name b) d1) (Sync.new_count r)
                      (Sync.skip_count r + 1) (Sync.error_count r)))
        \/ (has_reading loc t d1 = false
            /\ exists row,
                 r_location_id row = loc /\ r_timestamp row = t
                 /\ r_synced_from row = Some (name b)
                 /\ Sync.sync_blob json_loads b r =
                    (Ok tt, Sync.mk_run (add_ledger (name b) (add_reading row d1))
                              (Sync.new_count r + 1) (Sync.skip_count r)
                              (Sync.error_count r)))).
Proof.
  intros Hl Hload Hp Htruthy Ht Hb1 Hb3 Hb4.
  set (info := Sync.LOCATIONS !! p).
  destruct (get_or_create_location_str p (Sync.info_name <$> info)
              (Sync.info_name_he <$> info) (Sync.info_address <$> info) (Sync.db r))
    as (loc & d1 & Hloc & Htab & Hfound).
  exists loc, d1. split; [exact Hfound |]. split; [exact Htab |]. split.
  { intros loc0 Hknown.
    rewrite (get_or_create_location_known _ _ _ _ _ _ Hknown) in Hloc.
    injection Hloc as <- <-. auto. }
  assert (Hl1 : in_ledger (name b) d1 = false)
    by (rewrite (in_ledger_same_log _ _ _ (proj1 (proj2 (proj2 Htab)))); exact Hl).
  unfold Sync.sync_blob, Sync.lift_db, is_blob_synced, Sync.incr_skip, Sync.incr_error,
    Sync.incr_new.
  exec_unfold. simpl. fold (in_ledger (name b) (Sync.db r)).
  rewrite Hl, Hload, Hp, Ht. simpl. rewrite Htruthy. simpl.
  fold info. rewrite Hloc. simpl.
  destruct (has_reading loc t d1) eqn:Hh.
  - left. split; [reflexivity |].
    rewrite (insert_reading_duplicate _ _ _ _ _ _ _ _ Hb1 Hb3 Hb4 Hh). simpl.
    rewrite (mark_blob_synced_new _ _ Hl1). reflexivity.
  - right. split; [reflexivity |].
    destruct (insert_reading_fresh loc _ t _ _ (dict_get data "is_open" (JBool true))
                (name b) d1 Hb1 Hb3 Hb4 Hh) as (row & Hins & H1 & H2 & H3).
    exists row. repeat (split; [assumption |]).
    rewrite Hins. simpl.
    rewrite mark_blob_synced_new
      by (rewrite (in_ledger_same_log _ d1); [exact Hl1 | reflexivity]).
    reflexivity.
Qed.

(** ** The loop *)

Lemma sync_loop_rect json_loads (P : list blob -> Sync.run -> Sync.run -> Prop) :
  (forall r, P [] r r) ->
  (forall b rest r r1 r2, turn json_loads b r r1 -> P rest r1 r2 -> P (b :: rest) r r2) ->
  forall blobs r, exists r', Sync.sync_loop json_loads blobs r = (Ok tt, r') /\ P blobs r r'.
Proof.
  intros Hnil Hcons. induction blobs as [| b rest IH]; intros r; simpl.
  - exists r. split; [reflexivity | apply Hnil].
  - destruct (sync_blob_turn json_loads b r) as (r1 & Hb & Hturn).
    destruct (IH r1) as (r2 & Hrest & HP).
    exists r2. split; [| eapply Hcons; eauto].
    exec_unfold. rewrite Hb. exact Hrest.
Qed.

(** [sync_readings] is its loop, started with the counters at zero. *)
Lemma sync_readings_loop json_loads bucket d0 r' :
  Sync.sync_loop json_loads (Sync.json_blobs bucket) (Sync.mk_run d0 0 0 0) = (Ok tt, r') ->
  Sync.sync_readings json_loads (Some bucket) d0 =
  (Ok (Some (Sync.mk_summary (Sync.new_count r') (Sync.skip_count r') (Sync.error_count r')
                             (Z.of_nat (length (readings (Sync.db r')))))),
   Sync.db r').
Proof.
  intros Hloop. unfold Sync.sync_readings, Sync.lift_db, init_db, get_readings_count.
  exec_unfold. simpl. rewrite Hloop. simpl. destruct r'; reflexivity.
Qed.

(** Every turn adds one to exactly one of the three counters. *)
Lemma turn_counts json_loads b r r' :
  turn json_loads b r r' ->
  (Sync.new_count r' = Sync.new_count r + 1 /\ Sync.skip_count r' = Sync.skip_count r
   /\ Sync.error_count r' = Sync.error_count r)
  \/ (Sync.new_count r' = Sync.new_count r /\ Sync.skip_count r' = Sync.skip_count r + 1
      /\ Sync.error_count r' = Sync.error_count r)
  \/ (Sync.new_count r' = Sync.new_count r /\ Sync.skip_count r' = Sync.skip_count r
      /\ Sync.error_count r' = Sync.error_count r + 1).
Proof. destruct 1; subst; simpl; auto. Qed.

Lemma sync_loop_counts json_loads blobs r :
  exists r', Sync.sync_loop json_loads blobs r = (Ok tt, r')
    /\ Sync.new_count r' + Sync.skip_count r' + Sync.error_count r'
       = Sync.new_count r + Sync.skip_count r + Sync.error_count r + Z.of_nat (length blobs).
Proof.
  apply (sync_loop_rect json_loads
           (fun blobs r r' =>
              Sync.new_count r' + Sync.skip_count r' + Sync.error_count r'
              = Sync.new_count r + Sync.skip_count r + Sync.error_count r
                + Z.of_nat (length blobs))).
  - intros r0. simpl. lia.
  - intros b rest r0 r1 r2 Hturn IH.
    destruct (turn_counts _ _ _ _ Hturn) as [(? & ? & ?) | [(? & ? & ?) | (? & ? & ?)]];
      simpl length; lia.
Qed.

Lemma ledger_add path d : ledger (add_ledger path d) = (ledger d ++ [path])%list.
Proof. unfold ledger, add_ledger. simpl. rewrite map_app. reflexivity. Qed.

(** What a turn does to the ledger: nothing, or it adds the object's path,
    which was not there and whose object did not fail. *)
Lemma turn_ledger json_loads b r r' :
  turn json_loads b r r' ->
  ledger (Sync.db r') = ledger (Sync.db r)
  \/ (ledger (Sync.db r') = (ledger (Sync.db r) ++ [name b])%list
      /\ in_ledger (name b) (Sync.db r) = false
      /\ fails_processing json_loads b = false).
Proof.
  unfold ledger.
  destruct 1 as [Hl -> | d' Hl Hf (_ & _ & Hs & _) -> | d1 Hl Hf (_ & _ & Hs & _) ->
                | d1 row Hl Hf (_ & _ & Hs & _) _ ->]; simpl.
  - left. reflexivity.
  - left. rewrite Hs. reflexivity.
  - right. rewrite map_app, Hs. auto.
  - right. rewrite map_app, Hs. auto.
Qed.

(** After its turn, the path of an object that does not fail is in the
    ledger. *)
Lemma turn_marks json_loads b r r' :
  turn json_loads b r r' ->
  fails_processing json_loads b = false ->
  in_ledger (name b) (Sync.db r') = true.
Proof.
  destruct 1 as [Hl -> | d' Hl Hf _ -> | d1 Hl Hf _ -> | d1 row Hl Hf _ _ ->];
    simpl; intros Hok; try congruence.
  - rewrite in_ledger_add, String.eqb_refl. apply orb_true_r.
  - rewrite in_ledger_add, String.eqb_refl. apply orb_true_r.
Qed.

Lemma turn_ledger_grows json_loads b r r' path :
  turn json_loads b r r' ->
  in_ledger path (Sync.db r) = true -> in_ledger path (Sync.db r') = true.
Proof.
  intros Hturn. rewrite !in_ledger_iff.
  destruct (turn_ledger _ _ _ _ Hturn) as [-> | (-> & _)]; [auto |].
  intros H. apply in_or_app. auto.
Qed.

(** The ledger after the loop: it has kept what it had, it has the path of
    every object that does not fail, it has nothing else, and it has no
    path twice if it had none twice. *)
Lemma sync_loop_ledger json_loads blobs r :
  exists r', Sync.sync_loop json_loads blobs r = (Ok tt, r')
    /\ (forall path, in_ledger path (Sync.db r) = true -> in_ledger path (Sync.db r') = true)
    /\ (forall b, In b blobs -> fails_processing json_loads b = false ->
                  in_ledger (name b) (Sync.db r') = true)
    /\ (forall path, in_ledger path (Sync.db r') = true ->
          in_ledger path (Sync.db r) = true
          \/ exists b, In b blobs /\ name b = path /\ fails_processing json_loads b = false)
    /\ (NoDup (ledger (Sync.db r)) -> NoDup (ledger (Sync.db r'))).
Proof.
  apply (sync_loop_rect json_loads
           (fun blobs r r' =>
              (forall path, in_ledger path (Sync.db r) = true ->
                            in_ledger path (Sync.db r') = true)
              /\ (forall b, In b blobs -> fails_processing json_loads b = false ->
                            in_ledger (name b) (Sync.db r') = true)
              /\ (forall path, in_ledger path (Sync.db r') = true ->
                    in_ledger path (Sync.db r) = true
                    \/ exists b, In b blobs /\ name b = path
                                 /\ fails_processing json_loads b = false)
              /\ (NoDup (ledger (Sync.db r)) -> NoDup (ledger (Sync.db r'))))).
  - intros r0. repeat split; auto; intros b [].
  - intros b rest r0 r1 r2 Hturn (Hgrow & Hmarks & Honly & Hnodup).
    split; [| split; [| split]].
    + intros path H. apply Hgrow. eapply turn_ledger_grows; eauto.
    + intros b' [<- | Hin] Hok.
      * apply Hgrow. eapply turn_marks; eauto.
      * apply Hmarks; assumption.
    + intros path H. destruct (Honly path H) as [H1 | (b' & Hin & Hname & Hok)].
      * rewrite in_ledger_iff in H1.
        destruct (turn_ledger _ _ _ _ Hturn) as [Heq | (Heq & _ & Hok)]; rewrite Heq in H1.
        -- left. apply in_ledger_iff. exact H1.
        -- apply in_app_or in H1. destruct H1 as [H1 | [<- | []]].
           ++ left. apply in_ledger_iff. exact H1.
           ++ right. exists b. simpl. auto.
      * right. exists b'. simpl. auto.
    + intros Hnd. apply Hnodup.
      destruct (turn_ledger _ _ _ _ Hturn) as [-> | (-> & Hl & _)]; [exact Hnd |].
      apply NoDup_app. split; [exact Hnd |]. split; [| apply NoDup_singleton].
      intros x Hx Hx'. apply list_elem_of_In in Hx, Hx'.
      destruct Hx' as [<- | []].
      apply in_ledger_iff in Hx. congruence.
Qed.

(** A loop over objects of which every one is in the ledger or fails:
    nothing is inserted and nothing is marked; the objects in the ledger
    are counted as skipped, the others as errors. *)
Lemma sync_loop_again json_loads blobs r :
  (forall b, In b blobs -> fails_processing json_loads b = false ->
             in_ledger (name b) (Sync.db r) = true) ->
  exists r', Sync.sync_loop json_loads blobs r = (Ok tt, r')
    /\ same_archive_tables (Sync.db r) (Sync.db r')
    /\ Sync.new_count r' = Sync.new_count r
    /\ Sync.skip_count r' = Sync.skip_count r
         + Z.of_nat (length (List.filter (fun b => in_ledger (name b) (Sync.db r)) blobs))
    /\ Sync.error_count r' = Sync.error_count r
         + Z.of_nat (length (List.filter (fun b => negb (in_ledger (name b) (Sync.db r))) blobs)).
Proof.
  intros Hpre.
  destruct (sync_loop_rect json_loads
           (fun blobs r r' =>
              (forall b, In b blobs -> fails_processing json_loads b = false ->
                         in_ledger (name b) (Sync.db r) = true) ->
              same_archive_tables (Sync.db r) (Sync.db r')
              /\ Sync.new_count r' = Sync.new_count r
              /\ Sync.skip_count r' = Sync.skip_count r
                   + Z.of_nat (length (List.filter (fun b => in_ledger (name b) (Sync.db r))
                                         blobs))
              /\ Sync.error_count r' = Sync.error_count r
                   + Z.of_nat (length (List.filter
                                         (fun b => negb (in_ledger (name b) (Sync.db r)))
                                         blobs)))) with (blobs := blobs) (r := r)
    as (r' & Hloop & HP).
  - intros r0 _. simpl. repeat split; lia.
  - intros b rest r0 r1 r2 Hturn IH Hall.
    assert (Hlog : sync_log (Sync.db r1) = sync_log (Sync.db r0)
                   /\ same_archive_tables (Sync.db r0) (Sync.db r1)
                   /\ Sync.new_count r1 = Sync.new_count r0
                   /\ Sync.skip_count r1 = Sync.skip_count r0
                        + (if in_ledger (name b) (Sync.db r0) then 1 else 0)
                   /\ Sync.error_count r1 = Sync.error_count r0
                        + (if in_ledger (name b) (Sync.db r0) then 0 else 1)).
    { destruct Hturn as [Hl -> | d' Hl Hf Hs -> | d1 Hl Hf _ -> | d1 row Hl Hf _ _ ->];
        simpl; rewrite ?Hl.
      - repeat split; lia.
      - destruct Hs as (? & ? & ? & ?). repeat split; auto; lia.
      - rewrite (Hall b (or_introl eq_refl) Hf) in Hl. discriminate.
      - rewrite (Hall b (or_introl eq_refl) Hf) in Hl. discriminate. }
    destruct Hlog as (Hlog & (Hr1 & Hr2 & Hs1 & Hs2) & Hn & Hsk & Her).
    assert (Hsame : forall path, in_ledger path (Sync.db r1) = in_ledger path (Sync.db r0))
      by (intros path; apply in_ledger_same_log; exact Hlog).
    destruct IH as ((Hr1' & Hr2' & Hs1' & Hs2') & Hn' & Hsk' & Her').
    { intros b' Hin Hok. rewrite Hsame. apply Hall; [right; exact Hin | exact Hok]. }
    split; [repeat split; congruence |].
    split; [congruence |].
    rewrite (List.filter_ext _ (fun b => in_ledger (name b) (Sync.db r0))) in Hsk'
      by (intros; apply Hsame).
    rewrite (List.filter_ext _ (fun b => negb (in_ledger (name b) (Sync.db r0)))) in Her'
      by (intros; rewrite Hsame; reflexivity).
    simpl. destruct (in_ledger (name b) (Sync.db r0)); simpl; split; lia.
  - exists r'. split; [exact Hloop | apply HP; exact Hpre].
Qed.

(** ** C10: the three counters *)

Lemma sync_readings_run json_loads bucket d0 :
  exists r',
    Sync.sync_loop json_loads (Sync.json_blobs bucket) (Sync.mk_run d0 0 0 0) = (Ok tt, r')
    /\ Sync.sync_readings json_loads (Some bucket) d0 =
       (Ok (Some (Sync.mk_summary (Sync.new_count r') (Sync.skip_count r')
                    (Sync.error_count r') (Z.of_nat (length (readings (Sync.db r')))))),
        Sync.db r').
Proof.
  destruct (sync_loop_counts json_loads (Sync.json_blobs bucket) (Sync.mk_run d0 0 0 0))
    as (r' & Hloop & _).
  exists r'. split; [exact Hloop | apply sync_readings_loop; exact Hloop].
Qed.

(** Without access to the bucket the run stops after [init_db]: nothing
    is listed, nothing is counted and the database is as it was. *)
Lemma sync_readings_without_storage json_loads d0 :
  Sync.sync_readings json_loads None d0 = (Ok None, d0).
Proof. reflexivity. Qed.

Lemma sync_blob_known json_loads b r :
  in_ledger (name b) (Sync.db r) = true ->
  Sync.sync_blob json_loads b r =
  (Ok tt, Sync.mk_run (Sync.db r) (Sync.new_count r) (Sync.skip_count r + 1)
            (Sync.error_count r)).
Proof.
  intros Hl. unfold Sync.sync_blob, Sync.lift_db, is_blob_synced, Sync.incr_skip.
  exec_unfold. simpl. fold (in_ledger (name b) (Sync.db r)). rewrite Hl. reflexivity.
Qed.

Lemma sync_blob_duplicate_key json_loads b r p t loc :
  in_ledger (name b) (Sync.db r) = false ->
  readable_as json_loads b p t ->
  location_of p (Sync.db r) = Some loc ->
  has_reading loc t (Sync.db r) = true ->
  Sync.sync_blob json_loads b r =
  (Ok tt, Sync.mk_run (add_ledger (name b) (Sync.db r)) (Sync.new_count r)
            (Sync.skip_count r + 1) (Sync.error_count r)).
Proof.
  intros Hl (data & Hload & Hp & Htruthy & Ht & Hb1 & Hb3 & Hb4) Hloc Hh.
  destruct (sync_blob_readable json_loads b r data p t Hl Hload Hp Htruthy Ht Hb1 Hb3 Hb4)
    as (loc' & d1 & _ & _ & Hknown & Hcases).
  destruct (Hknown loc Hloc) as [-> ->].
  destruct Hcases as [(_ & ->) | (Hfree & _)]; [reflexivity | congruence].
Qed.

(** C10.  A run of [sync_readings] that reaches the bucket completes, and
    the three counters it reports add up to the number of listed [.json]
    objects.  Every turn of its loop returns having added one to exactly
    one counter; an object whose path is in the ledger is counted as
    skipped, and so is a readable object whose (location, timestamp) key
    is already in [readings]. *)
Theorem sync_counters_partition (json_loads : string -> option json) (bucket : list blob)
    (d0 : database) :
  (exists s d1,
     Sync.sync_readings json_loads (Some bucket) d0 = (Ok (Some s), d1)
     /\ Sync.sum_new s + Sync.sum_skipped s + Sync.sum_errors s
        = Z.of_nat (length (Sync.json_blobs bucket)))
  /\ (forall b r,
        exists r',
          Sync.sync_blob json_loads b r = (Ok tt, r')
          /\ ((Sync.new_count r' = Sync.new_count r + 1
               /\ Sync.skip_count r' = Sync.skip_count r
               /\ Sync.error_count r' = Sync.error_count r)
              \/ (Sync.new_count r' = Sync.new_count r
                  /\ Sync.skip_count r' = Sync.skip_count r + 1
                  /\ Sync.error_count r' = Sync.error_count r)
              \/ (Sync.new_count r' = Sync.new_count r
                  /\ Sync.skip_count r' = Sync.skip_count r
                  /\ Sync.error_count r' = Sync.error_count r + 1)))
  /\ (forall b r,
        in_ledger (name b) (Sync.db r) = true ->
        Sync.sync_blob json_loads b r =
        (Ok tt, Sync.mk_run (Sync.db r) (Sync.new_count r) (Sync.skip_count r + 1)
                  (Sync.error_count r)))
  /\ (forall b r p t loc,
        in_ledger (name b) (Sync.db r) = false ->
        readable_as json_loads b p t ->
        location_of p (Sync.db r) = Some loc ->
        has_reading loc t (Sync.db r) = true ->
        Sync.sync_blob json_loads b r =
        (Ok tt, Sync.mk_run (add_ledger (name b) (Sync.db r)) (Sync.new_count r)
                  (Sync.skip_count r + 1) (Sync.error_count r))).
Proof.
  split; [| split; [| split]].
  - destruct (sync_loop_counts json_loads (Sync.json_blobs bucket) (Sync.mk_run d0 0 0 0))
      as (r' & Hloop & Hsum).
    eexists _, _. split; [apply sync_readings_loop; exact Hloop |]. simpl in *. lia.
  - intros b r. destruct (sync_blob_turn json_loads b r) as (r' & Heq & Hturn).
    exists r'. split; [exact Heq | eapply turn_counts; exact Hturn].
  - apply sync_blob_known.
  - apply sync_blob_duplicate_key.
Qed.

(** The theorem at work on the sample archive: of its three [.json]
    objects one is new and two are errors. *)
Lemma sync_counters_partition_witness :
  (exists s d1,
     Sync.sync_readings Sample.json_loads (Some Sample.archive) empty_database
     = (Ok (Some s), d1)
     /\ Sync.sum_new s + Sync.sum_skipped s + Sync.sum_errors s = 3)
  /\ fst (Sync.sync_readings Sample.json_loads (Some Sample.archive) empty_database)
     = Ok (Some (Sync.mk_summary 1 0 2 1)).
Proof.
  split.
  - exact (proj1 (sync_counters_partition Sample.json_loads Sample.archive empty_database)).
  - vm_compute. reflexivity.
Defined.

(** ** C9: failed objects and the ledger *)

(** A turn on an object that is not in the ledger counts an error exactly
    when the object's content makes the processing fail. *)
Lemma sync_blob_error_iff json_loads b r :
  in_ledger (name b) (Sync.db r) = false ->
  (Sync.error_count (snd (Sync.sync_blob json_loads b r)) = Sync.error_count r + 1
   <-> fails_processing json_loads b = true).
Proof.
  intros Hl. destruct (sync_blob_turn json_loads b r) as (r' & -> & Hturn). simpl.
  destruct Hturn as [Hk _ | d' _ Hf _ -> | d1 _ Hf _ -> | d1 row _ Hf _ _ ->]; simpl.
  - congruence.
  - tauto.
  - split; [lia | congruence].
  - split; [lia | congruence].
Qed.

(** The three kinds of failure the loop names or catches. *)
Lemma fails_processing_kinds json_loads b :
  (json_loads (content b) = None -> fails_processing json_loads b = true)
  /\ (json_loads (content b) = Some JOther -> fails_processing json_loads b = true)
  /\ (forall data, json_loads (content b) = Some (JObject data) ->
        data !! "place_id" = None -> fails_processing json_loads b = true)
  /\ (forall data, json_loads (content b) = Some (JObject data) ->
        data !! "popularity" = Some (JCompound true) -> fails_processing json_loads b = true).
Proof.
  unfold fails_processing. repeat split.
  - intros ->. reflexivity.
  - intros ->. reflexivity.
  - intros data -> Hnone. unfold dict_get at 1. rewrite Hnone. reflexivity.
  - intros data -> Hpop. unfold dict_get at 4. rewrite Hpop. simpl.
    rewrite ?orb_true_r. reflexivity.
Qed.

(** A failed turn leaves the ledger and the readings as they were. *)
Lemma sync_blob_failure_leaves_ledger json_loads b r :
  in_ledger (name b) (Sync.db r) = false ->
  fails_processing json_loads b = true ->
  exists d',
    Sync.sync_blob json_loads b r =
    (Ok tt, Sync.mk_run d' (Sync.new_count r) (Sync.skip_count r) (Sync.error_count r + 1))
    /\ same_archive_tables (Sync.db r) d'.
Proof.
  intros Hl Hf. destruct (sync_blob_turn json_loads b r) as (r' & -> & Hturn).
  destruct Hturn as [Hk _ | d' _ _ Hs -> | d1 _ Hok _ -> | d1 row _ Hok _ _ ->];
    try congruence.
  exists d'. auto.
Qed.

Lemma same_name_same_blob (l : list blob) (b b' : blob) :
  NoDup (map name l) -> In b l -> In b' l -> name b = name b' -> b = b'.
Proof.
  induction l as [| x l IH]; simpl; [tauto |].
  intros Hnd [-> | Hb] [-> | Hb'] Hname; auto.
  - apply NoDup_cons in Hnd as [Hx _]. exfalso. apply Hx.
    rewrite Hname. apply list_elem_of_In, in_map. exact Hb'.
  - apply NoDup_cons in Hnd as [Hx _]. exfalso. apply Hx.
    rewrite <- Hname. apply list_elem_of_In, in_map. exact Hb.
  - apply NoDup_cons in Hnd as [_ Hnd]. auto.
Qed.

(** The ledger after one run. *)
Lemma sync_readings_ledger json_loads bucket d0 :
  let d1 := snd (Sync.sync_readings json_loads (Some bucket) d0) in
  (forall path, in_ledger path d0 = true -> in_ledger path d1 = true)
  /\ (forall b, In b (Sync.json_blobs bucket) -> fails_processing json_loads b = false ->
                in_ledger (name b) d1 = true)
  /\ (forall path, in_ledger path d1 = true ->
        in_ledger path d0 = true
        \/ exists b, In b (Sync.json_blobs bucket) /\ name b = path
                     /\ fails_processing json_loads b = false)
  /\ (NoDup (ledger d0) -> NoDup (ledger d1)).
Proof.
  destruct (sync_loop_ledger json_loads (Sync.json_blobs bucket) (Sync.mk_run d0 0 0 0))
    as (r' & Hloop & H).
  rewrite (sync_readings_loop _ _ _ _ Hloop). exact H.
Qed.

Lemma failed_object_stays_out json_loads bucket b (k : nat) :
  NoDup (map name (Sync.json_blobs bucket)) ->
  In b (Sync.json_blobs bucket) ->
  fails_processing json_loads b = true ->
  forall d0,
    in_ledger (name b) d0 = false ->
    in_ledger (name b) (sync_runs json_loads bucket k d0) = false.
Proof.
  intros Hnd Hin Hf. induction k as [| k IH]; intros d0 Hl; simpl; [exact Hl |].
  apply IH.
  destruct (in_ledger (name b) (snd (Sync.sync_readings json_loads (Some bucket) d0)))
    eqn:Hafter; [| reflexivity].
  destruct (sync_readings_ledger json_loads bucket d0) as (_ & _ & Honly & _).
  destruct (Honly _ Hafter) as [H | (b' & Hin' & Hname & Hok)]; [congruence |].
  rewrite (same_name_same_blob _ _ _ Hnd Hin' Hin Hname) in Hok. congruence.
Qed.

(** C9.  An object of the archive whose processing fails (its content is
    not JSON or not a dictionary, it has no [place_id], or one of its
    values cannot be used) never gets its path into the sync ledger: after
    any number of runs over the bucket the path is still absent, and when
    the loop of the next run reaches the object the path is absent too, so
    the turn goes past the ledger check, processes the object again and
    counts an error again.  After a run the ledger holds only the paths it
    held before and the paths of listed objects whose processing did not
    fail, that is, whose [insert_reading] call returned.  For an object
    that is not in the ledger, "its processing fails" is the same as "its
    turn counts an error". *)
Theorem failed_objects_are_never_marked (json_loads : string -> option json)
    (bucket : list blob) (d0 : database) (b : blob) :
  NoDup (map name (Sync.json_blobs bucket)) ->
  In b (Sync.json_blobs bucket) ->
  fails_processing json_loads b = true ->
  in_ledger (name b) d0 = false ->
  (forall k, in_ledger (name b) (sync_runs json_loads bucket k d0) = false)
  /\ (forall k before after,
        Sync.json_blobs bucket = (before ++ b :: after)%list ->
        exists r d',
          Sync.sync_loop json_loads before
            (Sync.mk_run (sync_runs json_loads bucket k d0) 0 0 0) = (Ok tt, r)
          /\ in_ledger (name b) (Sync.db r) = false
          /\ Sync.sync_blob json_loads b r =
             (Ok tt, Sync.mk_run d' (Sync.new_count r) (Sync.skip_count r)
                       (Sync.error_count r + 1))
          /\ same_archive_tables (Sync.db r) d')
  /\ (forall path,
        In path (ledger (snd (Sync.sync_readings json_loads (Some bucket) d0))) ->
        In path (ledger d0)
        \/ exists b', In b' (Sync.json_blobs bucket) /\ name b' = path
                      /\ fails_processing json_loads b' = false)
  /\ (forall b' r,
        in_ledger (name b') (Sync.db r) = false ->
        (Sync.error_count (snd (Sync.sync_blob json_loads b' r)) = Sync.error_count r + 1
         <-> fails_processing json_loads b' = true)).
Proof.
  intros Hnd Hin Hf Hl. split; [| split; [| split]].
  - intros k. apply failed_object_stays_out; assumption.
  - intros k before after Hsplit.
    destruct (sync_loop_ledger json_loads before
                (Sync.mk_run (sync_runs json_loads bucket k d0) 0 0 0))
      as (r & Hloop & _ & _ & Honly & _).
    assert (Hout : in_ledger (name b) (Sync.db r) = false).
    { destruct (in_ledger (name b) (Sync.db r)) eqn:Hl'; [| reflexivity].
      destruct (Honly _ Hl') as [H | (b' & Hin' & Hname & Hok)].
      - simpl in H. rewrite (failed_object_stays_out _ _ _ k Hnd Hin Hf _ Hl) in H.
        discriminate.
      - assert (Hin'' : In b' (Sync.json_blobs bucket))
          by (rewrite Hsplit; apply in_or_app; left; exact Hin').
        rewrite (same_name_same_blob _ _ _ Hnd Hin'' Hin Hname) in Hok. congruence. }
    destruct (sync_blob_failure_leaves_ledger json_loads b r Hout Hf) as (d' & Hturn & Hsame).
    exists r, d'. auto.
  - intros path Hpath. apply in_ledger_iff in Hpath.
    destruct (sync_readings_ledger json_loads bucket d0) as (_ & _ & Honly & _).
    destruct (Honly _ Hpath) as [H | H]; [left; apply in_ledger_iff; exact H | right; exact H].
  - intros b' r. apply sync_blob_error_iff.
Qed.

(** The theorem at work: the object that is not JSON, in the sample
    archive, from an empty database. *)
Lemma failed_objects_are_never_marked_witness :
  (forall k, in_ledger "readings/2024/01/28/15-00.json"
               (sync_runs Sample.json_loads Sample.archive k empty_database) = false)
  /\ ledger (sync_runs Sample.json_loads Sample.archive 2 empty_database)
     = ["readings/2024/01/28/14-30.json"].
Proof.
  split.
  - apply (proj1 (failed_objects_are_never_marked Sample.json_loads Sample.archive
                    empty_database Sample.blob_garbage
                    ltac:(apply (bool_decide_unpack _); vm_compute; exact I)
                    ltac:(vm_compute; auto)
                    eq_refl eq_refl)).
  - vm_compute. reflexivity.
Defined.

(** ** C2: running the sync a second time *)

(** C2.  After a run of the sync over a bucket, take an object of the
    bucket whose path the run has left in the ledger.  A second run over
    the same bucket completes and inserts no row into [readings]; the
    ledger is as the first run left it and holds the object's path exactly
    once; no object is counted as new, the objects in the ledger are the
    ones counted as skipped and the others the ones counted as errors; and
    in whatever state of the loop the object is met again, as long as the
    ledger has kept what it had after the first run, its turn adds one to
    the skip counter and changes nothing else. *)
Theorem second_sync_skips_what_is_in_ledger (json_loads : string -> option json)
    (bucket : list blob) (d0 : database) (b : blob) :
  let d1 := snd (Sync.sync_readings json_loads (Some bucket) d0) in
  NoDup (ledger d0) ->
  In b (Sync.json_blobs bucket) ->
  in_ledger (name b) d1 = true ->
  exists s2 d2,
    Sync.sync_readings json_loads (Some bucket) d1 = (Ok (Some s2), d2)
    /\ readings d2 = readings d1
    /\ sync_log d2 = sync_log d1
    /\ count_occ string_dec (ledger d2) (name b) = 1%nat
    /\ Sync.sum_new s2 = 0
    /\ Sync.sum_skipped s2
       = Z.of_nat (length (List.filter (fun b' => in_ledger (name b') d1)
                             (Sync.json_blobs bucket)))
    /\ Sync.sum_errors s2
       = Z.of_nat (length (List.filter (fun b' => negb (in_ledger (name b') d1))
                             (Sync.json_blobs bucket)))
    /\ Sync.sum_total s2 = Z.of_nat (length (readings d1))
    /\ forall r,
         (forall path, in_ledger path d1 = true -> in_ledger path (Sync.db r) = true) ->
         Sync.sync_blob json_loads b r
         = (Ok tt, Sync.mk_run (Sync.db r) (Sync.new_count r) (Sync.skip_count r + 1)
                     (Sync.error_count r)).
Proof.
  intros d1 Hnd Hin Hl.
  destruct (sync_readings_ledger json_loads bucket d0) as (_ & Hmarks & _ & Hnd1).
  fold d1 in Hmarks, Hnd1.
  destruct (sync_loop_again json_loads (Sync.json_blobs bucket) (Sync.mk_run d1 0 0 0) Hmarks)
    as (r2 & Hloop & (Hr & _ & Hs & _) & Hnew & Hskip & Herr).
  simpl in *.
  eexists _, _. split; [apply sync_readings_loop; exact Hloop |]. simpl.
  split; [exact Hr |]. split; [exact Hs |].
  split.
  { apply NoDup_count_occ'.
    - unfold ledger. rewrite Hs. apply NoDup_ListNoDup, Hnd1, Hnd.
    - unfold ledger. rewrite Hs. apply in_ledger_iff. exact Hl. }
  split; [lia |]. split; [lia |]. split; [lia |].
  split; [rewrite Hr; reflexivity |].
  intros r Hgrown. apply sync_blob_known, Hgrown, Hl.
Qed.

(** The theorem at work: two runs over the sample archive from an empty
    database.  The second run reports no new reading, one skipped object
    and two errors, and the table of readings keeps its one row. *)
Lemma second_sync_skips_what_is_in_ledger_witness :
  let d1 := snd (Sync.sync_readings Sample.json_loads (Some Sample.archive) empty_database) in
  (exists s2 d2,
     Sync.sync_readings Sample.json_loads (Some Sample.archive) d1 = (Ok (Some s2), d2)
     /\ readings d2 = readings d1
     /\ sync_log d2 = sync_log d1
     /\ count_occ string_dec (ledger d2) "readings/2024/01/28/14-30.json" = 1%nat
     /\ Sync.sum_new s2 = 0
     /\ Sync.sum_skipped s2 = 1
     /\ Sync.sum_errors s2 = 2
     /\ Sync.sum_total s2 = 1
     /\ forall r,
          (forall path, in_ledger path d1 = true -> in_ledger path (Sync.db r) = true) ->
          Sync.sync_blob Sample.json_loads Sample.blob_1430 r
          = (Ok tt, Sync.mk_run (Sync.db r) (Sync.new_count r) (Sync.skip_count r + 1)
                      (Sync.error_count r)))
  /\ length (readings d1) = 1%nat.
Proof.
  split.
  - apply (second_sync_skips_what_is_in_ledger Sample.json_loads Sample.archive
             empty_database Sample.blob_1430).
    + constructor.
    + vm_compute. auto.
    + vm_compute. reflexivity.
  - vm_compute. reflexivity.
Defined.

(** ** C5: two objects with the same key *)

Lemma no_reading_at t loc d : readings_at t d = [] -> has_reading loc t d = false.
Proof.
  unfold readings_at, has_reading.
  induction (readings d) as [| r l IH]; simpl; [reflexivity |].
  destruct (String.eqb (r_timestamp r) t); [discriminate |].
  rewrite andb_false_r. exact IH.
Qed.

Lemma has_reading_added row d :
  has_reading (r_location_id row) (r_timestamp row) (add_reading row d) = true.
Proof.
  unfold has_reading, add_reading. simpl. rewrite existsb_app. simpl.
  rewrite Z.eqb_refl, String.eqb_refl. apply orb_true_r.
Qed.

(** C5.  Let the listing of the bucket be two objects with different
    paths, neither in the ledger, both readable as a reading of the same
    place at the same timestamp, and let [readings] hold no row with that
    timestamp.  Then the run completes and returns its summary: one new
    reading, one skipped, no error.  [readings] has gained one row, the
    one imported from the first object, and it is the only row with that
    timestamp; the [insert_reading] call for the second object returned
    [False] and left the database as it was; both paths are in the
    ledger. *)
Theorem same_key_objects_give_one_row (json_loads : string -> option json)
    (bucket : list blob) (d0 : database) (b1 b2 : blob) (p t : string) :
  Sync.json_blobs bucket = [b1; b2] ->
  name b1 <> name b2 ->
  in_ledger (name b1) d0 = false ->
  in_ledger (name b2) d0 = false ->
  readable_as json_loads b1 p t ->
  readable_as json_loads b2 p t ->
  readings_at t d0 = [] ->
  exists d1 row,
    Sync.sync_readings json_loads (Some bucket) d0
    = (Ok (Some (Sync.mk_summary 1 1 0 (Z.of_nat (length (readings d0)) + 1))), d1)
    /\ readings d1 = (readings d0 ++ [row])%list
    /\ r_timestamp row = t
    /\ r_synced_from row = Some (name b1)
    /\ readings_at t d1 = [row]
    /\ in_ledger (name b1) d1 = true
    /\ in_ledger (name b2) d1 = true
    /\ exists d data2,
         json_loads (content b2) = Some (JObject data2)
         /\ readings d = readings d1
         /\ insert_reading (r_location_id row)
              (dict_get data2 "popularity" JNull) (dict_get data2 "timestamp" JNull)
              (dict_get data2 "day_of_week" JNull) (dict_get data2 "hour" JNull)
              (dict_get data2 "is_open" (JBool true)) (name b2) d
            = (Ok false, d).
Proof.
  intros Hlist Hne Hl1 Hl2 Hread1 Hread2 Hfree.
  pose proof Hread1 as (data1 & Hload1 & Hp1 & Htruthy & Ht1 & Hb11 & Hb13 & Hb14).
  pose proof Hread2 as (data2 & Hload2 & Hp2 & _ & Ht2 & Hb21 & Hb23 & Hb24).
  set (r0 := Sync.mk_run d0 0 0 0).
  (* the first object is inserted *)
  destruct (sync_blob_readable json_loads b1 r0 data1 p t Hl1 Hload1 Hp1 Htruthy Ht1
              Hb11 Hb13 Hb14)
    as (loc & da & Hloc & (Hr & Hrs & Hs & Hss) & _ & Hcases).
  simpl in Hr, Hrs, Hs, Hss.
  assert (Hfree_a : has_reading loc t da = false).
  { apply no_reading_at. unfold readings_at in *. rewrite Hr. exact Hfree. }
  destruct Hcases as [(Hdup & _) | (_ & row & Hrow_loc & Hrow_t & Hrow_from & Hturn1)];
    [congruence |].
  set (db_mid := add_ledger (name b1) (add_reading row da)) in *.
  set (r1 := Sync.mk_run db_mid (Sync.new_count r0 + 1) (Sync.skip_count r0)
               (Sync.error_count r0)) in *.
  (* the second object finds the key taken *)
  assert (Hl2_mid : in_ledger (name b2) db_mid = false).
  { unfold db_mid. rewrite in_ledger_add.
    rewrite (in_ledger_same_log _ da) by reflexivity.
    rewrite (in_ledger_same_log _ d0 da Hs), Hl2. simpl.
    apply String.eqb_neq. exact Hne. }
  assert (Hloc_mid : location_of p db_mid = Some loc) by exact Hloc.
  assert (Hdup_mid : has_reading loc t db_mid = true).
  { rewrite <- Hrow_loc, <- Hrow_t. unfold db_mid, has_reading. simpl.
    apply (has_reading_added row da). }
  pose proof (sync_blob_duplicate_key json_loads b2 r1 p t loc Hl2_mid Hread2 Hloc_mid
                Hdup_mid) as Hturn2.
  (* the run *)
  assert (Hloop : Sync.sync_loop json_loads [b1; b2] r0
                  = (Ok tt, Sync.mk_run (add_ledger (name b2) db_mid) 1 1 0)).
  { simpl. exec_unfold. rewrite Hturn1, Hturn2. reflexivity. }
  rewrite <- Hlist in Hloop.
  exists (add_ledger (name b2) db_mid), row.
  split.
  { rewrite (sync_readings_loop _ _ _ _ Hloop). simpl.
    rewrite Hr, length_app. simpl.
    replace (Z.of_nat (length (readings d0) + 1)) with (Z.of_nat (length (readings d0)) + 1)
      by lia.
    reflexivity. }
  simpl. rewrite Hr.
  split; [reflexivity |]. split; [exact Hrow_t |]. split; [exact Hrow_from |].
  split.
  { unfold readings_at in *. simpl. rewrite Hr, List.filter_app, Hfree. simpl.
    rewrite Hrow_t, String.eqb_refl. reflexivity. }
  split.
  { rewrite in_ledger_add. unfold db_mid. rewrite in_ledger_add, String.eqb_refl.
    rewrite orb_true_r. reflexivity. }
  split.
  { rewrite in_ledger_add, String.eqb_refl. apply orb_true_r. }
  exists db_mid, data2. split; [exact Hload2 |].
  split; [simpl; rewrite Hr; reflexivity |].
  rewrite Ht2, Hrow_loc.
  apply insert_reading_duplicate; assumption.
Qed.

(** The theorem at work: the reading of 14:30 stored under two paths,
    imported into an empty database. *)
Lemma same_key_objects_give_one_row_witness :
  exists d1 row,
    Sync.sync_readings Sample.json_loads (Some Sample.archive_twice) empty_database
    = (Ok (Some (Sync.mk_summary 1 1 0 1)), d1)
    /\ readings d1 = [row]
    /\ r_timestamp row = "2024-01-28T14:30:00+02:00"
    /\ r_synced_from row = Some "readings/2024/01/28/14-30.json"
    /\ readings_at "2024-01-28T14:30:00+02:00" d1 = [row]
    /\ in_ledger "readings/2024/01/28/14-30.json" d1 = true
    /\ in_ledger "readings/2024/01/28/14-31.json" d1 = true
    /\ exists d data2,
         Sample.json_loads "reading of 14:30" = Some (JObject data2)
         /\ readings d = readings d1
         /\ insert_reading (r_location_id row)
              (dict_get data2 "popularity" JNull) (dict_get data2 "timestamp" JNull)
              (dict_get data2 "day_of_week" JNull) (dict_get data2 "hour" JNull)
              (dict_get data2 "is_open" (JBool true)) "readings/2024/01/28/14-31.json" d
            = (Ok false, d).
Proof.
  assert (Hread : forall b, content b = "reading of 14:30" ->
                    readable_as Sample.json_loads b Sample.nli "2024-01-28T14:30:00+02:00").
  { intros b Hb. exists Sample.reading_1430. rewrite Hb. repeat split. }
  apply (same_key_objects_give_one_row Sample.json_loads Sample.archive_twice empty_database
           Sample.blob_1430 Sample.blob_1431 Sample.nli "2024-01-28T14:30:00+02:00").
  - reflexivity.
  - discriminate.
  - reflexivity.
  - reflexivity.
  - apply Hread. reflexivity.
  - apply Hread. reflexivity.
  - reflexivity.
Defined.

(* ================================================================== *)
(** * Further properties *)

(** ** The ledger operations of [database.py] *)

Lemma ledger_wf_add path d :
  in_ledger path d = false -> ledger_wf d -> ledger_wf (add_ledger path d).
Proof.
  intros Hl (Hp & Hi & Hb). unfold ledger_wf. rewrite ledger_add.
  unfold add_ledger; simpl. rewrite map_app. simpl. split; [| split].
  - apply NoDup_app. split; [exact Hp |]. split; [| apply NoDup_singleton].
    intros x Hx Hx'. apply list_elem_of_In in Hx, Hx'. destruct Hx' as [<- | []].
    apply in_ledger_iff in Hx. congruence.
  - apply NoDup_app. split; [exact Hi |]. split; [| apply NoDup_singleton].
    intros x Hx Hx'. apply list_elem_of_In in Hx, Hx'. destruct Hx' as [<- | []].
    apply in_map_iff in Hx as (s & Hs & Hin).
    rewrite Forall_forall in Hb. apply list_elem_of_In, Hb in Hin. lia.
  - apply Forall_app. split.
    + eapply Forall_impl; [exact Hb |]. simpl. intros; lia.
    + repeat constructor. simpl. lia.
Qed.

Lemma mark_blob_synced_cases path d :
  mark_blob_synced path d =
  (Ok tt, if in_ledger path d then d else add_ledger path d).
Proof.
  destruct (in_ledger path d) eqn:Hl.
  - unfold mark_blob_synced, in_ledger in *. exec_unfold. rewrite Hl. reflexivity.
  - apply mark_blob_synced_new. exact Hl.
Qed.

(** X1.  [mark_blob_synced] never raises; after it [is_blob_synced]
    answers [True] for the path and as before for every other path;
    marking a path a second time changes nothing; and the constraints of
    [sync_log] are kept. *)
Theorem mark_then_is_synced (path : string) (d : database) :
  let d' := snd (mark_blob_synced path d) in
  fst (mark_blob_synced path d) = Ok tt
  /\ is_blob_synced path d' = (Ok true, d')
  /\ (forall other, other <> path ->
        fst (is_blob_synced other d') = fst (is_blob_synced other d))
  /\ mark_blob_synced path d' = (Ok tt, d')
  /\ (fst (is_blob_synced path d) = Ok true -> d' = d)
  /\ (ledger_wf d -> ledger_wf d').
Proof.
  simpl. rewrite mark_blob_synced_cases. simpl.
  assert (Hin : in_ledger path (if in_ledger path d then d else add_ledger path d) = true).
  { destruct (in_ledger path d) eqn:Hl; [exact Hl |].
    rewrite in_ledger_add, String.eqb_refl. apply orb_true_r. }
  split; [reflexivity |]. split; [| split; [| split; [| split]]].
  - unfold is_blob_synced. fold (in_ledger path (if in_ledger path d then d
                                                  else add_ledger path d)).
    rewrite Hin. reflexivity.
  - intros other Hne. unfold is_blob_synced. simpl.
    fold (in_ledger other d).
    fold (in_ledger other (if in_ledger path d then d else add_ledger path d)).
    destruct (in_ledger path d); [reflexivity |].
    rewrite in_ledger_add. apply String.eqb_neq in Hne.
    rewrite String.eqb_sym, Hne, orb_false_r. reflexivity.
  - rewrite mark_blob_synced_cases, Hin. reflexivity.
  - unfold is_blob_synced. simpl. fold (in_ledger path d).
    intros [= ->]. reflexivity.
  - intros Hwf. destruct (in_ledger path d) eqn:Hl; [exact Hwf |].
    apply ledger_wf_add; assumption.
Qed.

(** ** [get_or_create_location] *)

Lemma find_place_none key (l : list location) :
  List.find (fun x => String.eqb (loc_place_id x) key) l = None ->
  ~ In key (map loc_place_id l).
Proof.
  induction l as [| x l IH]; simpl; [tauto |].
  destruct (String.eqb (loc_place_id x) key) eqn:Hx; [discriminate |].
  apply String.eqb_neq in Hx. intros Hnone [H | H]; [congruence | exact (IH Hnone H)].
Qed.

Lemma find_place_some key (l : list location) row :
  List.find (fun x => String.eqb (loc_place_id x) key) l = Some row ->
  In row l /\ loc_place_id row = key.
Proof.
  intros H. apply find_some in H as [Hin Hk]. apply String.eqb_eq in Hk. auto.
Qed.

(** The call for a place id whose SQL text is [key]. *)
Lemma get_or_create_location_key p param key n nh a d :
  bind_param p = Ok param -> text_affinity param = Some key ->
  get_or_create_location p n nh a d =
  match List.find (fun l => String.eqb (loc_place_id l) key) (locations d) with
  | Some row => (Ok (loc_id row), d)
  | None =>
      (Ok (locations_seq d + 1),
       mk_database
         (locations d ++ [mk_location (locations_seq d + 1)
                            (if Py.truthy_opt n then default "" n else "Unknown")
                            nh key a None 1])
         (locations_seq d + 1) (readings d) (readings_seq d) (sync_log d) (sync_log_seq d))
  end.
Proof.
  intros Hb Hk. unfold get_or_create_location. rewrite Hb, Hk. simpl.
  destruct (List.find _ _); reflexivity.
Qed.

Lemma bind_param_null p : bind_param p = Ok SNull -> p = JNull.
Proof.
  destruct p as [| b | z | s | c]; simpl; try discriminate; auto.
  destruct (_ && _); discriminate.
Qed.

Lemma locations_wf_add key n nh a d :
  ~ In key (map loc_place_id (locations d)) ->
  locations_wf d ->
  locations_wf
    (mk_database (locations d ++ [mk_location (locations_seq d + 1) n nh key a None 1])
       (locations_seq d + 1) (readings d) (readings_seq d) (sync_log d) (sync_log_seq d)).
Proof.
  intros Hfree (Hp & Hi & Hb). unfold locations_wf. simpl. rewrite !map_app. simpl.
  split; [| split].
  - apply NoDup_app. split; [exact Hp |]. split; [| apply NoDup_singleton].
    intros x Hx Hx'. apply list_elem_of_In in Hx, Hx'. destruct Hx' as [<- | []]. tauto.
  - apply NoDup_app. split; [exact Hi |]. split; [| apply NoDup_singleton].
    intros x Hx Hx'. apply list_elem_of_In in Hx, Hx'. destruct Hx' as [<- | []].
    apply in_map_iff in Hx as (l & Hl & Hin).
    rewrite Forall_forall in Hb. apply list_elem_of_In, Hb in Hin. lia.
  - apply Forall_app. split.
    + eapply Forall_impl; [exact Hb |]. simpl. intros; lia.
    + repeat constructor. simpl. lia.
Qed.

(** The two ways a call goes: it raises and leaves the database as it
    was, or the place id has an SQL text to look up. *)
Lemma get_or_create_location_outcome p n nh a d :
  ((bindable p = false \/ p = JNull)
   /\ exists e, get_or_create_location p n nh a d = (Raise e, d))
  \/ (bindable p = true /\ p <> JNull
      /\ exists param key, bind_param p = Ok param /\ text_affinity param = Some key).
Proof.
  unfold bindable. destruct (bind_param p) as [param | e] eqn:Hb.
  - destruct (text_affinity param) as [key |] eqn:Hk.
    + right. split; [reflexivity |]. split; [| eauto].
      intros ->. simpl in Hb. injection Hb as <-. discriminate.
    + left. destruct param; try discriminate. apply bind_param_null in Hb. subst.
      split; [auto |]. exists IntegrityError. reflexivity.
  - left. split; [auto |]. exists e. unfold get_or_create_location. rewrite Hb. reflexivity.
Qed.

Lemma get_or_create_location_raise p n nh a d e :
  fst (get_or_create_location p n nh a d) = Raise e ->
  snd (get_or_create_location p n nh a d) = d.
Proof.
  destruct (get_or_create_location_outcome p n nh a d)
    as [(_ & e' & ->) | (_ & _ & param & key & Hb & Hk)]; [reflexivity |].
  rewrite (get_or_create_location_key _ _ _ n nh a d Hb Hk).
  destruct (List.find _ _); discriminate.
Qed.

Lemma get_or_create_location_again p n nh a n' nh' a' d loc :
  fst (get_or_create_location p n nh a d) = Ok loc ->
  get_or_create_location p n' nh' a' (snd (get_or_create_location p n nh a d))
  = (Ok loc, snd (get_or_create_location p n nh a d)).
Proof.
  destruct (get_or_create_location_outcome p n nh a d)
    as [(_ & e' & ->) | (_ & _ & param & key & Hb & Hk)]; [discriminate |].
  rewrite (get_or_create_location_key _ _ _ n nh a d Hb Hk).
  destruct (List.find _ (locations d)) as [row |] eqn:Hfind; simpl; intros [= <-].
  - rewrite (get_or_create_location_key _ _ _ n' nh' a' d Hb Hk), Hfind. reflexivity.
  - rewrite (get_or_create_location_key _ _ _ n' nh' a' _ Hb Hk). simpl.
    rewrite (find_app_none _ _ _ Hfind). simpl. rewrite String.eqb_refl. reflexivity.
Qed.

Lemma get_or_create_location_member p n nh a d loc :
  fst (get_or_create_location p n nh a d) = Ok loc ->
  In loc (map loc_id (locations (snd (get_or_create_location p n nh a d)))).
Proof.
  destruct (get_or_create_location_outcome p n nh a d)
    as [(_ & e' & ->) | (_ & _ & param & key & Hb & Hk)]; [discriminate |].
  rewrite (get_or_create_location_key _ _ _ n nh a d Hb Hk).
  destruct (List.find _ (locations d)) as [row |] eqn:Hfind; simpl; intros [= <-].
  - apply in_map, (find_place_some _ _ _ Hfind).
  - rewrite map_app. apply in_or_app. right. left. reflexivity.
Qed.

Lemma get_or_create_location_wf p n nh a d :
  locations_wf d -> locations_wf (snd (get_or_create_location p n nh a d)).
Proof.
  intros Hwf.
  destruct (get_or_create_location_outcome p n nh a d)
    as [(_ & e' & ->) | (_ & _ & param & key & Hb & Hk)]; [exact Hwf |].
  rewrite (get_or_create_location_key _ _ _ n nh a d Hb Hk).
  destruct (List.find _ (locations d)) as [row |] eqn:Hfind; simpl; [exact Hwf |].
  apply locations_wf_add; [| exact Hwf]. apply find_place_none. exact Hfind.
Qed.

(** X2.  [get_or_create_location] raises exactly when the place id cannot
    be bound or is [None], and then the database is as it was.  When it
    returns an id, a second call for the same place id, with whatever
    metadata, returns the same id and changes nothing; the id is the id of
    a row of [locations]; the constraints of [locations] are kept; and the
    other two tables are never touched. *)
Theorem get_or_create_location_round_trip (place_id : jval)
    (n nh a n' nh' a' : option string) (d : database) :
  let res := get_or_create_location place_id n nh a d in
  ((exists e, fst res = Raise e) <-> bindable place_id = false \/ place_id = JNull)
  /\ (forall e, fst res = Raise e -> snd res = d)
  /\ (forall loc, fst res = Ok loc ->
        get_or_create_location place_id n' nh' a' (snd res) = (Ok loc, snd res)
        /\ In loc (map loc_id (locations (snd res))))
  /\ (locations_wf d -> locations_wf (snd res))
  /\ same_archive_tables d (snd res).
Proof.
  simpl. split; [| split; [| split; [| split]]].
  - destruct (get_or_create_location_outcome place_id n nh a d)
      as [(Hbad & e & Heq) | (Hb & Hnn & param & key & Hbp & Hk)].
    + rewrite Heq. simpl. split; eauto.
    + rewrite (get_or_create_location_key _ _ _ n nh a d Hbp Hk).
      split.
      * intros [e He]. destruct (List.find _ _); discriminate.
      * intros [H | H]; [congruence | contradiction].
  - apply get_or_create_location_raise.
  - intros loc Hloc. split.
    + apply get_or_create_location_again. exact Hloc.
    + apply get_or_create_location_member. exact Hloc.
  - apply get_or_create_location_wf.
  - apply get_or_create_location_tables.
Qed.

(** ** [insert_reading] *)

(** The call either leaves the database as it was and does not return
    [True], or appends one row under the next id. *)
Lemma insert_reading_row loc pop ts dow hr io from d :
  let res := insert_reading loc pop ts dow hr io from d in
  (snd res = d /\ fst res <> Ok true
   /\ ((exists e, fst res = Raise e /\ e <> IntegrityError)
       \/ (fst res = Ok false
           /\ (bind_param ts = Ok SNull
               \/ exists p t, bind_param ts = Ok p /\ text_affinity p = Some t
                              /\ has_reading loc t d = true))))
  \/ (exists row p,
        res = (Ok true, add_reading row d)
        /\ r_id row = readings_seq d + 1
        /\ r_location_id row = loc
        /\ bind_param ts = Ok p /\ text_affinity p = Some (r_timestamp row)
        /\ r_is_open row = (if jtruthy io then 1 else 0)
        /\ r_synced_from row = Some from
        /\ has_reading loc (r_timestamp row) d = false).
Proof.
  unfold insert_reading, add_reading. exec_unfold.
  destruct (bind_param pop) as [p1 | e1] eqn:H1; simpl;
    [| left; destruct (bind_param_raise _ _ H1) as [-> | ->]; simpl;
       (split; [reflexivity |]); (split; [discriminate |]); left; eexists;
       (split; [reflexivity | discriminate])].
  destruct (bind_param ts) as [p2 | e2] eqn:H2; simpl;
    [| left; destruct (bind_param_raise _ _ H2) as [-> | ->]; simpl;
       (split; [reflexivity |]); (split; [discriminate |]); left; eexists;
       (split; [reflexivity | discriminate])].
  destruct (bind_param dow) as [p3 | e3] eqn:H3; simpl;
    [| left; destruct (bind_param_raise _ _ H3) as [-> | ->]; simpl;
       (split; [reflexivity |]); (split; [discriminate |]); left; eexists;
       (split; [reflexivity | discriminate])].
  destruct (bind_param hr) as [p4 | e4] eqn:H4; simpl;
    [| left; destruct (bind_param_raise _ _ H4) as [-> | ->]; simpl;
       (split; [reflexivity |]); (split; [discriminate |]); left; eexists;
       (split; [reflexivity | discriminate])].
  destruct (text_affinity p2) as [t |] eqn:Ht; simpl.
  - destruct (has_reading loc t d) eqn:Hh; simpl.
    + left. split; [reflexivity |]. split; [discriminate |]. right.
      split; [reflexivity |]. right. eauto.
    + right. eexists _, p2. split; [reflexivity |]. simpl. auto 10.
  - left. split; [reflexivity |]. split; [discriminate |]. right.
    split; [reflexivity |]. left. destruct p2; try discriminate. reflexivity.
Qed.

Lemma readings_wf_add row d :
  r_id row = readings_seq d + 1 ->
  has_reading (r_location_id row) (r_timestamp row) d = false ->
  readings_wf d -> readings_wf (add_reading row d).
Proof.
  intros Hid Hfree (Hk & Hi & Hb). unfold readings_wf, add_reading. simpl.
  rewrite !map_app. simpl. split; [| split].
  - apply NoDup_app. split; [exact Hk |]. split; [| apply NoDup_singleton].
    intros x Hx Hx'. apply list_elem_of_In in Hx, Hx'. destruct Hx' as [<- | []].
    apply in_map_iff in Hx as (r0 & Hr0 & Hin). injection Hr0 as Hl Ht.
    unfold has_reading in Hfree.
    assert (Hex : existsb
              (fun r => (r_location_id r =? r_location_id row)
                        && String.eqb (r_timestamp r) (r_timestamp row)) (readings d) = true).
    { apply existsb_exists. exists r0. split; [exact Hin |].
      rewrite Hl, Ht, Z.eqb_refl, String.eqb_refl. reflexivity. }
    congruence.
  - apply NoDup_app. split; [exact Hi |]. split; [| apply NoDup_singleton].
    intros x Hx Hx'. apply list_elem_of_In in Hx, Hx'. destruct Hx' as [<- | []].
    apply in_map_iff in Hx as (r0 & Hr0 & Hin).
    rewrite Forall_forall in Hb. apply list_elem_of_In, Hb in Hin. lia.
  - apply Forall_app. split.
    + eapply Forall_impl; [exact Hb |]. simpl. intros; lia.
    + repeat constructor. simpl. lia.
Qed.

(** X3.  [insert_reading] returns [True] exactly when it has appended one
    row: the row has the next id, the given location, the given path as
    its origin, and a key that no row had; a second call with the same
    arguments then returns [False] and changes nothing.  In every other
    case the database is as it was.  The tables [locations] and
    [sync_log] are never touched and the constraints of [readings] are
    kept. *)
Theorem insert_reading_round_trip (loc : Z) (pop ts dow hr io : jval) (from : string)
    (d : database) :
  let res := insert_reading loc pop ts dow hr io from d in
  (fst res = Ok true ->
     (exists row,
        readings (snd res) = (readings d ++ [row])%list
        /\ r_id row = readings_seq d + 1
        /\ r_location_id row = loc
        /\ r_synced_from row = Some from
        /\ has_reading loc (r_timestamp row) d = false
        /\ has_reading loc (r_timestamp row) (snd res) = true)
     /\ insert_reading loc pop ts dow hr io from (snd res) = (Ok false, snd res))
  /\ (fst res <> Ok true -> snd res = d)
  /\ locations (snd res) = locations d
  /\ sync_log (snd res) = sync_log d
  /\ (readings_wf d -> readings_wf (snd res)).
Proof.
  simpl.
  destruct (insert_reading_row loc pop ts dow hr io from d)
    as [(Hsame & Hnot & _) | (row & p & Heq & Hid & Hloc & Hb & Ht & _ & Hfrom & Hfree)].
  - rewrite Hsame. split; [intros H; contradiction |]. auto.
  - rewrite Heq. simpl. split; [| split; [intros H; congruence |]].
    + intros _. pose proof (has_reading_added row d) as Hadded. rewrite Hloc in Hadded.
      split; [exists row; auto 10 |].
      destruct (insert_reading_row loc pop ts dow hr io from (add_reading row d))
        as [(Hsame & _ & [(e & He & Hne) | (Hfalse & _)])
           | (row' & p' & _ & _ & _ & Hb' & Ht' & _ & _ & Hfree')].
      * exfalso. revert He. unfold insert_reading. exec_unfold.
        pose proof (insert_reading_cases loc pop ts dow hr io from d) as Hc.
        simpl in Hc. rewrite Heq in Hc. simpl in Hc.
        destruct Hc as [(_ & (e0 & He0) & _) | [(_ & He0 & _) | (Hall & _)]];
          try discriminate.
        repeat rewrite andb_true_iff in Hall. destruct Hall as (((B1 & B2) & B3) & B4).
        unfold bindable in *.
        destruct (bind_param pop); [| discriminate].
        destruct (bind_param ts); [| discriminate].
        destruct (bind_param dow); [| discriminate].
        destruct (bind_param hr); [| discriminate].
        injection Hb as <-. rewrite Ht, Hadded. simpl. discriminate.
      * simpl in Hsame, Hfalse.
        rewrite (surjective_pairing
                   (insert_reading loc pop ts dow hr io from (add_reading row d))),
          Hsame, Hfalse.
        reflexivity.
      * rewrite Hb in Hb'. injection Hb' as <-. rewrite Ht in Ht'. injection Ht' as Ht'.
        rewrite <- Ht', Hadded in Hfree'. discriminate.
    + split; [reflexivity |]. split; [reflexivity |].
      intros Hwf. apply readings_wf_add; [exact Hid | rewrite Hloc; exact Hfree | exact Hwf].
Qed.

(** ** The tables through a run of [sync_readings] *)

Lemma sync_blob_turn_db json_loads b r :
  turn_db json_loads b (Sync.db r) (Sync.db (snd (Sync.sync_blob json_loads b r))).
Proof.
  unfold Sync.sync_blob, Sync.lift_db, is_blob_synced, Sync.incr_skip, Sync.incr_error,
    Sync.incr_new.
  exec_unfold. simpl. fold (in_ledger (name b) (Sync.db r)).
  destruct (in_ledger (name b) (Sync.db r)) eqn:Hl; [apply turn_db_same; reflexivity |].
  destruct (json_loads (content b)) as [[data |] |] eqn:Hload; simpl;
    try (apply turn_db_same; reflexivity).
  set (p := dict_get data "place_id" JNull) in *.
  destruct (jtruthy p) eqn:Htruthy; simpl; [| apply turn_db_same; reflexivity].
  destruct (Sync.LOCATIONS_get p) as [info | e] eqn:Hinfo; simpl;
    [| apply turn_db_same; reflexivity].
  pose proof (get_or_create_location_raise p (Sync.info_name <$> info)
                (Sync.info_name_he <$> info) (Sync.info_address <$> info) (Sync.db r)) as Hraise.
  pose proof (get_or_create_location_tables p (Sync.info_name <$> info)
                (Sync.info_name_he <$> info) (Sync.info_address <$> info) (Sync.db r)) as Htab.
  destruct (get_or_create_location _ _ _ _ _) as [[loc | e] d1] eqn:Hgoc; simpl in *;
    [| apply turn_db_same; eauto].
  assert (Hl1 : in_ledger (name b) d1 = false)
    by (rewrite (in_ledger_same_log _ _ _ (proj1 (proj2 (proj2 Htab)))); exact Hl).
  pose proof (insert_reading_row loc (dict_get data "popularity" JNull)
                (dict_get data "timestamp" JNull) (dict_get data "day_of_week" JNull)
                (dict_get data "hour" JNull) (dict_get data "is_open" (JBool true))
                (name b) d1) as Hins.
  simpl in Hins.
  destruct (insert_reading _ _ _ _ _ _ _ _) as [[inserted | e] d2] eqn:Hrow; simpl in *.
  - assert (Hl2 : in_ledger (name b) d2 = false).
    { destruct Hins as [(-> & _) | (row & pp & [= _ ->] & _)]; [exact Hl1 |].
      rewrite (in_ledger_same_log _ d1); [exact Hl1 | reflexivity]. }
    destruct inserted; simpl; rewrite (mark_blob_synced_new _ _ Hl2); simpl;
      eapply turn_db_marked; eauto.
  - destruct Hins as [(-> & _) | (row & pp & [=] & _)].
    eapply turn_db_location; eauto.
Qed.

(** What every turn keeps, a run keeps. *)
Lemma sync_loop_keeps json_loads (P : database -> Prop) blobs :
  (forall b d d', In b blobs -> turn_db json_loads b d d' -> P d -> P d') ->
  forall r, P (Sync.db r) -> P (Sync.db (snd (Sync.sync_loop json_loads blobs r))).
Proof.
  induction blobs as [| b rest IH]; intros Hturn r HP; [exact HP |].
  simpl. exec_unfold.
  pose proof (sync_blob_turn_db json_loads b r) as Hdb.
  destruct (sync_blob_turn json_loads b r) as (r1 & Heq & _).
  rewrite Heq in *. simpl in *.
  apply IH.
  - intros b' d d' Hin. apply Hturn. right. exact Hin.
  - exact (Hturn b _ _ (or_introl eq_refl) Hdb HP).
Qed.

Lemma sync_readings_keeps json_loads (P : database -> Prop) storage d0 :
  (forall b d d', turn_db json_loads b d d' -> P d -> P d') ->
  P d0 -> P (snd (Sync.sync_readings json_loads storage d0)).
Proof.
  intros Hturn HP. destruct storage as [bucket |];
    [| rewrite sync_readings_without_storage; exact HP].
  destruct (sync_readings_run json_loads bucket d0) as (r' & Hloop & ->). simpl.
  pose proof (sync_loop_keeps json_loads P (Sync.json_blobs bucket)
                (fun b d d' _ => Hturn b d d') (Sync.mk_run d0 0 0 0) HP) as H.
  rewrite Hloop in H. exact H.
Qed.

Lemma insert_reading_wf loc pop ts dow hr io from d d' res :
  insert_reading loc pop ts dow hr io from d = (res, d') ->
  locations d' = locations d /\ locations_seq d' = locations_seq d
  /\ sync_log d' = sync_log d /\ sync_log_seq d' = sync_log_seq d
  /\ (readings_wf d -> readings_wf d')
  /\ (In loc (map loc_id (locations d)) -> references_wf d -> references_wf d').
Proof.
  intros Heq.
  destruct (insert_reading_row loc pop ts dow hr io from d)
    as [(Hsame & _) | (row & p & Hrow & Hid & Hloc & _ & _ & _ & _ & Hfree)];
    simpl in *.
  - rewrite Heq in Hsame. simpl in Hsame. subst d'. auto 10.
  - rewrite Heq in Hrow. injection Hrow as -> ->. simpl.
    repeat (split; [reflexivity |]). split.
    + apply readings_wf_add; [exact Hid | rewrite Hloc; exact Hfree].
    + intros Hin Href. unfold references_wf, add_reading in *. simpl.
      apply Forall_app. split; [exact Href |]. repeat constructor. rewrite Hloc. exact Hin.
Qed.

Lemma references_wf_locations d d' :
  same_archive_tables d d' ->
  (forall loc, In loc (map loc_id (locations d)) -> In loc (map loc_id (locations d'))) ->
  references_wf d -> references_wf d'.
Proof.
  intros (Hr & _) Hsub Href. unfold references_wf in *. rewrite Hr.
  eapply Forall_impl; [exact Href |]. simpl. intros r. apply Hsub.
Qed.

Lemma get_or_create_location_grows p n nh a d loc :
  In loc (map loc_id (locations d)) ->
  In loc (map loc_id (locations (snd (get_or_create_location p n nh a d)))).
Proof.
  intros Hin.
  destruct (get_or_create_location_outcome p n nh a d)
    as [(_ & e' & ->) | (_ & _ & param & key & Hb & Hk)]; [exact Hin |].
  rewrite (get_or_create_location_key _ _ _ n nh a d Hb Hk).
  destruct (List.find _ (locations d)); simpl; [exact Hin |].
  rewrite map_app. apply in_or_app. left. exact Hin.
Qed.

Lemma same_tables_wf d d' :
  same_archive_tables d d' ->
  (readings_wf d -> readings_wf d') /\ (ledger_wf d -> ledger_wf d').
Proof.
  intros (Hr & Hrs & Hs & Hss). unfold readings_wf, ledger_wf, ledger.
  rewrite Hr, Hrs, Hs, Hss. auto.
Qed.

Lemma turn_db_constraints json_loads b d d' :
  turn_db json_loads b d d' ->
  schema_wf d /\ references_wf d -> schema_wf d' /\ references_wf d'.
Proof.
  intros Hturn ((Hlw & Hrw & Hgw) & Href).
  destruct Hturn as [-> | data info loc Hl Hload Hinfo Hgoc
                    | data info loc d1 inserted d2 Hl Hload Htr Hinfo Hgoc Hins ->].
  - unfold schema_wf. auto.
  - pose proof (get_or_create_location_tables (dict_get data "place_id" JNull)
                  (Sync.info_name <$> info) (Sync.info_name_he <$> info)
                  (Sync.info_address <$> info) d) as Htab.
    pose proof (get_or_create_location_wf (dict_get data "place_id" JNull)
                  (Sync.info_name <$> info) (Sync.info_name_he <$> info)
                  (Sync.info_address <$> info) d Hlw) as Hwf.
    pose proof (fun l => get_or_create_location_grows (dict_get data "place_id" JNull)
                  (Sync.info_name <$> info) (Sync.info_name_he <$> info)
                  (Sync.info_address <$> info) d l) as Hgrow.
    rewrite Hgoc in *. simpl in *.
    destruct (same_tables_wf _ _ Htab) as (H1 & H2).
    split; [split; [exact Hwf | split; auto] |].
    apply (references_wf_locations d); assumption.
  - pose proof (get_or_create_location_tables (dict_get data "place_id" JNull)
                  (Sync.info_name <$> info) (Sync.info_name_he <$> info)
                  (Sync.info_address <$> info) d) as Htab.
    pose proof (get_or_create_location_wf (dict_get data "place_id" JNull)
                  (Sync.info_name <$> info) (Sync.info_name_he <$> info)
                  (Sync.info_address <$> info) d Hlw) as Hwf.
    pose proof (fun l => get_or_create_location_grows (dict_get data "place_id" JNull)
                  (Sync.info_name <$> info) (Sync.info_name_he <$> info)
                  (Sync.info_address <$> info) d l) as Hgrow.
    pose proof (get_or_create_location_member (dict_get data "place_id" JNull)
                  (Sync.info_name <$> info) (Sync.info_name_he <$> info)
                  (Sync.info_address <$> info) d loc) as Hmem.
    rewrite Hgoc in *. simpl in *. specialize (Hmem eq_refl).
    destruct (same_tables_wf _ _ Htab) as (H1 & H2).
    destruct (insert_reading_wf _ _ _ _ _ _ _ _ _ _ Hins)
      as (Hl2 & Hls2 & Hs2 & Hss2 & Hrw2 & Href2).
    assert (Hled : in_ledger (name b) d2 = false).
    { rewrite (in_ledger_same_log _ d1) by exact Hs2.
      rewrite (in_ledger_same_log _ d) by exact (proj1 (proj2 (proj2 Htab))). exact Hl. }
    split; [split; [| split] |].
    + unfold locations_wf in *. simpl. rewrite Hl2, Hls2. exact Hwf.
    + unfold readings_wf in *. simpl. auto.
    + apply ledger_wf_add; [exact Hled |].
      unfold ledger_wf, ledger in *. rewrite Hs2, Hss2. auto.
    + unfold references_wf. simpl. apply Href2; [exact Hmem |].
      apply (references_wf_locations d); assumption.
Qed.

(** X4.  A run of [sync_readings], with or without access to the bucket
    and whatever the objects hold, keeps the constraints the schema
    declares (the UNIQUE columns and keys of the three tables, ids below
    the AUTOINCREMENT counters) and also the one SQLite does not enforce
    by itself: every reading's [location_id] is the id of a row of
    [locations]. *)
Theorem sync_readings_keeps_constraints (json_loads : string -> option json)
    (storage : option (list blob)) (d0 : database) :
  schema_wf d0 -> references_wf d0 ->
  schema_wf (snd (Sync.sync_readings json_loads storage d0))
  /\ references_wf (snd (Sync.sync_readings json_loads storage d0)).
Proof.
  intros Hs Hr.
  apply (sync_readings_keeps json_loads (fun d => schema_wf d /\ references_wf d)).
  - intros b d d'. apply turn_db_constraints.
  - split; assumption.
Qed.

Lemma sync_readings_keeps_constraints_witness :
  schema_wf (snd (Sync.sync_readings Sample.json_loads (Some Sample.archive) empty_database))
  /\ references_wf
       (snd (Sync.sync_readings Sample.json_loads (Some Sample.archive) empty_database)).
Proof.
  apply sync_readings_keeps_constraints.
  - repeat split; constructor.
  - constructor.
Defined.

(** ** Every object gives at most one reading *)

Lemma readings_from_same d d' path :
  readings d' = readings d -> readings_from path d' = readings_from path d.
Proof. unfold readings_from. intros ->. reflexivity. Qed.

Lemma imported_once_same d d' :
  readings d' = readings d -> sync_log d' = sync_log d ->
  imported_once d -> imported_once d'.
Proof.
  intros Hr Hs H path. rewrite (readings_from_same _ _ _ Hr), (in_ledger_same_log _ _ _ Hs).
  apply H.
Qed.

Lemma turn_imported_once json_loads b r r' :
  turn json_loads b r r' -> imported_once (Sync.db r) -> imported_once (Sync.db r').
Proof.
  intros [Hk -> | d' Hl Hf (Hr & _ & Hs & _) -> | d1 Hl Hf (Hr & _ & Hs & _) ->
         | d1 row Hl Hf (Hr & _ & Hs & _) Hfrom ->] Honce; simpl.
  - exact Honce.
  - exact (imported_once_same _ _ Hr Hs Honce).
  - pose proof (imported_once_same _ _ Hr Hs Honce) as H1.
    intros path. destruct (H1 path) as (Hlen & Hout).
    unfold readings_from in *. simpl. split; [exact Hlen |].
    rewrite in_ledger_add. intros H. apply orb_false_iff in H as (H & _). auto.
  - pose proof (imported_once_same _ _ Hr Hs Honce) as H1.
    assert (Hl1 : in_ledger (name b) d1 = false)
      by (rewrite (in_ledger_same_log _ _ _ Hs); exact Hl).
    intros path. destruct (H1 path) as (Hlen & Hout).
    rewrite in_ledger_add.
    rewrite (in_ledger_same_log path d1 (add_reading row d1)) by reflexivity.
    unfold readings_from in *. simpl. rewrite List.filter_app. simpl. rewrite Hfrom.
    destruct (String.eqb_spec (name b) path) as [<- | Hne].
    + rewrite (Hout Hl1). simpl. split; [| rewrite orb_true_r; discriminate].
      destruct (bool_decide _); simpl; lia.
    + rewrite bool_decide_eq_false_2 by congruence.
      rewrite app_nil_r, orb_false_r. auto.
Qed.

(** X5.  A run of [sync_readings] only appends to [readings]: the rows
    that were there stay, in their order; the number of rows added is the
    summary's count of new readings, and the total it reports is the old
    number of rows plus that count.  Each added row comes from a listed
    object that was not in the ledger before and is in it after.  If no
    object had given two rows before the run, and rows came from marked
    objects only, the same holds after it. *)
Theorem sync_readings_imports_each_object_once (json_loads : string -> option json)
    (bucket : list blob) (d0 : database) :
  exists s d1 added,
    Sync.sync_readings json_loads (Some bucket) d0 = (Ok (Some s), d1)
    /\ readings d1 = (readings d0 ++ added)%list
    /\ Z.of_nat (length added) = Sync.sum_new s
    /\ Sync.sum_total s = Z.of_nat (length (readings d0)) + Sync.sum_new s
    /\ (forall row, In row added ->
          exists b, In b (Sync.json_blobs bucket)
                    /\ r_synced_from row = Some (name b)
                    /\ in_ledger (name b) d0 = false
                    /\ in_ledger (name b) d1 = true)
    /\ (imported_once d0 -> imported_once d1).
Proof.
  pose (P := (fun (blobs : list blob) (r r' : Sync.run) =>
                 (forall path, in_ledger path (Sync.db r) = true ->
                               in_ledger path (Sync.db r') = true)
                 /\ (imported_once (Sync.db r) -> imported_once (Sync.db r'))
                 /\ exists added,
                      readings (Sync.db r') = (readings (Sync.db r) ++ added)%list
                      /\ Z.of_nat (length added) = Sync.new_count r' - Sync.new_count r
                      /\ forall row, In row added ->
                           exists b, In b blobs
                                     /\ r_synced_from row = Some (name b)
                                     /\ in_ledger (name b) (Sync.db r) = false
                                     /\ in_ledger (name b) (Sync.db r') = true)).
  assert (Hbase : forall r, P [] r r).
  { intros r. split; [auto |]. split; [auto |]. exists [].
    rewrite app_nil_r. split; [reflexivity |]. split; [simpl; lia |]. intros row []. }
  assert (Hstep : forall b rest r r1 r2,
            turn json_loads b r r1 -> P rest r1 r2 -> P (b :: rest) r r2).
  { intros b rest r r1 r2 Hturn (Hmono & Hkeep & added & Hrows & Hlen & Hfrom).
    pose proof (fun path => turn_ledger_grows _ _ _ _ path Hturn) as Hgrow.
    split; [intros path Hin; apply Hmono; exact (Hgrow path Hin) |].
    split; [intros H; apply Hkeep; exact (turn_imported_once _ _ _ _ Hturn H) |].
    assert (Hrest : forall row, In row added ->
              exists b0, In b0 (b :: rest) /\ r_synced_from row = Some (name b0)
                         /\ in_ledger (name b0) (Sync.db r) = false
                         /\ in_ledger (name b0) (Sync.db r2) = true).
    { intros row Hin. destruct (Hfrom row Hin) as (b0 & Hb0 & Hsf & Hout & Hthen).
      exists b0. split; [right; exact Hb0 |]. split; [exact Hsf |]. split; [| exact Hthen].
      destruct (in_ledger (name b0) (Sync.db r)) eqn:Hwas; [| reflexivity].
      rewrite (Hgrow _ Hwas) in Hout. discriminate. }
    pose proof (turn_marks _ _ _ _ Hturn) as Hmark.
    destruct Hturn as [Hk -> | d' Hl Hf (Hr & _) -> | d1 Hl Hf (Hr & _) ->
                      | d1 row Hl Hf (Hr & _) Hsf ->]; simpl in *.
    + exists added. auto.
    + exists added. rewrite <- Hr. split; [exact Hrows |]. split; [lia | exact Hrest].
    + exists added. rewrite <- Hr. split; [exact Hrows |]. split; [lia | exact Hrest].
    + exists (row :: added). rewrite Hr in Hrows.
      split; [rewrite Hrows, <- app_assoc; reflexivity |].
      split; [simpl length; lia |].
      intros row' [<- | Hin]; [| exact (Hrest row' Hin)].
      exists b. split; [left; reflexivity |]. split; [exact Hsf |]. split; [exact Hl |].
      apply Hmono, Hmark, Hf. }
  destruct (sync_loop_rect json_loads P Hbase Hstep (Sync.json_blobs bucket)
              (Sync.mk_run d0 0 0 0))
    as [r' (Hloop & Hmono & Hkeep & added & Hrows & Hlen & Hfrom)].
  rewrite (sync_readings_loop _ _ _ _ Hloop).
  eexists _, _, added. split; [reflexivity |]. simpl in *.
  split; [exact Hrows |]. split; [lia |].
  split; [rewrite Hrows, length_app; lia |]. split; [exact Hfrom | exact Hkeep].
Qed.

(** ** Which objects a run looks at *)

(** X6.  A path that a run of [sync_readings] adds to the ledger is the
    name of an object of the bucket under [readings/] that ends in
    [.json] and whose processing did not fail; the state object of the
    collector, which lives in the same bucket, is never marked. *)
Theorem only_reading_objects_enter_the_ledger (json_loads : string -> option json)
    (bucket : list blob) (d0 : database) (path : string) :
  in_ledger path (snd (Sync.sync_readings json_loads (Some bucket) d0)) = true ->
  in_ledger path d0 = false ->
  Py.startswith path Sync.READINGS_PREFIX = true
  /\ Py.endswith path ".json" = true
  /\ path <> Collector.STATE_BLOB
  /\ exists b, In b bucket /\ name b = path /\ fails_processing json_loads b = false.
Proof.
  intros Hin Hout.
  destruct (sync_readings_ledger json_loads bucket d0) as (_ & _ & Hnew & _).
  destruct (Hnew path Hin) as [Hwas | (b & Hb & <- & Hok)]; [congruence |].
  unfold Sync.json_blobs, list_blobs in Hb.
  apply filter_In in Hb as (Hb & Hjson). apply filter_In in Hb as (Hb & Hprefix).
  split; [exact Hprefix |]. split; [exact Hjson |]. split; [| eauto].
  intros Heq. rewrite Heq in Hprefix. vm_compute in Hprefix. discriminate.
Qed.

Lemma only_reading_objects_enter_the_ledger_witness :
  Py.startswith "readings/2024/01/28/14-30.json" Sync.READINGS_PREFIX = true
  /\ Py.endswith "readings/2024/01/28/14-30.json" ".json" = true
  /\ "readings/2024/01/28/14-30.json" <> Collector.STATE_BLOB
  /\ exists b, In b Sample.archive /\ name b = "readings/2024/01/28/14-30.json"
               /\ fails_processing Sample.json_loads b = false.
Proof.
  apply (only_reading_objects_enter_the_ledger Sample.json_loads Sample.archive
           empty_database).
  - vm_compute. reflexivity.
  - vm_compute. reflexivity.
Defined.

(** ** [show_status] *)

Lemma count_unsynced_eq blobs d :
  Sync.count_unsynced blobs d
  = (Ok (Z.of_nat (length (List.filter (fun b => negb (in_ledger (name b) d)) blobs))), d).
Proof.
  induction blobs as [| b rest IH]; [reflexivity |].
  simpl. unfold is_blob_synced. exec_unfold. rewrite IH. simpl.
  fold (in_ledger (name b) d). destruct (in_ledger (name b) d); simpl; [reflexivity |].
  rewrite Nat2Z.inj_succ. do 2 f_equal. lia.
Qed.

Lemma filter_length_le {A} (f g : A -> bool) (l : list A) :
  (forall x, In x l -> f x = true -> g x = true) ->
  (length (List.filter f l) <= length (List.filter g l))%nat.
Proof.
  induction l as [| x l IH]; intros H; [simpl; lia |].
  simpl. specialize (IH (fun y Hy => H y (or_intror Hy))).
  pose proof (H x (or_introl eq_refl)) as Hx.
  destruct (f x); [rewrite (Hx eq_refl) |]; simpl; [lia |].
  destruct (g x); simpl; lia.
Qed.

(** X7.  [show_status] does not write and does not raise.  Without access
    to the bucket it reports the number of readings only.  Right after a
    run of [sync_readings] over the same bucket it reports the number of
    readings, the number of listed [.json] objects, and as pending the
    objects the ledger does not have: all of them are objects whose
    processing fails, and they are the errors the next run reports, a run
    that inserts nothing and skips the rest. *)
Theorem show_status_after_sync (json_loads : string -> option json)
    (bucket : list blob) (d0 : database) :
  let d1 := snd (Sync.sync_readings json_loads (Some bucket) d0) in
  Sync.show_status None d1
  = (Ok (Sync.mk_status (Z.of_nat (length (readings d1))) None None), d1)
  /\ exists pending,
       Sync.show_status (Some bucket) d1
       = (Ok (Sync.mk_status (Z.of_nat (length (readings d1)))
                (Some (Z.of_nat (length (Sync.json_blobs bucket)))) (Some pending)), d1)
       /\ 0 <= pending
          <= Z.of_nat (length (List.filter (fails_processing json_loads)
                                 (Sync.json_blobs bucket)))
       /\ exists s2 d2,
            Sync.sync_readings json_loads (Some bucket) d1 = (Ok (Some s2), d2)
            /\ Sync.sum_new s2 = 0
            /\ Sync.sum_errors s2 = pending
            /\ Sync.sum_skipped s2 + pending = Z.of_nat (length (Sync.json_blobs bucket)).
Proof.
  simpl. set (d1 := snd (Sync.sync_readings json_loads (Some bucket) d0)).
  split; [reflexivity |].
  destruct (sync_readings_ledger json_loads bucket d0) as (_ & Hmarked & _). fold d1 in Hmarked.
  exists (Z.of_nat (length (List.filter (fun b => negb (in_ledger (name b) d1))
                              (Sync.json_blobs bucket)))).
  split; [| split].
  - unfold Sync.show_status, init_db, get_readings_count. exec_unfold.
    rewrite count_unsynced_eq. reflexivity.
  - split; [lia |]. apply inj_le. apply filter_length_le.
    intros b Hb Hout. destruct (fails_processing json_loads b) eqn:Hf; [reflexivity |].
    rewrite (Hmarked b Hb Hf) in Hout. discriminate.
  - destruct (sync_loop_again json_loads (Sync.json_blobs bucket) (Sync.mk_run d1 0 0 0)
                Hmarked) as (r2 & Hloop & _ & Hnew & Hskip & Herr).
    rewrite (sync_readings_loop _ _ _ _ Hloop). eexists _, _. split; [reflexivity |].
    simpl in *. split; [exact Hnew |]. split; [exact Herr |].
    rewrite Hskip.
    pose proof (List.filter_length (fun b => in_ledger (name b) d1) (Sync.json_blobs bucket)).
    lia.
Qed.

(** ** Two edges of a turn *)

Lemma insert_reading_undated loc pop dow hr io from d :
  bindable pop = true -> bindable dow = true -> bindable hr = true ->
  insert_reading loc pop JNull dow hr io from d = (Ok false, d).
Proof.
  unfold bindable, insert_reading. exec_unfold. intros H1 H3 H4. simpl.
  destruct (bind_param pop); [| discriminate].
  destruct (bind_param dow); [| discriminate].
  destruct (bind_param hr); [| discriminate].
  reflexivity.
Qed.

(** X8.  An object that names a place but has no timestamp (or [null] for
    it) is not an error for the importer: the NOT NULL constraint makes
    [insert_reading] return [False], so the object is counted as skipped,
    no reading is stored, its location is looked up or created all the
    same, and its path enters the ledger, so that no later run looks at
    it again. *)
Theorem reading_without_timestamp_is_marked (json_loads : string -> option json)
    (b : blob) (r : Sync.run) (data : gmap string jval) (p : string) :
  in_ledger (name b) (Sync.db r) = false ->
  json_loads (content b) = Some (JObject data) ->
  dict_get data "place_id" JNull = JStr p ->
  Py.truthy p = true ->
  dict_get data "timestamp" JNull = JNull ->
  bindable (dict_get data "popularity" JNull) = true ->
  bindable (dict_get data "day_of_week" JNull) = true ->
  bindable (dict_get data "hour" JNull) = true ->
  exists loc d1,
    Sync.sync_blob json_loads b r
    = (Ok tt, Sync.mk_run (add_ledger (name b) d1) (Sync.new_count r)
                (Sync.skip_count r + 1) (Sync.error_count r))
    /\ same_archive_tables (Sync.db r) d1
    /\ location_of p d1 = Some loc
    /\ fails_processing json_loads b = false
    /\ forall r2, Sync.db r2 = add_ledger (name b) d1 ->
         Sync.sync_blob json_loads b r2
         = (Ok tt, Sync.mk_run (Sync.db r2) (Sync.new_count r2) (Sync.skip_count r2 + 1)
                     (Sync.error_count r2)).
Proof.
  intros Hl Hload Hp Htruthy Ht Hb1 Hb3 Hb4.
  set (info := Sync.LOCATIONS !! p).
  destruct (get_or_create_location_str p (Sync.info_name <$> info)
              (Sync.info_name_he <$> info) (Sync.info_address <$> info) (Sync.db r))
    as (loc & d1 & Hloc & Htab & Hfound).
  exists loc, d1.
  assert (Hl1 : in_ledger (name b) d1 = false)
    by (rewrite (in_ledger_same_log _ _ _ (proj1 (proj2 (proj2 Htab)))); exact Hl).
  split; [| split; [exact Htab | split; [exact Hfound | split]]].
  - unfold Sync.sync_blob, Sync.lift_db, is_blob_synced, Sync.incr_skip, Sync.incr_error,
      Sync.incr_new.
    exec_unfold. simpl. fold (in_ledger (name b) (Sync.db r)).
    rewrite Hl, Hload, Hp, Ht. simpl. rewrite Htruthy. simpl.
    fold info. rewrite Hloc. simpl.
    rewrite (insert_reading_undated _ _ _ _ _ _ _ Hb1 Hb3 Hb4). simpl.
    rewrite (mark_blob_synced_new _ _ Hl1). reflexivity.
  - rewrite (fails_processing_object _ _ _ Hload), Hp, Ht, Hb1, Hb3, Hb4.
    simpl. rewrite Htruthy. reflexivity.
  - intros r2 Hr2. apply sync_blob_known. rewrite Hr2, in_ledger_add, String.eqb_refl.
    apply orb_true_r.
Qed.

Lemma reading_without_timestamp_is_marked_witness :
  exists loc d1,
    Sync.sync_blob Sample2.json_loads Sample2.blob_undated (Sync.mk_run empty_database 0 0 0)
    = (Ok tt, Sync.mk_run (add_ledger (name Sample2.blob_undated) d1) 0 (0 + 1) 0)
    /\ same_archive_tables empty_database d1
    /\ location_of "somewhere" d1 = Some loc
    /\ fails_processing Sample2.json_loads Sample2.blob_undated = false
    /\ forall r2, Sync.db r2 = add_ledger (name Sample2.blob_undated) d1 ->
         Sync.sync_blob Sample2.json_loads Sample2.blob_undated r2
         = (Ok tt, Sync.mk_run (Sync.db r2) (Sync.new_count r2) (Sync.skip_count r2 + 1)
                     (Sync.error_count r2)).
Proof.
  apply (reading_without_timestamp_is_marked Sample2.json_loads Sample2.blob_undated
           (Sync.mk_run empty_database 0 0 0) Sample2.reading_undated "somewhere");
    vm_compute; reflexivity.
Defined.

Lemma get_or_create_location_new p n nh a d :
  location_of p d = None ->
  get_or_create_location (JStr p) n nh a d
  = (Ok (locations_seq d + 1),
     mk_database
       (locations d ++ [mk_location (locations_seq d + 1)
                          (if Py.truthy_opt n then default "" n else "Unknown")
                          nh p a None 1])
       (locations_seq d + 1) (readings d) (readings_seq d) (sync_log d) (sync_log_seq d)).
Proof.
  unfold location_of. intros Hnone.
  rewrite (get_or_create_location_key (JStr p) (SText p) p n nh a d eq_refl eq_refl).
  destruct (List.find _ _); [discriminate | reflexivity].
Qed.

Lemma new_location_eq p d :
  mk_location (locations_seq d + 1)
    (if Py.truthy_opt (Sync.info_name <$> Sync.LOCATIONS !! p)
     then default "" (Sync.info_name <$> Sync.LOCATIONS !! p) else "Unknown")
    (Sync.info_name_he <$> Sync.LOCATIONS !! p) p
    (Sync.info_address <$> Sync.LOCATIONS !! p) None 1
  = new_location p d.
Proof.
  unfold new_location. destruct (Sync.LOCATIONS !! p) as [i |]; simpl; [| reflexivity].
  unfold Py.truthy_opt. simpl. destruct (Py.truthy (Sync.info_name i)); reflexivity.
Qed.

(** X9.  The first readable object of a place the database does not know
    makes the importer create the place's row, and only that row: it gets
    the next id, the name, Hebrew name and address of the [LOCATIONS]
    table when the place is listed there, the name ["Unknown"] and no
    Hebrew name or address when it is not, no operating hours, and it is
    active.  The row is created whether or not the reading is then
    inserted. *)
Theorem first_object_of_a_place_creates_its_location (json_loads : string -> option json)
    (b : blob) (r : Sync.run) (p t : string) :
  in_ledger (name b) (Sync.db r) = false ->
  readable_as json_loads b p t ->
  location_of p (Sync.db r) = None ->
  let d' := Sync.db (snd (Sync.sync_blob json_loads b r)) in
  locations d' = (locations (Sync.db r) ++ [new_location p (Sync.db r)])%list
  /\ locations_seq d' = locations_seq (Sync.db r) + 1
  /\ location_of p d' = Some (locations_seq (Sync.db r) + 1)
  /\ (Sync.LOCATIONS !! p = None ->
        new_location p (Sync.db r)
        = mk_location (locations_seq (Sync.db r) + 1) "Unknown" None p None None 1)
  /\ (forall i, Sync.LOCATIONS !! p = Some i ->
        new_location p (Sync.db r)
        = mk_location (locations_seq (Sync.db r) + 1) (Sync.info_name i)
            (Some (Sync.info_name_he i)) p (Some (Sync.info_address i)) None 1).
Proof.
  intros Hl (data & Hload & Hp & Htruthy & Ht & Hb1 & Hb3 & Hb4) Hnone. simpl.
  destruct (sync_blob_readable json_loads b r data p t Hl Hload Hp Htruthy Ht Hb1 Hb3 Hb4)
    as (loc & d1 & Hloc & Htab & _ & Hrun).
  pose proof (sync_blob_turn_db json_loads b r) as Hdb.
  assert (Hlocs : locations (Sync.db (snd (Sync.sync_blob json_loads b r)))
                  = (locations (Sync.db r) ++ [new_location p (Sync.db r)])%list
                  /\ locations_seq (Sync.db (snd (Sync.sync_blob json_loads b r)))
                     = locations_seq (Sync.db r) + 1).
  { destruct Hdb as [Hsame | data' info loc' _ Hload' Hinfo Hgoc
                    | data' info loc' d2 ins d3 _ Hload' _ Hinfo Hgoc Hins Heq].
    - exfalso.
      assert (Hd1 : locations d1 = locations (Sync.db r)).
      { destruct Hrun as [(_ & Heq) | (_ & row & _ & _ & _ & Heq)];
          rewrite Heq in Hsame; simpl in Hsame; rewrite <- Hsame; reflexivity. }
      unfold location_of in Hloc, Hnone. rewrite Hd1 in Hloc. congruence.
    - rewrite Hload in Hload'. injection Hload' as <-. rewrite Hp in *.
      simpl in Hinfo. injection Hinfo as <-.
      rewrite (get_or_create_location_new _ _ _ _ _ Hnone) in Hgoc.
      injection Hgoc as _ <-. simpl. rewrite new_location_eq. auto.
    - rewrite Hload in Hload'. injection Hload' as <-. rewrite Hp in *.
      simpl in Hinfo. injection Hinfo as <-.
      rewrite (get_or_create_location_new _ _ _ _ _ Hnone) in Hgoc.
      injection Hgoc as _ <-.
      destruct (insert_reading_wf _ _ _ _ _ _ _ _ _ _ Hins) as (H1 & H2 & _).
      rewrite Heq. simpl. rewrite H1, H2. simpl. rewrite new_location_eq. auto. }
  destruct Hlocs as (Hlocs & Hseq).
  split; [exact Hlocs |]. split; [exact Hseq |]. split; [| split].
  - unfold location_of in *. rewrite Hlocs.
    destruct (List.find _ (locations (Sync.db r))) eqn:Hfind; [discriminate |].
    rewrite (find_app_none _ _ _ Hfind).
    unfold new_location at 1. simpl. rewrite String.eqb_refl. reflexivity.
  - intros Hno. unfold new_location. rewrite Hno. reflexivity.
  - intros i Hi. unfold new_location. rewrite Hi.
    unfold Sync.LOCATIONS in Hi. apply lookup_singleton_Some in Hi as (_ & <-).
    reflexivity.
Qed.

Lemma first_object_of_a_place_creates_its_location_witness :
  let r := Sync.mk_run empty_database 0 0 0 in
  let d' := Sync.db (snd (Sync.sync_blob Sample.json_loads Sample.blob_1430 r)) in
  locations d' = (locations (Sync.db r) ++ [new_location Sample.nli (Sync.db r)])%list
  /\ locations_seq d' = locations_seq (Sync.db r) + 1
  /\ location_of Sample.nli d' = Some (locations_seq (Sync.db r) + 1)
  /\ (Sync.LOCATIONS !! Sample.nli = None ->
        new_location Sample.nli (Sync.db r)
        = mk_location (locations_seq (Sync.db r) + 1) "Unknown" None Sample.nli None None 1)
  /\ (forall i, Sync.LOCATIONS !! Sample.nli = Some i ->
        new_location Sample.nli (Sync.db r)
        = mk_location (locations_seq (Sync.db r) + 1) (Sync.info_name i)
            (Some (Sync.info_name_he i)) Sample.nli (Some (Sync.info_address i)) None 1).
Proof.
  apply (first_object_of_a_place_creates_its_location Sample.json_loads Sample.blob_1430
           (Sync.mk_run empty_database 0 0 0) Sample.nli "2024-01-28T14:30:00+02:00").
  - reflexivity.
  - exists Sample.reading_1430. repeat split; vm_compute; reflexivity.
  - reflexivity.
Defined.

(** ** The collector's cycle, step by step *)

Lemma collector_cycle_eq json_dumps env w g t c p :
  collector_resolved env = Some (g, t, c, p) ->
  Collector.monitor_crowds json_dumps env w =
  if Collector.is_library_open (Collector.now_check env) then
    let popularity := popularity_of (Collector.populartimes env g p) in
    let block := Collector.send_or_edit env t c
                   (collector_status popularity (Collector.now env))
                   (collector_archived json_dumps env g p w) in
    (ends_with ("Success: popularity=" ++ Collector.str_opt popularity, 200) (fst block),
     snd block)
  else
    let block := Collector.send_or_edit env t c Collector.closed_message
                   (Collector.mk_world (Collector.bucket w)
                      (Collector.trace w ++ collector_secret_events env)) in
    (ends_with ("Library closed", 200) (fst block), snd block).
Proof.
  unfold Collector.monitor_crowds, Collector.entry_point, Collector.get_storage_client,
    Collector.get_secret, Collector.log,
    collector_resolved, collector_archived, collector_status, collector_secret_events,
    archived_reading, popularity_of, ends_with.
  exec_unfold. simpl.
  destruct (Collector.secrets env "GOOGLE_API_KEY") as [k |]; simpl; [| discriminate].
  destruct (Collector.secrets env "TELEGRAM_BOT_TOKEN") as [t' |]; simpl; [| discriminate].
  destruct (Collector.secrets env "TELEGRAM_CHAT_ID") as [c' |]; simpl; [| discriminate].
  destruct (Collector.secrets env "PLACE_ID") as [p' |]; simpl; [| discriminate].
  intros [= -> -> -> ->]. rewrite <- !app_assoc. simpl.
  destruct (Collector.is_library_open _); simpl.
  - unfold Collector.get_crowd_data, Collector.save_reading, Collector.log.
    exec_unfold. simpl.
    destruct (Collector.populartimes env g p) as [popularity |]; simpl;
      try match goal with
          | |- context [Collector.classify_load ?a] =>
              destruct (Collector.classify_load a) as [load_level emoji]
          end;
      destruct (Collector.archive_write_raises env); simpl;
      rewrite <- ?app_assoc; simpl;
      match goal with
      | |- context [Collector.send_or_edit env t c ?m ?w0] =>
          destruct (Collector.send_or_edit env t c m w0) as [[[] | e] w']
      end; reflexivity.
  - destruct (Collector.send_or_edit _ _ _ _ _) as [[[] | e] w']; reflexivity.
Qed.

(** The send-or-edit block writes the state object only. *)
Lemma collector_send_or_edit_other env t c m w other :
  other <> Collector.STATE_BLOB ->
  find_blob other (Collector.bucket (snd (Collector.send_or_edit env t c m w)))
  = find_blob other (Collector.bucket w).
Proof.
  intros Hne. rewrite collector_send_or_edit_eq. simpl. unfold collector_after_send.
  repeat match goal with
         | |- context [if ?x then _ else _] => destruct x
         | |- context [match created ?x with _ => _ end] => destruct (created x)
         end; simpl; try reflexivity;
    apply find_blob_upload_other; congruence.
Qed.

(** ** Strings *)

Lemma append_cons (x : ascii) (a b : string) : (String x a ++ b)%string = String x (a ++ b).
Proof. reflexivity. Qed.

Lemma startswith_app (p s : string) : Py.startswith (p ++ s) p = true.
Proof.
  induction p as [| a p IH]; [destruct s; reflexivity |].
  rewrite append_cons. simpl. rewrite Ascii.eqb_refl. exact IH.
Qed.

Lemma append_assoc (a b c : string) : ((a ++ b) ++ c = a ++ (b ++ c))%string.
Proof.
  induction a as [| x a IH]; [reflexivity |]. rewrite !append_cons, IH. reflexivity.
Qed.

Lemma append_nil_r (a : string) : (a ++ "" = a)%string.
Proof.
  induction a as [| x a IH]; [reflexivity |]. rewrite append_cons, IH. reflexivity.
Qed.

Lemma rev_acc_append (s acc : string) : Py.rev_acc s acc = (Py.rev s ++ acc)%string.
Proof.
  unfold Py.rev. revert acc. induction s as [| x s IH]; intros acc; simpl; [reflexivity |].
  rewrite (IH (String x acc)), (IH (String x "")), append_assoc. reflexivity.
Qed.

Lemma rev_append (a b : string) : Py.rev (a ++ b) = (Py.rev b ++ Py.rev a)%string.
Proof.
  induction a as [| x a IH]; simpl.
  - rewrite append_nil_r. reflexivity.
  - unfold Py.rev in *. simpl.
    rewrite (rev_acc_append (a ++ b)), (rev_acc_append a). unfold Py.rev.
    rewrite IH, append_assoc. reflexivity.
Qed.

Lemma rev_involutive (s : string) : Py.rev (Py.rev s) = s.
Proof.
  induction s as [| x s IH]; [reflexivity |].
  change (String x s) with ((String x "") ++ s)%string at 1.
  rewrite rev_append, rev_append, IH. reflexivity.
Qed.

Lemma endswith_app (a s : string) : Py.endswith (a ++ s) s = true.
Proof. unfold Py.endswith. rewrite rev_append. apply startswith_app. Qed.

Lemma archive_path_is_listed (now : datetime) :
  Py.startswith (strftime_path Collector.READINGS_PREFIX now) Sync.READINGS_PREFIX = true
  /\ Py.endswith (strftime_path Collector.READINGS_PREFIX now) ".json" = true.
Proof.
  unfold strftime_path. split.
  - apply startswith_app.
  - rewrite <- !append_assoc. apply endswith_app.
Qed.

Lemma find_blob_some path bucket b :
  find_blob path bucket = Some b -> In b bucket /\ name b = path.
Proof.
  unfold find_blob. intros H. apply find_some in H as (Hin & Heq).
  apply String.eqb_eq in Heq. auto.
Qed.

Lemma bindable_int64 n : int64 n -> bindable (JInt n) = true.
Proof.
  unfold int64, bindable. simpl. intros (Hlo & Hhi).
  destruct (Z.leb_spec (- 2 ^ 63) n); [| lia].
  destruct (Z.ltb_spec n (2 ^ 63)); [reflexivity | lia].
Qed.

(** ** From the collector to the local database *)

(** X10.  The reading an open cycle of the collector archives is one the
    importer accepts.  When the secrets resolve and the archive write goes
    through, the cycle leaves under [readings/YYYY/MM/DD/HH-MM.json] an
    object holding the dump of the reading, whatever the messaging
    provider and the state store did in the cycle.  The importer lists
    that object; given that [json.loads] reads the dump back, that the
    place id is not empty and that the numbers fit SQLite's INTEGER, it
    reads it as a reading of the cycle's place at the cycle's timestamp, an
    unknown popularity included, and a run of [sync_readings] over the
    bucket records the object in its ledger. *)
Theorem archived_reading_is_importable (json_dumps : json -> string)
    (json_loads : string -> option json) (env : Collector.environment)
    (bucket : list blob) (g t c p : string) :
  let popularity := popularity_of (Collector.populartimes env g p) in
  let reading := archived_reading (Collector.now env) p popularity in
  let path := strftime_path Collector.READINGS_PREFIX (Collector.now_save env) in
  let b := mk_blob path (json_dumps (JObject reading)) in
  let w' := snd (Collector.monitor_crowds json_dumps env (Collector.mk_world bucket [])) in
  collector_resolved env = Some (g, t, c, p) ->
  Collector.is_library_open (Collector.now_check env) = true ->
  Collector.archive_write_raises env = false ->
  json_loads (json_dumps (JObject reading)) = Some (JObject reading) ->
  Py.truthy p = true ->
  (forall n, popularity = Some n -> int64 n) ->
  int64 (weekday (Collector.now env)) ->
  int64 (hour (Collector.now env)) ->
  find_blob path (Collector.bucket w') = Some b
  /\ In b (Sync.json_blobs (Collector.bucket w'))
  /\ readable_as json_loads b p (isoformat (Collector.now env))
  /\ fails_processing json_loads b = false
  /\ forall d0,
       in_ledger path (snd (Sync.sync_readings json_loads (Some (Collector.bucket w')) d0))
       = true.
Proof.
  intros popularity reading path b w' Hres Hopen Hwrite Hloads Hp Hpop Hday Hhour.
  assert (Hfind : find_blob path (Collector.bucket w') = Some b).
  { unfold w'. rewrite (collector_cycle_eq _ _ _ _ _ _ _ Hres), Hopen. simpl snd.
    rewrite collector_send_or_edit_other by apply archive_path_is_not_state.
    unfold collector_archived. rewrite Hwrite. simpl. apply find_blob_upload_same. }
  assert (Hlisted : In b (Sync.json_blobs (Collector.bucket w'))).
  { destruct (find_blob_some _ _ _ Hfind) as (Hin & _).
    destruct (archive_path_is_listed (Collector.now_save env)) as (Hpre & Hsuf).
    unfold Sync.json_blobs, list_blobs. apply filter_In. split; [| exact Hsuf].
    apply filter_In. split; [exact Hin | exact Hpre]. }
  assert (Hpopb : bindable (dict_get reading "popularity" JNull) = true).
  { unfold reading, archived_reading, dict_get.
    rewrite lookup_insert_ne, lookup_insert_ne, lookup_insert_eq by discriminate.
    destruct popularity as [n |] eqn:Hn; [apply bindable_int64, Hpop; reflexivity |].
    reflexivity. }
  assert (Hread : readable_as json_loads b p (isoformat (Collector.now env))).
  { exists reading. split; [exact Hloads |].
    split; [reflexivity |]. split; [exact Hp |]. split; [reflexivity |].
    split; [exact Hpopb |]. split; apply bindable_int64; assumption. }
  assert (Hok : fails_processing json_loads b = false).
  { destruct Hread as (data & Hl & Hpl & Htr & Hts & H1 & H3 & H4).
    rewrite (fails_processing_object _ _ _ Hl), Hpl, Hts, H1, H3, H4. simpl.
    rewrite Htr. reflexivity. }
  split; [exact Hfind |]. split; [exact Hlisted |]. split; [exact Hread |].
  split; [exact Hok |].
  intros d0. destruct (sync_readings_ledger json_loads (Collector.bucket w') d0)
    as (_ & Hmark & _).
  exact (Hmark b Hlisted Hok).
Qed.

Lemma archived_reading_is_importable_witness :
  let env := Sample2.collector_env Sample2.sunday_1430 in
  let g := "value of GOOGLE_API_KEY" in
  let p := Sample.nli in
  let popularity := popularity_of (Collector.populartimes env g p) in
  let reading := archived_reading (Collector.now env) p popularity in
  let path := strftime_path Collector.READINGS_PREFIX (Collector.now_save env) in
  let b := mk_blob path (Sample2.dumps_1430 (JObject reading)) in
  let w' := snd (Collector.monitor_crowds Sample2.dumps_1430 env
                   (Collector.mk_world Sample.state_42 [])) in
  find_blob path (Collector.bucket w') = Some b
  /\ In b (Sync.json_blobs (Collector.bucket w'))
  /\ readable_as Sample.json_loads b p (isoformat (Collector.now env))
  /\ fails_processing Sample.json_loads b = false
  /\ forall d0,
       in_ledger path
         (snd (Sync.sync_readings Sample.json_loads (Some (Collector.bucket w')) d0))
       = true.
Proof.
  apply (archived_reading_is_importable Sample2.dumps_1430 Sample.json_loads
           (Sample2.collector_env Sample2.sunday_1430) Sample.state_42
           "value of GOOGLE_API_KEY" "value of TELEGRAM_BOT_TOKEN"
           "value of TELEGRAM_CHAT_ID" Sample.nli).
  - vm_compute. reflexivity.
  - vm_compute. reflexivity.
  - reflexivity.
  - vm_compute. reflexivity.
  - reflexivity.
  - intros n [= <-]. unfold int64. lia.
  - unfold int64. simpl. lia.
  - unfold int64. simpl. lia.
Defined.

(** ** The archive keeps one reading a minute *)

Lemma upload_upload path t1 t2 bucket :
  upload path t2 (upload path t1 bucket) = upload path t2 bucket.
Proof.
  unfold upload. induction bucket as [| b rest IH]; simpl.
  - rewrite String.eqb_refl. reflexivity.
  - destruct (String.eqb (name b) path) eqn:Hb; simpl.
    + rewrite String.eqb_refl. reflexivity.
    + rewrite Hb. f_equal. exact IH.
Qed.

Lemma upload_length path t1 t2 bucket :
  length (upload path t1 bucket) = length (upload path t2 bucket).
Proof.
  unfold upload. induction bucket as [| b rest IH]; simpl; [reflexivity |].
  destruct (String.eqb (name b) path); simpl; [reflexivity |]. f_equal. exact IH.
Qed.

Lemma same_minute_path prefix a b :
  same_minute a b -> strftime_path prefix a = strftime_path prefix b.
Proof. unfold strftime_path. intros (-> & -> & -> & -> & ->). reflexivity. Qed.

(** X11.  The archive path has the minute as its finest part, so of two
    readings saved in the same minute only the second is kept: the bucket
    is the one the second write alone would have given, the object at the
    path holds the second dump, and when the first write went through the
    second adds no object. *)
Theorem same_minute_readings_overwrite (json_dumps : json -> string)
    (env1 env2 : Collector.environment) (r1 r2 : gmap string jval) (w : Collector.world) :
  let w1 := snd (Collector.save_reading json_dumps env1 r1 w) in
  let w2 := snd (Collector.save_reading json_dumps env2 r2 w1) in
  let path := strftime_path Collector.READINGS_PREFIX (Collector.now_save env2) in
  same_minute (Collector.now_save env1) (Collector.now_save env2) ->
  Collector.archive_write_raises env2 = false ->
  Collector.bucket w2
  = Collector.bucket (snd (Collector.save_reading json_dumps env2 r2 w))
  /\ find_blob path (Collector.bucket w2) = Some (mk_blob path (json_dumps (JObject r2)))
  /\ (Collector.archive_write_raises env1 = false ->
      length (Collector.bucket w2) = length (Collector.bucket w1)).
Proof.
  intros w1 w2 path Hsame Hok. subst w1 w2 path.
  unfold Collector.save_reading, Collector.log. exec_unfold.
  rewrite (same_minute_path _ _ _ Hsame), Hok.
  destruct (Collector.archive_write_raises env1); simpl.
  - split; [reflexivity |]. split; [apply find_blob_upload_same | discriminate].
  - rewrite upload_upload. split; [reflexivity |].
    split; [apply find_blob_upload_same |]. intros _. apply upload_length.
Qed.

Lemma same_minute_readings_overwrite_witness :
  let env1 := Sample2.collector_env Sample2.sunday_1430 in
  let env2 := Sample2.collector_env Sample2.sunday_1430_later in
  let w := Collector.mk_world Sample.state_42 [] in
  let w1 := snd (Collector.save_reading Sample.json_dumps env1 Sample.reading_1430 w) in
  let w2 := snd (Collector.save_reading Sample2.dumps_1430 env2 Sample.reading_1430 w1) in
  Collector.bucket w2
  = Collector.bucket
      (snd (Collector.save_reading Sample2.dumps_1430 env2 Sample.reading_1430 w))
  /\ find_blob "readings/2024/01/28/14-30.json" (Collector.bucket w2) = Some Sample.blob_1430
  /\ (Collector.archive_write_raises env1 = false ->
      length (Collector.bucket w2) = length (Collector.bucket w1)).
Proof.
  refine (same_minute_readings_overwrite Sample2.dumps_1430
            (Sample2.collector_env Sample2.sunday_1430)
            (Sample2.collector_env Sample2.sunday_1430_later)
            Sample.reading_1430 Sample.reading_1430
            (Collector.mk_world Sample.state_42 []) _ _).
  - repeat split.
  - reflexivity.
Defined.

(** ** The stored message id *)

Lemma no_space_rev_acc s acc :
  no_space (Py.rev_acc s acc) = no_space s && no_space acc.
Proof.
  revert acc. induction s as [| c s IH]; intros acc; simpl; [reflexivity |].
  rewrite IH. simpl.
  destruct (Py.code c <? 128), (Py.isspace c), (no_space s); reflexivity.
Qed.

(** No white space of two or three bytes starts or ends with an ASCII
    byte. *)
Lemma ascii_starts_no_space a b c :
  Py.code a < 128 -> Py.isspace2 a b = false /\ Py.isspace3 a b c = false.
Proof.
  intros H. unfold Py.isspace2, Py.isspace3.
  destruct (Z.eqb_spec (Py.code a) 194); [lia |].
  destruct (Z.eqb_spec (Py.code a) 225); [lia |].
  destruct (Z.eqb_spec (Py.code a) 226); [lia |].
  destruct (Z.eqb_spec (Py.code a) 227); [lia |].
  split; reflexivity.
Qed.

Lemma ascii_ends_no_space a b c :
  Py.code a < 128 -> Py.isspace2 b a = false /\ Py.isspace3 c b a = false.
Proof.
  intros H. unfold Py.isspace2, Py.isspace3.
  destruct (Z.eqb_spec (Py.code a) 133); [lia |].
  destruct (Z.eqb_spec (Py.code a) 160); [lia |].
  destruct (Z.eqb_spec (Py.code a) 128); [lia |].
  destruct (Z.eqb_spec (Py.code a) 168); [lia |].
  destruct (Z.eqb_spec (Py.code a) 169); [lia |].
  destruct (Z.eqb_spec (Py.code a) 175); [lia |].
  destruct (Z.eqb_spec (Py.code a) 159); [lia |].
  destruct (Z.leb_spec 128 (Py.code a)); [lia |].
  rewrite !andb_false_r. split; reflexivity.
Qed.

Lemma no_space_head c s :
  no_space (String c s) = true -> Py.code c < 128 /\ Py.isspace c = false.
Proof.
  simpl. intros H. apply andb_true_iff in H as (H & _). apply andb_true_iff in H as (H1 & H2).
  apply Z.ltb_lt in H1. apply negb_true_iff in H2. auto.
Qed.

Lemma lstrip_no_space s : no_space s = true -> Py.lstrip s = s.
Proof.
  destruct s as [| a s1]; [reflexivity |]. intros H.
  destruct (no_space_head _ _ H) as (Ha & Hs). simpl. rewrite Hs.
  destruct s1 as [| b s2]; [reflexivity |].
  rewrite (proj1 (ascii_starts_no_space a b b Ha)).
  destruct s2 as [| c s3]; [reflexivity |].
  rewrite (proj2 (ascii_starts_no_space a b c Ha)). reflexivity.
Qed.

Lemma lstrip_rev_no_space s : no_space s = true -> Py.lstrip_rev s = s.
Proof.
  destruct s as [| a s1]; [reflexivity |]. intros H.
  destruct (no_space_head _ _ H) as (Ha & Hs). simpl. rewrite Hs.
  destruct s1 as [| b s2]; [reflexivity |].
  rewrite (proj1 (ascii_ends_no_space a b b Ha)).
  destruct s2 as [| c s3]; [reflexivity |].
  rewrite (proj2 (ascii_ends_no_space a b c Ha)). reflexivity.
Qed.

Lemma strip_no_space s : no_space s = true -> Py.strip s = s.
Proof.
  intros H. unfold Py.strip, Py.rstrip. rewrite (lstrip_no_space _ H).
  rewrite lstrip_rev_no_space; [apply rev_involutive |].
  unfold Py.rev. rewrite no_space_rev_acc, H. reflexivity.
Qed.

Lemma no_space_uint d : no_space (NilEmpty.string_of_uint d) = true.
Proof. induction d; simpl; try reflexivity; rewrite IHd; reflexivity. Qed.

Lemma no_space_uint0 d : no_space (NilZero.string_of_uint d) = true.
Proof. destruct d; try reflexivity; exact (no_space_uint _). Qed.

Lemma no_space_str n : no_space (Py.str n) = true.
Proof.
  unfold Py.str, NilZero.string_of_int. destruct (Z.to_int n) as [d | d].
  - apply no_space_uint0.
  - change (no_space (String "-" (NilZero.string_of_uint d)) = true).
    unfold no_space; fold no_space. rewrite no_space_uint0. reflexivity.
Qed.

Lemma strip_str n : Py.strip (Py.str n) = Py.str n.
Proof. apply strip_no_space, no_space_str. Qed.

(** ** The posts of a cycle of [monitor.py] *)

(** X12.  A cycle of [run_check] over an id file that is absent or read
    as it was written (text, and no carriage return in it) posts once or
    twice, always the same text: the closed notice when the library is
    closed, the status text otherwise.  With a stored id that is not blank
    it edits that message; only when the library is open and the edit is
    refused does it send a new message after the edit.  With no stored
    id, or a blank one, it sends one new message. *)
Theorem monitor_cycle_posts (cfg : Monitor.config) (env : Monitor.environment)
    (file : option string) :
  let w' := snd (Monitor.run_check cfg env (Monitor.mk_world file [])) in
  let token := Monitor.TELEGRAM_BOT_TOKEN cfg in
  let chat := Monitor.TELEGRAM_CHAT_ID cfg in
  let popularity :=
    popularity_of (Monitor.populartimes env (Monitor.GOOGLE_API_KEY cfg) (Monitor.PLACE_ID cfg)) in
  let text :=
    if Monitor.is_library_open (Monitor.now_check env)
    then Monitor.status_message (snd (Monitor.classify_load popularity))
           (fst (Monitor.classify_load popularity)) popularity
           (strftime_HM (Monitor.now_stamp env))
    else Monitor.closed_message in
  let send := EvPost (send_payload token chat text)
                (Monitor.requests_post env (send_payload token chat text)) in
  let edit id := EvPost (edit_payload token chat id text)
                   (Monitor.requests_post env (edit_payload token chat id text)) in
  let refused id :=
    negb (not_modified (Monitor.requests_post env (edit_payload token chat id text))
          || delivered (Monitor.requests_post env (edit_payload token chat id text))) in
  (forall content, file = Some content -> read_as_written content) ->
  match Py.strip <$> file with
  | Some id =>
      if Py.truthy id then
        if Monitor.is_library_open (Monitor.now_check env) && refused id
        then posts (Monitor.trace w') = [edit id; send]
        else posts (Monitor.trace w') = [edit id]
      else posts (Monitor.trace w') = [send]
  | None => posts (Monitor.trace w') = [send]
  end.
Proof.
  simpl. intros _.
  rewrite monitor_run_check_eq. simpl. unfold popularity_of, send_payload, edit_payload.
  destruct (Monitor.is_library_open _); simpl.
  - destruct file as [s |]; simpl.
    + destruct (Py.truthy (Py.strip s)); simpl.
      * rewrite monitor_edit_eq. simpl. destruct (_ || _); simpl; [reflexivity |].
        rewrite monitor_send_eq. simpl. destruct (created _); reflexivity.
      * rewrite monitor_send_eq. simpl. destruct (created _); reflexivity.
    + rewrite monitor_send_eq. simpl. destruct (created _); reflexivity.
  - destruct file as [s |]; simpl.
    + destruct (Py.truthy (Py.strip s)); simpl.
      * rewrite monitor_edit_eq. reflexivity.
      * rewrite monitor_send_eq. simpl. destruct (created _); reflexivity.
    + rewrite monitor_send_eq. simpl. destruct (created _); reflexivity.
Qed.

(** The theorem at work: 42 is stored, the message was deleted; on a
    Monday morning the cycle posts the edit and then the send. *)
Lemma monitor_cycle_posts_witness :
  let cfg := Sample.cfg in
  let env := Sample.monitor_env Sample.monday_10 Sample.provider_gone in
  let file := Some "42" in
  let w' := snd (Monitor.run_check cfg env (Monitor.mk_world file [])) in
  let token := Monitor.TELEGRAM_BOT_TOKEN cfg in
  let chat := Monitor.TELEGRAM_CHAT_ID cfg in
  let popularity :=
    popularity_of (Monitor.populartimes env (Monitor.GOOGLE_API_KEY cfg) (Monitor.PLACE_ID cfg)) in
  let text :=
    if Monitor.is_library_open (Monitor.now_check env)
    then Monitor.status_message (snd (Monitor.classify_load popularity))
           (fst (Monitor.classify_load popularity)) popularity
           (strftime_HM (Monitor.now_stamp env))
    else Monitor.closed_message in
  let send := EvPost (send_payload token chat text)
                (Monitor.requests_post env (send_payload token chat text)) in
  let edit id := EvPost (edit_payload token chat id text)
                   (Monitor.requests_post env (edit_payload token chat id text)) in
  posts (Monitor.trace w') = [edit "42"; send].
Proof.
  intros cfg env file w' token chat popularity text send edit.
  exact (monitor_cycle_posts cfg env file
           (fun content H =>
              match H in _ = f return
                    match f with Some c => read_as_written c | None => True end
              with eq_refl => conj eq_refl eq_refl end)).
Defined.

(** X13.  The id of a message that a cycle of [run_check] creates is what
    the id file holds after the cycle, and the next cycle, whatever it
    finds, starts by editing that message and posts at most once more. *)
Theorem monitor_created_message_is_edited_next (cfg : Monitor.config)
    (env env' : Monitor.environment) (file : option string)
    (req : request) (ans : post_result) (n : Z) :
  let w1 := snd (Monitor.run_check cfg env (Monitor.mk_world file [])) in
  let w2 := snd (Monitor.run_check cfg env' (Monitor.mk_world (Monitor.id_file w1) [])) in
  In (EvPost req ans) (Monitor.trace w1) ->
  message_id req = None ->
  created ans = Some n ->
  Monitor.id_file w1 = Some (Py.str n)
  /\ exists text rest,
       posts (Monitor.trace w2)
       = EvPost (edit_payload (Monitor.TELEGRAM_BOT_TOKEN cfg) (Monitor.TELEGRAM_CHAT_ID cfg)
                   (Py.str n) text)
           (Monitor.requests_post env'
              (edit_payload (Monitor.TELEGRAM_BOT_TOKEN cfg) (Monitor.TELEGRAM_CHAT_ID cfg)
                 (Py.str n) text))
         :: rest
       /\ (length rest <= 1)%nat.
Proof.
  intros w1 w2 Hin Hsend Hcreated.
  assert (Hfile : Monitor.id_file w1 = Some (Py.str n)).
  { subst w1 w2. revert Hin. rewrite monitor_run_check_eq. simpl.
    destruct (negb _); simpl.
    - destruct (Py.truthy_opt _); simpl.
      + rewrite monitor_edit_eq. simpl. intros Hin. in_trace Hin. discriminate.
      + rewrite monitor_send_eq. simpl.
        the_created Hc; simpl; intros Hin; in_trace Hin; congruence.
    - destruct (Py.truthy_opt _); simpl.
      + rewrite monitor_edit_eq. simpl. destruct (_ || _); simpl.
        * intros Hin. in_trace Hin. discriminate.
        * rewrite monitor_send_eq. simpl.
          the_created Hc; simpl; intros Hin; in_trace Hin;
            try discriminate; congruence.
      + rewrite monitor_send_eq. simpl.
        the_created Hc; simpl; intros Hin; in_trace Hin; congruence. }
  split; [exact Hfile |].
  subst w2. rewrite Hfile. rewrite monitor_run_check_eq. simpl.
  rewrite strip_str, str_truthy. unfold edit_payload.
  destruct (negb _); simpl.
  - rewrite monitor_edit_eq. simpl. eexists _, []. split; [reflexivity | simpl; lia].
  - rewrite monitor_edit_eq. simpl. destruct (_ || _); simpl.
    + eexists _, []. split; [reflexivity | simpl; lia].
    + rewrite monitor_send_eq. simpl.
      the_created Hc; simpl; eexists _, [_]; (split; [reflexivity | simpl; lia]).
Qed.

Lemma monitor_created_message_is_edited_next_witness :
  let env := Sample.monitor_env Sample.monday_10 Sample.provider_gone in
  let w1 := snd (Monitor.run_check Sample.cfg env (Monitor.mk_world None [])) in
  let w2 := snd (Monitor.run_check Sample.cfg env (Monitor.mk_world (Monitor.id_file w1) [])) in
  Monitor.id_file w1 = Some (Py.str 77)
  /\ exists text rest,
       posts (Monitor.trace w2)
       = EvPost (edit_payload "TOKEN" "@channel" (Py.str 77) text)
           (Monitor.requests_post env (edit_payload "TOKEN" "@channel" (Py.str 77) text))
         :: rest
       /\ (length rest <= 1)%nat.
Proof.
  refine (monitor_created_message_is_edited_next Sample.cfg
            (Sample.monitor_env Sample.monday_10 Sample.provider_gone)
            (Sample.monitor_env Sample.monday_10 Sample.provider_gone) None
            (send_payload "TOKEN" "@channel"
               (Monitor.status_message "🟡" "בינוני" (Some 42) "10:05"))
            (PostReturns Sample.answer_sent) 77 _ _ _).
  - vm_compute. right. right. left. reflexivity.
  - reflexivity.
  - reflexivity.
Defined.

(** ** The posts of a cycle of the collector *)

Lemma posts_app (t1 t2 : list event) : posts (t1 ++ t2) = (posts t1 ++ posts t2)%list.
Proof. apply List.filter_app. Qed.

Lemma posts_secret_events env : posts (collector_secret_events env) = [].
Proof.
  unfold collector_secret_events.
  destruct (Collector.secrets env "GOOGLE_API_KEY"); [| reflexivity].
  destruct (Collector.secrets env "TELEGRAM_BOT_TOKEN"); [| reflexivity].
  destruct (Collector.secrets env "TELEGRAM_CHAT_ID"); reflexivity.
Qed.

(** What the send-or-edit block posts, from the stored id it reads. *)
Lemma collector_send_or_edit_posts env t c m w :
  posts (Collector.trace (snd (Collector.send_or_edit env t c m w)))
  = (posts (Collector.trace w)
     ++ let send := EvPost (send_payload t c m)
                      (Collector.requests_post env (send_payload t c m)) in
        match collector_last_id env w with
        | Some id =>
            let eans := Collector.requests_post env (edit_payload t c id m) in
            if Py.truthy id then
              if not_modified eans || delivered eans
              then [EvPost (edit_payload t c id m) eans]
              else [EvPost (edit_payload t c id m) eans; send]
            else [send]
        | None => [send]
        end)%list.
Proof.
  rewrite collector_send_or_edit_eq. simpl.
  unfold collector_after_send, send_payload, edit_payload, posts.
  destruct (collector_last_id env w) as [id |]; simpl.
  - destruct (Py.truthy id); simpl.
    + destruct (_ || _); simpl.
      * rewrite List.filter_app. reflexivity.
      * the_created Hc; [destruct (Collector.state_write_raises env) |]; simpl;
          rewrite !List.filter_app; simpl; rewrite <- ?app_assoc; reflexivity.
    + the_created Hc; [destruct (Collector.state_write_raises env) |]; simpl;
        rewrite !List.filter_app; simpl; rewrite <- ?app_assoc; reflexivity.
  - the_created Hc; [destruct (Collector.state_write_raises env) |]; simpl;
      rewrite !List.filter_app; simpl; rewrite <- ?app_assoc; reflexivity.
Qed.

Lemma collector_last_id_archived json_dumps env g p w :
  collector_last_id env (collector_archived json_dumps env g p w) = collector_last_id env w.
Proof.
  unfold collector_last_id, collector_archived. simpl.
  destruct (Collector.archive_write_raises env); [reflexivity |].
  rewrite find_blob_upload_other by apply archive_path_is_not_state. reflexivity.
Qed.

(** X14.  A cycle of the collector's entry point over a bucket whose
    state object, if there is one, holds text, posts nothing when a secret
    is missing or the storage client cannot be had, and otherwise once or
    twice, always the same text: the closed notice when the library is
    closed, the status text otherwise.  With a stored id that is not blank
    it edits that message, and sends a new message after the edit exactly
    when the edit is refused, open or closed; with no stored id, a blank
    one or a state store that cannot be read, it sends one new message. *)
Theorem collector_cycle_posts (json_dumps : json -> string) (env : Collector.environment)
    (storage_client_raises : bool) (bucket : list blob) :
  let w := Collector.mk_world bucket [] in
  let w' := snd (Collector.entry_point json_dumps env storage_client_raises w) in
  (forall b, find_blob Collector.STATE_BLOB bucket = Some b -> Py.is_text (content b) = true) ->
  match collector_resolved env with
  | None => posts (Collector.trace w') = []
  | Some (g, t, c, p) =>
      if storage_client_raises then posts (Collector.trace w') = [] else
      let popularity := popularity_of (Collector.populartimes env g p) in
      let text :=
        if Collector.is_library_open (Collector.now_check env)
        then collector_status popularity (Collector.now env)
        else Collector.closed_message in
      let send := EvPost (send_payload t c text)
                    (Collector.requests_post env (send_payload t c text)) in
      let edit id := EvPost (edit_payload t c id text)
                       (Collector.requests_post env (edit_payload t c id text)) in
      let refused id :=
        negb (not_modified (Collector.requests_post env (edit_payload t c id text))
              || delivered (Collector.requests_post env (edit_payload t c id text))) in
      match collector_last_id env w with
      | Some id =>
          if Py.truthy id then
            if refused id then posts (Collector.trace w') = [edit id; send]
            else posts (Collector.trace w') = [edit id]
          else posts (Collector.trace w') = [send]
      | None => posts (Collector.trace w') = [send]
      end
  end.
Proof.
  simpl. intros _. destruct (collector_resolved env) as [[[[g t] c] p] |] eqn:Hres.
  - rewrite collector_entry_point_client by congruence.
    destruct storage_client_raises; [apply posts_secret_events |].
    rewrite (collector_cycle_eq _ _ _ _ _ _ _ Hres).
    destruct (Collector.is_library_open _); simpl;
      rewrite collector_send_or_edit_posts, ?collector_last_id_archived;
      [unfold collector_archived |]; simpl;
      rewrite ?posts_app, posts_secret_events; simpl;
      change (collector_last_id env {| Collector.bucket := bucket; Collector.trace := [] |})
        with (collector_last_id env (Collector.mk_world bucket
                                       ([] ++ collector_secret_events env))).
    + destruct (collector_last_id _ _) as [id |]; [| reflexivity].
      destruct (Py.truthy id); [| reflexivity]. destruct (_ || _); reflexivity.
    + destruct (collector_last_id _ _) as [id |]; [| reflexivity].
      destruct (Py.truthy id); [| reflexivity]. destruct (_ || _); reflexivity.
  - rewrite (collector_entry_point_unresolved _ _ _ _ Hres).
    destruct (collector_monitor_crowds_cases json_dumps env (Collector.mk_world bucket []))
      as [(_ & ->) | (t & c & m & body & w6 & pre & Hsome & _)]; [| contradiction].
    simpl. apply posts_secret_events.
Qed.

(** The theorem at work: 42 is stored, the message was deleted; on a
    Saturday the cycle posts the edit of the closed notice and then sends
    it. *)
Lemma collector_cycle_posts_witness :
  let env := Sample.collector_env Sample.saturday_10 Sample.all_secrets Sample.provider_gone in
  let w := Collector.mk_world Sample.state_42 [] in
  let w' := snd (Collector.entry_point Sample.json_dumps env false w) in
  let t := "value of TELEGRAM_BOT_TOKEN" in
  let c := "value of TELEGRAM_CHAT_ID" in
  let text := Collector.closed_message in
  posts (Collector.trace w')
  = [EvPost (edit_payload t c "42" text)
       (Collector.requests_post env (edit_payload t c "42" text));
     EvPost (send_payload t c text) (Collector.requests_post env (send_payload t c text))].
Proof.
  intros env w w' t c text.
  refine (collector_cycle_posts Sample.json_dumps env false Sample.state_42 _).
  intros b Hb. vm_compute in Hb. injection Hb as <-. reflexivity.
Defined.

(** X15.  The id of a message that a cycle of [monitor_crowds] creates is
    what the state object holds after the cycle, provided the state store
    takes the write; the next cycle, if it resolves its secrets and can
    read the state store, starts by editing that message, whatever it
    archives in between, and posts at most once more. *)
Theorem collector_created_message_is_edited_next (json_dumps : json -> string)
    (env env' : Collector.environment) (bucket : list blob)
    (req : request) (ans : post_result) (n : Z) :
  let w1 := snd (Collector.monitor_crowds json_dumps env (Collector.mk_world bucket [])) in
  let w2 := snd (Collector.monitor_crowds json_dumps env'
                   (Collector.mk_world (Collector.bucket w1) [])) in
  In (EvPost req ans) (Collector.trace w1) ->
  message_id req = None ->
  created ans = Some n ->
  Collector.state_write_raises env = false ->
  collector_stored_id w1 = Some (Py.str n)
  /\ (Collector.state_read_raises env' = false ->
      forall g t c p, collector_resolved env' = Some (g, t, c, p) ->
      exists text rest,
        posts (Collector.trace w2)
        = EvPost (edit_payload t c (Py.str n) text)
            (Collector.requests_post env' (edit_payload t c (Py.str n) text))
          :: rest
        /\ (length rest <= 1)%nat).
Proof.
  intros w1 w2 Hin Hsend Hcreated Hwrite.
  assert (Hstored : collector_stored_id w1 = Some (Py.str n)).
  { subst w1 w2. revert Hin.
    destruct (collector_monitor_crowds_cases json_dumps env (Collector.mk_world bucket []))
      as [(_ & ->) | (token & chat & message & body & w6 & pre & _ & Htr & Hpre & Hst & ->)];
      simpl.
    - intros Hin. destruct (no_post_among_secrets _ _ _ Hin).
    - simpl in Htr. unfold collector_stored_id.
      rewrite collector_send_or_edit_eq. simpl. unfold collector_after_send.
      rewrite Hwrite. intros Hin.
      destruct (Py.truthy_opt _).
      + destruct (_ || _); simpl in *.
        * exfalso. rewrite Htr in Hin. post_cases Hin Hpre. discriminate.
        * the_created Hc; simpl in *; rewrite Htr in Hin; post_cases Hin Hpre;
            try discriminate; try congruence.
          rewrite find_blob_upload_same. simpl. congruence.
      + the_created Hc; simpl in *; rewrite Htr in Hin; post_cases Hin Hpre;
          try congruence.
        rewrite find_blob_upload_same. simpl. congruence. }
  split; [exact Hstored |].
  intros Hread g t c p Hres. subst w2.
  assert (Hlast : collector_last_id env' (Collector.mk_world (Collector.bucket w1) [])
                  = Some (Py.str n)).
  { unfold collector_last_id, collector_stored_id in *. rewrite Hread. simpl.
    destruct (find_blob _ _) as [b |]; [| discriminate].
    simpl in Hstored. injection Hstored as ->. rewrite strip_str. reflexivity. }
  rewrite (collector_cycle_eq _ _ _ _ _ _ _ Hres).
  destruct (Collector.is_library_open _); simpl;
    rewrite collector_send_or_edit_posts, ?collector_last_id_archived;
    [unfold collector_archived |]; simpl;
    rewrite ?posts_app, posts_secret_events; simpl;
    change (collector_last_id env'
              {| Collector.bucket := Collector.bucket w1;
                 Collector.trace := collector_secret_events env' |})
      with (collector_last_id env' (Collector.mk_world (Collector.bucket w1) []));
    rewrite Hlast, str_truthy; simpl;
    (destruct (_ || _);
     [eexists _, []; split; [reflexivity | simpl; lia]
     | eexists _, [_]; split; [reflexivity | simpl; lia]]).
Qed.

Lemma collector_created_message_is_edited_next_witness :
  let env := Sample.collector_env Sample.monday_10 Sample.all_secrets Sample.provider_gone in
  let w1 := snd (Collector.monitor_crowds Sample.json_dumps env (Collector.mk_world [] [])) in
  let w2 := snd (Collector.monitor_crowds Sample.json_dumps env
                   (Collector.mk_world (Collector.bucket w1) [])) in
  collector_stored_id w1 = Some (Py.str 77)
  /\ (Collector.state_read_raises env = false ->
      forall g t c p, collector_resolved env = Some (g, t, c, p) ->
      exists text rest,
        posts (Collector.trace w2)
        = EvPost (edit_payload t c (Py.str 77) text)
            (Collector.requests_post env (edit_payload t c (Py.str 77) text))
          :: rest
        /\ (length rest <= 1)%nat).
Proof.
  refine (collector_created_message_is_edited_next Sample.json_dumps
            (Sample.collector_env Sample.monday_10 Sample.all_secrets Sample.provider_gone)
            (Sample.collector_env Sample.monday_10 Sample.all_secrets Sample.provider_gone)
            []
            (send_payload "value of TELEGRAM_BOT_TOKEN" "value of TELEGRAM_CHAT_ID"
               (Collector.status_message "🟡" "בינוני" (Some 42) "10:05"))
            (PostReturns Sample.answer_sent) 77 _ _ _ _).
  - vm_compute. do 7 right. left. reflexivity.
  - reflexivity.
  - reflexivity.
  - reflexivity.
Defined.

(** ** What a cycle of the collector fetches and archives *)

Lemma collector_send_or_edit_trace env t c m w :
  exists rest,
    Collector.trace (snd (Collector.send_or_edit env t c m w))
    = (Collector.trace w ++ rest)%list
    /\ List.filter is_fetch rest = []
    /\ List.filter is_archive_write rest = [].
Proof.
  rewrite collector_send_or_edit_eq. simpl. unfold collector_after_send.
  destruct (Py.truthy_opt _); [destruct (_ || _) |];
    try (the_created Hc; [destruct (Collector.state_write_raises env) |]); simpl;
    rewrite <- ?app_assoc; simpl; eexists; (split; [reflexivity |]); split; reflexivity.
Qed.

(** X16.  A cycle of the collector's entry point never touches an object
    of the bucket other than the state object and the archive object of
    its own minute.  A cycle that lacks a secret, cannot have the storage
    client or finds the library closed asks the popularity provider
    nothing and writes nothing to the archive.  A cycle that has the
    secrets and the client and finds the library open asks the provider
    once, with the key and the place of the secret store, and offers one
    reading to the archive, both before it reads the stored id or posts;
    whether or not the archive takes the reading (when it does not, the
    archive is as it was), the cycle goes on to publish: its next post
    carries the status text of the fetched popularity to the chat of the
    secret store, as an edit or as a new message, and at most one post
    follows. *)
Theorem collector_cycle_archive (json_dumps : json -> string) (env : Collector.environment)
    (storage_client_raises : bool) (bucket : list blob) :
  let w' := snd (Collector.entry_point json_dumps env storage_client_raises
                   (Collector.mk_world bucket [])) in
  let path := strftime_path Collector.READINGS_PREFIX (Collector.now_save env) in
  (forall other, other <> Collector.STATE_BLOB -> other <> path ->
     find_blob other (Collector.bucket w') = find_blob other bucket)
  /\ (collector_resolved env = None
      \/ storage_client_raises = true
      \/ Collector.is_library_open (Collector.now_check env) = false
      \/ Collector.archive_write_raises env = true ->
      forall other, other <> Collector.STATE_BLOB ->
        find_blob other (Collector.bucket w') = find_blob other bucket)
  /\ (collector_resolved env = None
      \/ storage_client_raises = true
      \/ Collector.is_library_open (Collector.now_check env) = false ->
      List.filter is_fetch (Collector.trace w') = []
      /\ List.filter is_archive_write (Collector.trace w') = [])
  /\ (forall g t c p,
        collector_resolved env = Some (g, t, c, p) ->
        storage_client_raises = false ->
        Collector.is_library_open (Collector.now_check env) = true ->
        exists rest,
          Collector.trace w'
          = (collector_secret_events env
             ++ [EvFetch g p (Collector.populartimes env g p);
                 EvArchiveWrite path (negb (Collector.archive_write_raises env))]
             ++ rest)%list
          /\ List.filter is_fetch rest = []
          /\ List.filter is_archive_write rest = []
          /\ posts (Collector.trace w') = posts rest
          /\ exists req others,
               posts rest = EvPost req (Collector.requests_post env req) :: others
               /\ url req = (if bool_decide (message_id req = None)
                             then sendMessage_url t else editMessageText_url t)
               /\ chat_id req = c
               /\ text req
                  = collector_status (popularity_of (Collector.populartimes env g p))
                      (Collector.now env)
               /\ (length others <= 1)%nat).
Proof.
  simpl.
  assert (Hsecrets : List.filter is_fetch (collector_secret_events env) = []
                     /\ List.filter is_archive_write (collector_secret_events env) = []).
  { unfold collector_secret_events.
    destruct (Collector.secrets env "GOOGLE_API_KEY"); [| split; reflexivity].
    destruct (Collector.secrets env "TELEGRAM_BOT_TOKEN"); [| split; reflexivity].
    destruct (Collector.secrets env "TELEGRAM_CHAT_ID"); split; reflexivity. }
  destruct (collector_resolved env) as [[[[g t] c] p] |] eqn:Hres.
  2:{ rewrite (collector_entry_point_unresolved _ _ _ _ Hres).
      destruct (collector_monitor_crowds_cases json_dumps env (Collector.mk_world bucket []))
        as [(_ & ->) | (t & c & m & body & w6 & pre & Hsome & _)]; [| contradiction].
      simpl. split; [auto |]. split; [auto |]. split; [intros _; exact Hsecrets |].
      intros g t c p [=]. }
  rewrite collector_entry_point_client by congruence.
  destruct storage_client_raises.
  { simpl. split; [auto |]. split; [auto |]. split; [intros _; exact Hsecrets |].
    intros g' t' c' p' _ [=]. }
  rewrite (collector_cycle_eq _ _ _ _ _ _ _ Hres).
  destruct (Collector.is_library_open _) eqn:Hopen; simpl.
  - destruct (collector_send_or_edit_trace env t c
                (collector_status (popularity_of (Collector.populartimes env g p))
                   (Collector.now env))
                (collector_archived json_dumps env g p (Collector.mk_world bucket [])))
      as (rest & Htrace & Hf & Ha).
    split; [| split; [| split]].
    + intros other Hstate Hpath. rewrite collector_send_or_edit_other by exact Hstate.
      unfold collector_archived. simpl.
      destruct (Collector.archive_write_raises env); [reflexivity |].
      apply find_blob_upload_other. congruence.
    + intros [H | [H | [H | H]]] other Hstate; try discriminate.
      rewrite collector_send_or_edit_other by exact Hstate.
      unfold collector_archived. simpl. rewrite H. reflexivity.
    + intros [H | [H | H]]; discriminate.
    + intros g' t' c' p' [= <- <- <- <-] _ _. exists rest.
      rewrite Htrace. unfold collector_archived. simpl. rewrite <- app_assoc.
      split; [reflexivity |]. split; [exact Hf |]. split; [exact Ha |].
      assert (Hposts : posts (Collector.trace (collector_archived json_dumps env g p
                                                 (Collector.mk_world bucket [])))
                       = []).
      { unfold collector_archived. simpl. rewrite posts_app, posts_secret_events.
        reflexivity. }
      assert (Hrest : posts (Collector.trace
                               (snd (Collector.send_or_edit env t c
                                       (collector_status
                                          (popularity_of (Collector.populartimes env g p))
                                          (Collector.now env))
                                       (collector_archived json_dumps env g p
                                          (Collector.mk_world bucket [])))))
                      = posts rest).
      { rewrite Htrace, posts_app, Hposts. reflexivity. }
      split.
      * rewrite !posts_app, posts_secret_events. reflexivity.
      * rewrite <- Hrest, collector_send_or_edit_posts, Hposts.
        simpl. unfold send_payload, edit_payload.
        destruct (collector_last_id _ _) as [id |]; simpl;
          [destruct (Py.truthy id); [destruct (_ || _) |] |];
          eexists _, _; (split; [reflexivity |]); simpl; repeat split; lia.
  - destruct (collector_send_or_edit_trace env t c Collector.closed_message
                (Collector.mk_world bucket (collector_secret_events env)))
      as (rest & Htrace & Hf & Ha).
    split; [| split; [| split]].
    + intros other Hstate _. rewrite collector_send_or_edit_other by exact Hstate. reflexivity.
    + intros _ other Hstate. rewrite collector_send_or_edit_other by exact Hstate. reflexivity.
    + intros _. rewrite Htrace. simpl. rewrite !List.filter_app, Hf, Ha.
      destruct Hsecrets as (-> & ->). split; reflexivity.
    + intros g' t' c' p' _ _ [=].
Qed.

(** ** The two copies of the decision logic *)

(** X17.  [monitor.py] and the collector carry their own copies of the
    opening hours, of the load classifier and of the two message texts,
    and of the rule that reads the provider's answer to an edit; the
    copies agree on every input. *)
Theorem the_two_copies_agree :
  Monitor.OPERATING_HOURS = Collector.OPERATING_HOURS
  /\ (forall now, Monitor.is_library_open now = Collector.is_library_open now)
  /\ (forall popularity, Monitor.classify_load popularity = Collector.classify_load popularity)
  /\ Monitor.closed_message = Collector.closed_message
  /\ (forall popularity (now : datetime),
        Monitor.status_message (snd (Monitor.classify_load popularity))
          (fst (Monitor.classify_load popularity)) popularity (strftime_HM now)
        = collector_status popularity now)
  /\ (forall cfg (menv : Monitor.environment) (cenv : Collector.environment) id text mw cw,
        Monitor.requests_post menv
          (edit_payload (Monitor.TELEGRAM_BOT_TOKEN cfg) (Monitor.TELEGRAM_CHAT_ID cfg) id text)
        = Collector.requests_post cenv
            (edit_payload (Monitor.TELEGRAM_BOT_TOKEN cfg) (Monitor.TELEGRAM_CHAT_ID cfg)
               id text) ->
        fst (Monitor.edit_telegram_message cfg menv id text mw)
        = fst (Collector.edit_telegram_message cenv (Monitor.TELEGRAM_BOT_TOKEN cfg)
                 (Monitor.TELEGRAM_CHAT_ID cfg) id text cw)).
Proof.
  split; [reflexivity |]. split; [reflexivity |]. split; [reflexivity |].
  split; [reflexivity |]. split; [reflexivity |].
  intros cfg menv cenv id text mw cw Hsame.
  rewrite monitor_edit_eq, collector_edit_eq. simpl. unfold edit_payload in Hsame.
  rewrite Hsame. reflexivity.
Qed.
